(** * SEC filing extraction pipeline: fetcher, exporters and entry point

    A shallow embedding of [sec_filing_fetcher.py] and
    [end_to_end_example.py] (with the helpers of [financial_extraction.py]
    the entry point calls), followed by the properties of the
    specification proved, or refuted, on it.

    Conventions.
    - A Python [str] is the [string] of its UTF-8 encoding: a character
      (code point) is a lead byte with its continuation bytes, so
      lengths and slices count lead bytes; a file holds bytes, which
      text-mode reading decodes.
    - A Python [dict] whose iteration order is observable (a table row,
      the attributes of an extraction, a [Counter]) is an association
      list in insertion order; the file system and the ticker table,
      which are only read by key, are [gmap]s.
    - Code with effects (console, file system, HTTP, exceptions) lives in
      the monad [M]: a state transformer over [World] whose result is
      either a raised exception or a value. *)

From Stdlib Require Import String Ascii List Sorted Permutation Arith Lia DecimalString.
From stdpp Require Import gmap strings list fin_maps.

Local Open Scope string_scope.

(** ** Python string operations used by the sources *)

Module PyStr.

(** *** Code points in UTF-8 *)

(** The bytes [10xxxxxx], which continue a code point. *)
Definition is_continuation (c : ascii) : bool :=
  match c with
  | Ascii _ _ _ _ _ _ b6 b7 => b7 && negb b6
  end.

(** [len(s)]: the number of code points. *)
Fixpoint len (s : string) : nat :=
  match s with
  | EmptyString => 0
  | String c s' => if is_continuation c then len s' else S (len s')
  end.

(** [s[:n]]: the first [n] code points. *)
Fixpoint slice_to (n : nat) (s : string) : string :=
  match s with
  | EmptyString => EmptyString
  | String c s' =>
      if is_continuation c then String c (slice_to n s')
      else match n with
           | O => EmptyString
           | S n' => String c (slice_to n' s')
           end
  end.

(** All code points are below U+0080. *)
Fixpoint is_ascii (s : string) : bool :=
  match s with
  | EmptyString => true
  | String c s' => (nat_of_ascii c <? 128)%nat && is_ascii s'
  end.

Definition in_range (lo hi n : nat) : bool := ((lo <=? n) && (n <=? hi))%nat.

(** The strict decoder of [bytes.decode("utf-8")] accepts exactly the
    well-formed sequences: no stray or missing continuation byte, no
    overlong form, no surrogate, nothing above U+10FFFF. *)
Fixpoint utf8_valid (s : string) : bool :=
  match s with
  | EmptyString => true
  | String c1 s1 =>
      let n1 := nat_of_ascii c1 in
      if (n1 <? 128)%nat then utf8_valid s1
      else
        match s1 with
        | EmptyString => false
        | String c2 s2 =>
            let n2 := nat_of_ascii c2 in
            if in_range 194 223 n1 then in_range 128 191 n2 && utf8_valid s2
            else
              match s2 with
              | EmptyString => false
              | String c3 s3 =>
                  let n3 := nat_of_ascii c3 in
                  if (Nat.eqb n1 224 && in_range 160 191 n2)
                     || (in_range 225 236 n1 && in_range 128 191 n2)
                     || (Nat.eqb n1 237 && in_range 128 159 n2)
                     || (in_range 238 239 n1 && in_range 128 191 n2)
                  then in_range 128 191 n3 && utf8_valid s3
                  else
                    match s3 with
                    | EmptyString => false
                    | String c4 s4 =>
                        ((Nat.eqb n1 240 && in_range 144 191 n2)
                         || (in_range 241 243 n1 && in_range 128 191 n2)
                         || (Nat.eqb n1 244 && in_range 128 143 n2))
                        && in_range 128 191 n3
                        && in_range 128 191 (nat_of_ascii c4)
                        && utf8_valid s4
                    end
              end
        end
  end.

Definition LF : ascii := ascii_of_nat 10.
Definition CR : ascii := ascii_of_nat 13.

(** Universal newlines, the translation of text-mode reading: [\r\n]
    and a lone [\r] are read as [\n]. *)
Fixpoint universal_newlines (s : string) : string :=
  match s with
  | EmptyString => EmptyString
  | String c s' =>
      if Ascii.eqb c CR then
        match s' with
        | String c' s'' =>
            if Ascii.eqb c' LF then String LF (universal_newlines s'')
            else String LF (universal_newlines s')
        | EmptyString => String LF EmptyString
        end
      else String c (universal_newlines s')
  end.

(** *** Case *)

Definition is_lower (c : ascii) : bool :=
  ((97 <=? nat_of_ascii c) && (nat_of_ascii c <=? 122))%nat.

Definition upper_char (c : ascii) : ascii :=
  if is_lower c then ascii_of_nat (nat_of_ascii c - 32) else c.

(** [s.upper()] for a string of ASCII characters: the letters [a] to
    [z] are the only ones that change. *)
Fixpoint upper_ascii (s : string) : string :=
  match s with
  | EmptyString => EmptyString
  | String c s' => String (upper_char c) (upper_ascii s')
  end.

(** [s.upper()]. The case mapping of the Unicode character database is
    not written out: [unicode_upper] stands for [str.upper] on the
    strings that are not ASCII. *)
Definition upper (unicode_upper : string -> string) (s : string) : string :=
  if is_ascii s then upper_ascii s else unicode_upper s.

(** *** Whitespace *)

(** [c.isspace()] below U+0080: tab, line feed, vertical tab, form
    feed, carriage return, the four separators 28..31, and space. *)
Definition is_space (c : ascii) : bool :=
  let n := nat_of_ascii c in
  (((9 <=? n) && (n <=? 13)) || ((28 <=? n) && (n <=? 32)))%nat.

(** U+0085 and U+00A0. *)
Definition is_space2 (c1 c2 : ascii) : bool :=
  Nat.eqb (nat_of_ascii c1) 194
  && (Nat.eqb (nat_of_ascii c2) 133 || Nat.eqb (nat_of_ascii c2) 160).

(** U+1680, U+2000 to U+200A, U+2028, U+2029, U+202F, U+205F and
    U+3000. *)
Definition is_space3 (c1 c2 c3 : ascii) : bool :=
  let n1 := nat_of_ascii c1 in
  let n2 := nat_of_ascii c2 in
  let n3 := nat_of_ascii c3 in
  (Nat.eqb n1 225 && Nat.eqb n2 154 && Nat.eqb n3 128)
  || (Nat.eqb n1 226 && Nat.eqb n2 128
      && (in_range 128 138 n3 || Nat.eqb n3 168 || Nat.eqb n3 169 || Nat.eqb n3 175))
  || (Nat.eqb n1 226 && Nat.eqb n2 129 && Nat.eqb n3 159)
  || (Nat.eqb n1 227 && Nat.eqb n2 128 && Nat.eqb n3 128).

(** The string is one whitespace character: the characters [str.strip]
    removes, those of [str.isspace]. *)
Definition is_whitespace (s : string) : bool :=
  match s with
  | String c1 EmptyString => is_space c1
  | String c1 (String c2 EmptyString) => is_space2 c1 c2
  | String c1 (String c2 (String c3 EmptyString)) => is_space3 c1 c2 c3
  | _ => false
  end.

(** [s.lstrip()] *)
Fixpoint lstrip (s : string) : string :=
  match s with
  | EmptyString => EmptyString
  | String c1 s1 =>
      if is_space c1 then lstrip s1
      else
        match s1 with
        | EmptyString => s
        | String c2 s2 =>
            if is_space2 c1 c2 then lstrip s2
            else
              match s2 with
              | EmptyString => s
              | String c3 s3 => if is_space3 c1 c2 c3 then lstrip s3 else s
              end
        end
  end.

(** [s.rstrip()]: what is left of [s] is one whitespace character
    exactly when everything from here on is whitespace. *)
Fixpoint rstrip (s : string) : string :=
  match s with
  | EmptyString => EmptyString
  | String c s' =>
      let kept := String c (rstrip s') in
      if is_whitespace kept then EmptyString else kept
  end.

(** [s.strip()] *)
Definition strip (s : string) : string := rstrip (lstrip s).

(** [s.lstrip(chars)] for a predicate on ASCII characters *)
Fixpoint lstrip_by (p : ascii -> bool) (s : string) : string :=
  match s with
  | EmptyString => EmptyString
  | String c s' => if p c then lstrip_by p s' else s
  end.

(** [s.lstrip("0")] *)
Definition lstrip_zeros (s : string) : string :=
  lstrip_by (fun c => Ascii.eqb c "0"%char) s.

(** *** Splitting, joining, searching *)

(** [s.split(sep)] for a one-character ASCII separator; never empty. *)
Fixpoint split (sep : ascii) (s : string) : list string :=
  match s with
  | EmptyString => [EmptyString]
  | String c s' =>
      if Ascii.eqb c sep then EmptyString :: split sep s'
      else match split sep s' with
           | [] => [String c EmptyString]
           | h :: t => String c h :: t
           end
  end.

(** [sep.join(parts)] *)
Fixpoint join (sep : string) (parts : list string) : string :=
  match parts with
  | [] => EmptyString
  | [p] => p
  | p :: ps => p +:+ sep +:+ join sep ps
  end.

(** [sub in s] *)
Fixpoint contains (sub s : string) : bool :=
  String.prefix sub s ||
  match s with
  | EmptyString => false
  | String _ s' => contains sub s'
  end.

(** [c * n] for a one-character string [c] *)
Fixpoint repeat_char (c : ascii) (n : nat) : string :=
  match n with
  | O => EmptyString
  | S n' => String c (repeat_char c n')
  end.

(** *** Numbers *)

(** [str(n)] *)
Definition str_of_nat (n : nat) : string := NilZero.string_of_uint (Nat.to_uint n).

(** Digit grouping of the format spec [:,] : a comma before every
    group of three digits counted from the right. *)
Fixpoint group_right (digits : list ascii) : list ascii :=
  match digits with
  | [] => []
  | d :: ds =>
      let rest := group_right ds in
      if ((0 <? List.length ds) && (List.length ds mod 3 =? 0))%nat
      then d :: ","%char :: rest
      else d :: rest
  end.

(** [f"{n:,}"] *)
Definition format_thousands (n : nat) : string :=
  string_of_list_ascii (group_right (list_ascii_of_string (str_of_nat n))).

(** Truth value of an optional string: [None] and [""] are falsy. *)
Definition truthy (o : option string) : bool :=
  match o with
  | Some (String _ _) => true
  | _ => false
  end.

End PyStr.

(** ** Dictionaries in insertion order *)

Module PyDict.

Definition dict (V : Type) : Type := list (string * V).

(** [d.get(key)] *)
Fixpoint get {V : Type} (key : string) (d : dict V) : option V :=
  match d with
  | [] => None
  | (k, v) :: d' => if String.eqb k key then Some v else get key d'
  end.

(** [d.get(key, default)] *)
Definition get_default {V : Type} (key : string) (default : V) (d : dict V) : V :=
  match get key d with
  | Some v => v
  | None => default
  end.

(** [d[key] = v]: an existing key keeps its place, a new one enters at
    the end. *)
Fixpoint set {V : Type} (key : string) (v : V) (d : dict V) : dict V :=
  match d with
  | [] => [(key, v)]
  | (k, v') :: d' => if String.eqb k key then (k, v) :: d' else (k, v') :: set key v d'
  end.

(** [l.append(x)] *)
Definition append {A : Type} (l : list A) (x : A) : list A := (l ++ [x])%list.

(** [d.keys()] *)
Definition keys {V : Type} (d : dict V) : list string := map fst d.

End PyDict.

(** ** Data model of the annotation library *)

Module lx.

(** Modelled from the spec: the character interval of an extraction,
    declared by the external annotation library; a half-open interval
    into the source text. *)
Record CharInterval : Type := {
  start_pos : nat;
  end_pos : nat
}.

(** Modelled from the spec: [Extraction], declared by the external
    annotation library and absent from the sources: a class label, the
    exact substring of the document, an optional character interval
    and a mapping of string keys to string values. *)
Record Extraction : Type := {
  extraction_class : string;
  extraction_text : string;
  char_interval : option CharInterval;
  attributes : PyDict.dict string
}.

(** Modelled from the spec: [AnnotatedDocument], the source text plus
    an ordered sequence of extractions. *)
Record AnnotatedDocument : Type := {
  text : string;
  extractions : list Extraction
}.

(** Modelled from the spec: [ExampleData], a worked example handed to
    the annotation service: a short text and the extractions expected
    from it. *)
Record ExampleData : Type := {
  example_text : string;
  example_extractions : list Extraction
}.

End lx.

(** ** Runtime: console, file system, HTTP and exceptions *)

Module Py.

(** What a raised exception carries: [sys.exit(code)] raises
    [SystemExit], which [except Exception] does not catch; every other
    exception of the program is an [Exception] with its message. *)
Inductive exn : Type :=
| SystemExit (code : nat)
| Exception (msg : string).

(** [requests.get(url, params=..., headers=HEADERS, timeout=...)] *)
Record HttpRequest : Type := {
  req_url : string;
  req_params : list (string * string);
  req_timeout : nat
}.

(** The observable operations, in the order the program performs them. *)
Inductive event : Type :=
| Stdout (line : string)
| HttpGet (req : HttpRequest)
| Sleep
| Mkdir (path : string)
| FileWrite (path : string) (content : string)
| LlmExtract (doc : string) (model_id : string).

Inductive node : Type :=
| Dir
| File (content : string).

Record World : Type := {
  fs : gmap string node;
  trace : list event
}.

Definition M (A : Type) : Type := World -> World * (exn + A).

#[export] Instance M_ret : MRet M := fun A a w => (w, inr a).

#[export] Instance M_bind : MBind M := fun A B k m w =>
  match m w with
  | (w', inl e) => (w', inl e)
  | (w', inr a) => k a w'
  end.

Definition raise {A : Type} (e : exn) : M A := fun w => (w, inl e).

(** [try: body  except Exception as e: handler(str(e))] *)
Definition try_except {A : Type} (body : M A) (handler : string -> M A) : M A :=
  fun w =>
    match body w with
    | (w', inl (Exception msg)) => handler msg w'
    | r => r
    end.

Definition emit (e : event) : M unit := fun w =>
  ({| fs := fs w; trace := trace w ++ [e] |}, inr tt).

(** [print(line)] *)
Definition print (line : string) : M unit := emit (Stdout line).

(** [sys.exit(code)] *)
Definition sys_exit {A : Type} (code : nat) : M A := raise (SystemExit code).

(** [time.sleep(0.1)] *)
Definition sleep : M unit := emit Sleep.

(** [for x in l: body(x)] *)
Fixpoint for_each {A : Type} (l : list A) (body : A -> M unit) : M unit :=
  match l with
  | [] => mret tt
  | x :: l' => body x;; for_each l' body
  end.

(** *** Paths

    A path is the string that [str] gives for it, and [p / name]
    appends a component to a directory [p] (one that is neither [.]
    nor the root). *)
Definition path_join (p name : string) : string := p +:+ "/" +:+ name.

(** [p.parent]: the path without its final component; [""] stands for
    the directory the path is relative to (or the root), which exists. *)
Definition parent (p : string) : string :=
  PyStr.join "/" (removelast (PyStr.split "/" p)).

Definition is_dir (w : World) (p : string) : bool :=
  match fs w !! p with
  | Some Dir => true
  | _ => false
  end.

Definition parent_is_dir (w : World) (p : string) : bool :=
  match parent p with
  | EmptyString => true
  | d => is_dir w d
  end.

(** [p.exists()] *)
Definition path_exists (p : string) : M bool := fun w =>
  (w, inr (bool_decide (is_Some (fs w !! p)))).

(** [p.read_text(encoding="utf-8")]: the bytes of the file are decoded
    strictly, and newlines are translated on the way in. *)
Definition read_text (p : string) : M string := fun w =>
  match fs w !! p with
  | Some (File content) =>
      if PyStr.utf8_valid content then (w, inr (PyStr.universal_newlines content))
      else (w, inl (Exception "UnicodeDecodeError"))
  | Some Dir => (w, inl (Exception "IsADirectoryError"))
  | None => (w, inl (Exception "FileNotFoundError"))
  end.

Definition fs_write (p content : string) : M unit := fun w =>
  match fs w !! p with
  | Some Dir => (w, inl (Exception "IsADirectoryError"))
  | _ =>
      if parent_is_dir w p
      then ({| fs := <[p := File content]> (fs w);
               trace := trace w ++ [FileWrite p content] |}, inr tt)
      else (w, inl (Exception "FileNotFoundError"))
  end.

(** [p.write_text(content, encoding="utf-8")], and
    [open(p, "w", encoding="utf-8")] followed by one write: the file
    receives the encoding of the text (the line separator of the
    platform being the line feed). *)
Definition write_text (p content : string) : M unit := fs_write p content.

(** [p.mkdir(exist_ok=True)]: an existing directory is accepted, an
    existing file or a missing parent raises. *)
Definition mkdir_exist_ok (p : string) : M unit := fun w =>
  let w1 := {| fs := fs w; trace := trace w ++ [Mkdir p] |} in
  match fs w !! p with
  | Some Dir => (w1, inr tt)
  | Some (File _) => (w1, inl (Exception "FileExistsError"))
  | None =>
      if parent_is_dir w p
      then ({| fs := <[p := Dir]> (fs w); trace := trace w1 |}, inr tt)
      else (w1, inl (Exception "FileNotFoundError"))
  end.

End Py.

(** ** Parsed HTML pages *)

Module bs4.

(** An [<a>] element; [link["href"]] raises [KeyError] without the
    attribute. *)
Record Anchor : Type := { href : option string }.

(** A [<td>] element: its [.text] and the result of [.find("a")]. *)
Record Td : Type := {
  td_text : string;
  td_a : option Anchor
}.

(** A [<tr>] element, as the list [row.find_all("td")]. *)
Definition Tr : Type := list Td.

(** A [<table>] element: its classes and the list
    [table.find_all("tr")]. *)
Record Table : Type := {
  table_class : list string;
  table_rows : list Tr
}.

(** A parsed document: its tables in document order, and the result of
    [get_text(separator="\n", strip=True)] once the [script], [style],
    [meta] and [link] elements are decomposed. *)
Record BeautifulSoup : Type := {
  tables : list Table;
  get_text : string
}.

(** [soup.find("table", {"class": cls})] *)
Fixpoint find_table_in (cls : string) (ts : list Table) : option Table :=
  match ts with
  | [] => None
  | t :: ts' =>
      if bool_decide (cls ∈ table_class t) then Some t else find_table_in cls ts'
  end.

Definition find_table (cls : string) (soup : BeautifulSoup) : option Table :=
  find_table_in cls (tables soup).

End bs4.

(** ** sec_filing_fetcher.py *)

Module sec_filing_fetcher.

Import Py bs4.

Definition BASE_URL : string := "https://www.sec.gov".

Record SECFilingFetcher : Type := { cache_dir : string }.

(** A filing metadata dict. *)
Record Filing : Type := {
  filing_type : string;
  filing_date : string;
  filing_url : string
}.

Definition ticker_to_cik : gmap string string :=
  list_to_map
    [ ("NVDA", "0001045810");
      ("MSFT", "0000789019");
      ("AAPL", "0000320193");
      ("GOOGL", "0001652044");
      ("AMZN", "0001018724");
      ("TSLA", "0001318605");
      ("META", "0001326801") ].

(** [unicode_upper] is [str.upper] beyond ASCII, see [PyStr.upper]. *)
Definition get_company_cik (unicode_upper : string -> string) (ticker : string)
  : option string :=
  ticker_to_cik !! PyStr.upper unicode_upper ticker.

(** Code that can raise but has no other effect. *)
Definition lift_exn {A : Type} (r : string + A) : M A :=
  match r with
  | inl msg => raise (Exception msg)
  | inr a => mret a
  end.

(** [link["href"]] *)
Definition get_href (a : Anchor) : string + string :=
  match href a with
  | Some h => inr h
  | None => inl "'href'"
  end.

(** The loop of [search_filings] over [rows[:count]]. *)
Fixpoint collect_filings (ftype : string) (rows : list Tr) (filings : list Filing)
  : string + list Filing :=
  match rows with
  | [] => inr filings
  | cols :: rows' =>
      if (4 <=? List.length cols)%nat then
        let date := PyStr.strip (from_option td_text "" (cols !! 3%nat)) in
        match cols !! 1%nat ≫= td_a with
        | Some doc_link =>
            match get_href doc_link with
            | inl e => inl e
            | inr h =>
                collect_filings ftype rows'
                  (filings ++ [{| filing_type := ftype;
                                  filing_date := date;
                                  filing_url := BASE_URL +:+ h |}])
            end
        | None => collect_filings ftype rows' filings
        end
      else collect_filings ftype rows' filings
  end.

Definition main_document_types : list string := ["10-K"; "10-Q"; "10-K/A"; "10-Q/A"].

(** The loop of [get_filing_text] over the rows of the document table,
    left at the first row that yields a link. *)
Fixpoint find_main_document (rows : list Tr) : string + option string :=
  match rows with
  | [] => inr None
  | cols :: rows' =>
      if (4 <=? List.length cols)%nat then
        let doc_type := PyStr.strip (from_option td_text "" (cols !! 3%nat)) in
        if bool_decide (doc_type ∈ main_document_types) then
          match cols !! 2%nat ≫= td_a with
          | Some link =>
              match get_href link with
              | inl e => inl e
              | inr h => inr (Some (BASE_URL +:+ h))
              end
          | None => find_main_document rows'
          end
        else find_main_document rows'
      else find_main_document rows'
  end.

(** [re.sub] of every maximal run of at least [min] characters
    satisfying [p] by [repl], for a class [p] of ASCII characters;
    [run] is the run being read. *)
Fixpoint collapse_runs (p : ascii -> bool) (min : nat) (repl run s : string) : string :=
  let flush := if (min <=? String.length run)%nat then repl else run in
  match s with
  | EmptyString => flush
  | String c s' =>
      if p c then collapse_runs p min repl (run +:+ String c EmptyString) s'
      else flush +:+ String c (collapse_runs p min repl EmptyString s')
  end.

Definition newline : ascii := ascii_of_nat 10.
Definition tab : ascii := ascii_of_nat 9.

Definition _extract_full_text (soup : BeautifulSoup) : string :=
  let text := get_text soup in
  let text :=
    collapse_runs (fun c => Ascii.eqb c newline) 3
      (String newline (String newline EmptyString)) EmptyString text in
  let text :=
    collapse_runs (fun c => Ascii.eqb c " "%char || Ascii.eqb c tab) 2
      " " EmptyString text in
  PyStr.strip text.

Definition SECTION_TEXT_LIMIT : nat := N.to_nat 50000.

Definition _extract_sections (soup : BeautifulSoup) (sections : list string) : string :=
  let full_text := _extract_full_text soup in
  PyStr.slice_to SECTION_TEXT_LIMIT full_text.

(** [filing_url.split("/")[-1]] *)
Definition cache_key (filing_url : string) : string :=
  List.last (PyStr.split "/" filing_url) EmptyString.

Definition cache_file (self : SECFilingFetcher) (filing_url : string) : string :=
  path_join (cache_dir self) (cache_key filing_url +:+ ".txt").

(** Truth value of [sections]: [None] and the empty list are falsy. *)
Definition sections_given (sections : option (list string)) : option (list string) :=
  match sections with
  | Some (s :: l) => Some (s :: l)
  | _ => None
  end.

Section Network.

(** The remote server: what a request returns, given everything the
    program did before; [inl] is the message of the exception raised
    by [requests.get], [raise_for_status] or the parser. *)
Variable edgar : list event -> HttpRequest -> string + BeautifulSoup.

(** [str.upper] on the strings that are not ASCII. *)
Variable unicode_upper : string -> string.

(** [requests.get] followed by [raise_for_status] and
    [BeautifulSoup(response.content, "lxml")]. *)
Definition fetch_page (url : string) (params : list (string * string)) (timeout : nat)
  : M BeautifulSoup := fun w =>
  let req := {| req_url := url; req_params := params; req_timeout := timeout |} in
  let w1 := {| fs := fs w; trace := trace w ++ [HttpGet req] |} in
  match edgar (trace w) req with
  | inl msg => (w1, inl (Exception msg))
  | inr soup => (w1, inr soup)
  end.

Definition __init__ (dir : string) : M SECFilingFetcher :=
  mkdir_exist_ok dir;;
  mret {| cache_dir := dir |}.

Definition search_filings (self : SECFilingFetcher) (cik ftype : string) (count : nat)
  : M (list Filing) :=
  let cik_formatted := PyStr.lstrip_zeros cik in
  let search_url := BASE_URL +:+ "/cgi-bin/browse-edgar" in
  let params :=
    [ ("action", "getcompany"); ("CIK", cik_formatted); ("type", ftype);
      ("dateb", ""); ("owner", "exclude"); ("count", PyStr.str_of_nat count);
      ("search_text", "") ] in
  print ("Searching for " +:+ ftype +:+ " filings for CIK " +:+ cik +:+ "...");;
  try_except
    (soup ← fetch_page search_url params 10;
     match find_table "tableFile2" soup with
     | None =>
         print "No filings table found";;
         mret []
     | Some table =>
         let rows := drop 1 (table_rows table) in
         filings ← lift_exn (collect_filings ftype (take count rows) []);
         print ("Found " +:+ PyStr.str_of_nat (List.length filings) +:+ " filings");;
         mret filings
     end)
    (fun e =>
       print ("Error searching filings: " +:+ e);;
       mret []).

Definition get_filing_text (self : SECFilingFetcher) (url : string)
    (sections : option (list string)) : M string :=
  let cache_file := cache_file self url in
  cached ← path_exists cache_file;
  if cached : bool then
    print ("Using cached filing: " +:+ cache_file);;
    read_text cache_file
  else
    print ("Fetching filing from: " +:+ url);;
    try_except
      (soup ← fetch_page url [] 10;
       match find_table "tableFile" soup with
       | None =>
           print "Could not find document table";;
           mret ""
       | Some table =>
           doc_link ← lift_exn (find_main_document (drop 1 (table_rows table)));
           match doc_link with
           | None =>
               print "Could not find main document link";;
               mret ""
           | Some doc_link =>
               print ("Downloading document: " +:+ doc_link);;
               sleep;;
               doc_soup ← fetch_page doc_link [] 30;
               let text :=
                 match sections_given sections with
                 | Some secs => _extract_sections doc_soup secs
                 | None => _extract_full_text doc_soup
                 end in
               write_text cache_file text;;
               print ("Cached filing to: " +:+ cache_file);;
               mret text
           end
       end)
      (fun e =>
         print ("Error fetching filing: " +:+ e);;
         mret "").

Definition get_filing (self : SECFilingFetcher) (ticker ftype : string)
    (year : option string) (sections : option (list string)) : M string :=
  match get_company_cik unicode_upper ticker with
  | None | Some EmptyString =>
      print ("CIK not found for ticker: " +:+ ticker);;
      mret ""
  | Some cik =>
      filings ← search_filings self cik ftype 10;
      match filings with
      | [] =>
          print ("No " +:+ ftype +:+ " filings found for " +:+ ticker);;
          mret ""
      | _ =>
          let filings :=
            if PyStr.truthy year
            then filter (fun f => PyStr.contains (default "" year) (filing_date f) = true) filings
            else filings in
          match filings with
          | [] =>
              print ("No " +:+ ftype +:+ " filings found for " +:+ ticker +:+ " in "
                     +:+ default "None" year);;
              mret ""
          | filing :: _ =>
              print (String newline ("Fetching " +:+ ticker +:+ " " +:+ ftype +:+ " from "
                     +:+ filing_date filing));;
              get_filing_text self (filing_url filing) sections
          end
      end
  end.

(** [main()], the example run of the module. [SECFilingFetcher()] takes
    the default cache directory, [./sec_filings_cache]. *)
Definition main : M unit :=
  fetcher ← __init__ "sec_filings_cache";
  print (PyStr.repeat_char "=" 60);;
  print "Fetching NVIDIA 10-K Filing";;
  print (PyStr.repeat_char "=" 60 +:+ String newline EmptyString);;
  filing_text ← get_filing fetcher "NVDA" "10-K" None None;
  match filing_text with
  | EmptyString => print (String newline "✗ Failed to retrieve filing")
  | _ =>
      print (String newline "✓ Retrieved filing: "
             +:+ PyStr.format_thousands (PyStr.len filing_text) +:+ " characters");;
      print (String newline "First 500 characters:");;
      print (PyStr.repeat_char "-" 60);;
      print (PyStr.slice_to 500 filing_text);;
      print (PyStr.repeat_char "-" 60);;
      let output_file := "nvidia_10k_sample.txt" in
      write_text output_file filing_text;;
      print (String newline "✓ Saved to: " +:+ output_file)
  end.

End Network.

End sec_filing_fetcher.

(** ** collections.Counter *)

Module collections.

Import PyDict.

(** [c[key] += 1], a new key entering at the end. *)
Fixpoint incr (key : string) (c : dict nat) : dict nat :=
  match c with
  | [] => [(key, 1)]
  | (k, n) :: c' =>
      if String.eqb k key then (k, S n) :: c' else (k, n) :: incr key c'
  end.

(** [Counter(iterable)] *)
Definition Counter (xs : list string) : dict nat :=
  fold_left (fun c key => incr key c) xs [].

(** One step of the stable descending sort: [x] goes behind every
    entry whose count is at least its own. *)
Fixpoint insert_desc (x : string * nat) (sorted : list (string * nat))
  : list (string * nat) :=
  match sorted with
  | [] => [x]
  | y :: sorted' =>
      if (snd y <? snd x)%nat then x :: y :: sorted'
      else y :: insert_desc x sorted'
  end.

(** [c.most_common()], that is
    [sorted(c.items(), key=itemgetter(1), reverse=True)]: descending
    counts, entries of equal count in insertion order. *)
Definition most_common (c : dict nat) : list (string * nat) :=
  fold_left (fun sorted x => insert_desc x sorted) c [].

End collections.

(** ** pandas.DataFrame *)

Module pd.

Import PyDict.

(** A cell: a string, an integer, the float of an integer, [None], or
    the missing-value marker. *)
Inductive value : Type :=
| Str (s : string)
| Int (n : nat)
| Float (n : nat)
| PyNone
| NaN.

(** A frame: its column labels and, per record, one cell per column. *)
Record DataFrame : Type := {
  columns : list string;
  data : list (list value)
}.

Definition add_columns (cols : list string) (record : dict value) : list string :=
  fold_left (fun (acc : list string) k => if bool_decide (k ∈ acc) then acc else (acc ++ [k])%list)
    (keys record) cols.

Definition is_int (v : value) : bool :=
  match v with
  | Int _ => true
  | _ => false
  end.

Definition is_missing (v : value) : bool :=
  match v with
  | PyNone | NaN => true
  | _ => false
  end.

(** The type inference of the constructor on one column: integers with
    missing cells between them are stored as floats, the missing cells
    as [NaN]. A column of integers only, and a column that holds a
    string or nothing but missing cells, is kept as it is. *)
Definition stored_as_float (column : list value) : bool :=
  forallb (fun v => is_int v || is_missing v) column
  && existsb is_int column
  && existsb is_missing column.

Definition to_float (v : value) : value :=
  match v with
  | Int n => Float n
  | PyNone => NaN
  | v => v
  end.

(** The cell of record [r] under [label], before type inference: a key
    missing from the record is [NaN]. *)
Definition raw_cell (label : string) (r : dict value) : value :=
  default NaN (get label r).

(** [pd.DataFrame(records)] for a list of dicts: the columns are the
    keys in order of first appearance, each cell is the value of the
    record under the label, as the type of the column stores it. *)
Definition of_records (records : list (dict value)) : DataFrame :=
  let cols := fold_left add_columns records [] in
  {| columns := cols;
     data :=
       map (fun r =>
              map (fun c =>
                     if stored_as_float (map (raw_cell c) records)
                     then to_float (raw_cell c r)
                     else raw_cell c r)
                cols)
         records |}.

(** Position of a column label. *)
Fixpoint index_of (label : string) (cols : list string) : option nat :=
  match cols with
  | [] => None
  | c :: cols' => if String.eqb c label then Some 0 else S <$> index_of label cols'
  end.

(** [df.loc[i, label]] *)
Definition loc (df : DataFrame) (i : nat) (label : string) : option value :=
  row ← data df !! i;
  j ← index_of label (columns df);
  row !! j.

End pd.

(** ** Values handed to [json.dump] *)

Module json.

#[local] Unset Elimination Schemes.

Inductive value : Type :=
| Null
| Num (n : nat)
| Str (s : string)
| List (items : list value)
| Obj (fields : list (string * value)).

#[local] Set Elimination Schemes.

End json.

(** ** External collaborators *)

Module external.

(** What the program consumes and does not define: the remote filing
    server, the annotation service, and the serialisers. *)
Record Services : Type := {
  (** the filing index and document endpoints *)
  edgar : list Py.event -> Py.HttpRequest -> string + bs4.BeautifulSoup;
  (** [str.upper] on the strings that are not ASCII *)
  unicode_upper : string -> string;
  (** [lx.extract] on a text, for a model and a credential, with the
      fixed prompt, examples, pass count, worker count and buffer size;
      [inl] is the message of the exception it raises *)
  lx_extract : string -> string -> string -> string + lx.AnnotatedDocument;
  (** the record file written by [lx.io.save_annotated_documents] *)
  lx_jsonl : lx.AnnotatedDocument -> string;
  (** [lx.visualize] on the content of a record file *)
  lx_visualize : string -> string;
  (** [df.to_csv(index=False)] *)
  to_csv : pd.DataFrame -> string;
  (** [json.dump(data, indent=2, ensure_ascii=False)] *)
  json_dump : json.value -> string;
  (** [f"{(count / total) * 100:.1f}"] *)
  format_percentage : nat -> nat -> string
}.

End external.


(** ** financial_extraction.py *)

Module financial_extraction.

Import Py PyDict lx external.

Definition dquote : string := String (ascii_of_nat 34) EmptyString.
Definition nl : string := String (ascii_of_nat 10) EmptyString.

(** [[e for e in result.extractions if e.extraction_class == cls]] *)
Definition of_class (cls : string) (result : AnnotatedDocument) : list Extraction :=
  filter (fun e => extraction_class e = cls) (extractions result).

(** [create_financial_examples()]: the two worked examples, their texts
    after [textwrap.dedent]. *)
Definition create_financial_examples : list ExampleData :=
  let extraction cls txt attrs :=
    {| extraction_class := cls; extraction_text := txt;
       char_interval := None; attributes := attrs |} in
  [ {| example_text :=
         PyStr.join nl
           [ "NVIDIA Corporation (NASDAQ: NVDA) reported fiscal year 2024 results.";
             "Revenue for fiscal 2024 was $60.9 billion, up 126% from $27.0 billion";
             "in fiscal 2023. Operating income increased to $33.0 billion compared";
             "to $4.2 billion in the prior year. Net income reached $29.8 billion." ];
       example_extractions :=
         [ extraction "company_info" "NVIDIA Corporation" [("info_type", "company_name")];
           extraction "company_info" "NASDAQ: NVDA" [("info_type", "ticker")];
           extraction "time_period" "fiscal year 2024" [("period_type", "annual")];
           extraction "financial_metric" "Revenue for fiscal 2024 was $60.9 billion"
             [ ("metric_name", "revenue"); ("value", "60.9"); ("unit", "USD_billions");
               ("time_period", "fiscal_2024") ];
           extraction "metric_change" "up 126% from $27.0 billion in fiscal 2023"
             [ ("change_type", "year_over_year_growth"); ("percentage", "126");
               ("comparison_period", "fiscal_2023") ];
           extraction "financial_metric" "Operating income increased to $33.0 billion"
             [ ("metric_name", "operating_income"); ("value", "33.0");
               ("unit", "USD_billions"); ("time_period", "fiscal_2024") ];
           extraction "financial_metric" "$4.2 billion in the prior year"
             [ ("metric_name", "operating_income"); ("value", "4.2");
               ("unit", "USD_billions"); ("time_period", "fiscal_2023") ];
           extraction "financial_metric" "Net income reached $29.8 billion"
             [ ("metric_name", "net_income"); ("value", "29.8"); ("unit", "USD_billions");
               ("time_period", "fiscal_2024") ] ] |};
    {| example_text :=
         PyStr.join nl
           [ "The Data Center segment generated $47.5 billion in revenue, representing";
             "78% of total revenue. Gaming revenue was $10.4 billion. The company faces";
             "risks related to export controls impacting sales to China." ];
       example_extractions :=
         [ extraction "business_segment" "Data Center segment"
             [("segment_type", "product_line")];
           extraction "financial_metric" "$47.5 billion in revenue"
             [ ("metric_name", "segment_revenue"); ("value", "47.5");
               ("unit", "USD_billions"); ("segment", "data_center") ];
           extraction "financial_metric" "78% of total revenue"
             [ ("metric_name", "revenue_percentage"); ("value", "78"); ("unit", "percent");
               ("segment", "data_center") ];
           extraction "business_segment" "Gaming" [("segment_type", "product_line")];
           extraction "financial_metric" "Gaming revenue was $10.4 billion"
             [ ("metric_name", "segment_revenue"); ("value", "10.4");
               ("unit", "USD_billions"); ("segment", "gaming") ];
           extraction "risk_factor" "risks related to export controls impacting sales to China"
             [ ("risk_category", "regulatory"); ("geographic_exposure", "china") ] ] |} ].

(** [sample_text] of [main], after [textwrap.dedent]. *)
Definition sample_text : string :=
  PyStr.join nl
    [ "NVIDIA Corporation (NASDAQ: NVDA) today reported revenue for the fourth quarter";
      "ended January 28, 2024, of $22.1 billion, up 22% from the previous quarter and";
      "up 265% from a year ago.";
      EmptyString;
      "For fiscal 2024, revenue was $60.9 billion, up 126% from the prior year.";
      "GAAP earnings per diluted share for the quarter were $4.93, up 33% from the ";
      "previous quarter and up 486% from a year ago. Non-GAAP earnings per diluted";
      "share were $5.16, up 28% from the previous quarter and up 486% from a year ago.";
      EmptyString;
      dquote +:+ "Accelerated computing and generative AI have hit the tipping point,"
        +:+ dquote +:+ " said";
      "Jensen Huang, founder and CEO of NVIDIA. " +:+ dquote
        +:+ "Demand is surging worldwide across";
      "companies, industries and nations." +:+ dquote;
      EmptyString;
      "The company's Data Center revenue reached $18.4 billion, up 27% from the";
      "previous quarter and up 409% from a year ago. Gaming revenue was $2.9 billion,";
      "up 56% from the previous quarter and up 56% from a year ago.";
      EmptyString;
      "NVIDIA's outlook for the first quarter of fiscal 2025 is revenue of $24.0";
      "billion, plus or minus 2%. GAAP and non-GAAP gross margins are expected to";
      "be 76.3% and 77.0%, respectively, plus or minus 50 basis points.";
      EmptyString;
      "Risk Factors: The company faces risks related to supply chain constraints,";
      "geopolitical tensions affecting sales to China, and increased competition";
      "in the AI accelerator market.";
      EmptyString ].

Section Services.

Variable svc : Services.

Definition extract_from_text (doc model_id api_key : string) : M AnnotatedDocument :=
  print ("Extracting financial information using " +:+ model_id +:+ "...");;
  print ("Text length: " +:+ PyStr.format_thousands (PyStr.len doc) +:+ " characters");;
  emit (LlmExtract doc model_id);;
  result ← (match lx_extract svc doc model_id api_key with
            | inl msg => raise (Exception msg)
            | inr result => mret result
            end);
  print (nl +:+ "✓ Extracted " +:+ PyStr.str_of_nat (List.length (extractions result))
         +:+ " entities");;
  mret result.

Definition analyze_extractions (result : AnnotatedDocument) : M unit :=
  let entity_counts := collections.Counter (map extraction_class (extractions result)) in
  print (nl +:+ PyStr.repeat_char "=" 60);;
  print "EXTRACTION SUMMARY";;
  print (PyStr.repeat_char "=" 60);;
  print (nl +:+ "Total entities: " +:+ PyStr.str_of_nat (List.length (extractions result)));;
  print ("Document length: " +:+ PyStr.format_thousands (PyStr.len (text result))
         +:+ " characters");;
  print (nl +:+ "Entity Type Breakdown:");;
  print (PyStr.repeat_char "-" 40);;
  for_each (collections.most_common entity_counts) (fun '(entity_type, count) =>
    let percentage := format_percentage svc count (List.length (extractions result)) in
    print ("  " +:+ entity_type +:+ ": " +:+ PyStr.str_of_nat count
           +:+ " (" +:+ percentage +:+ "%)"));;
  print (nl +:+ "Sample Financial Metrics:");;
  print (PyStr.repeat_char "-" 40);;
  let metrics := of_class "financial_metric" result in
  for_each (take 5 metrics) (fun metric =>
    let metric_name := get_default "metric_name" "unknown" (attributes metric) in
    let value := get_default "value" "N/A" (attributes metric) in
    let unit := get_default "unit" "" (attributes metric) in
    print ("  " +:+ metric_name +:+ ": " +:+ value +:+ " " +:+ unit);;
    print ("    → " +:+ dquote +:+ PyStr.slice_to 60 (extraction_text metric)
           +:+ "..." +:+ dquote));;
  let risks := of_class "risk_factor" result in
  match risks with
  | [] => mret tt
  | _ =>
      print (nl +:+ "Risk Factors Found: " +:+ PyStr.str_of_nat (List.length risks));;
      print (PyStr.repeat_char "-" 40);;
      for_each (take 3 risks) (fun risk =>
        let category := get_default "risk_category" "unknown" (attributes risk) in
        print ("  [" +:+ category +:+ "] " +:+ dquote
               +:+ PyStr.slice_to 60 (extraction_text risk) +:+ "..." +:+ dquote))
  end.

(** [os.path.join(output_dir, name)] is [path_join]. The record file is
    written by [lx.io.save_annotated_documents] at [jsonl_path]; the
    visualisation is rendered from it. *)
Definition save_and_visualize (result : AnnotatedDocument) (output_dir base_name : string)
  : M unit :=
  let jsonl_path := path_join output_dir (base_name +:+ ".jsonl") in
  write_text jsonl_path (lx_jsonl svc result);;
  print (nl +:+ "✓ Saved extractions to: " +:+ jsonl_path);;
  let html_content := lx_visualize svc (lx_jsonl svc result) in
  let html_path := path_join output_dir (base_name +:+ "_visualization.html") in
  write_text html_path html_content;;
  print ("✓ Generated visualization: " +:+ html_path);;
  print (nl +:+ "→ Open " +:+ html_path +:+ " in your browser to explore extractions").

(** [main()], the example run of the module, from the value of
    [os.getenv("LANGEXTRACT_API_KEY")]. The call passes five workers
    instead of ten: here [lx_extract] stands for the service as this
    call parameterises it. *)
Definition main (LANGEXTRACT_API_KEY : option string) : M unit :=
  match LANGEXTRACT_API_KEY with
  | None | Some EmptyString =>
      print "⚠️  Warning: LANGEXTRACT_API_KEY not set in environment";;
      print "   Set it with: export LANGEXTRACT_API_KEY='your-key-here'";;
      print "   Or add to .env file"
  | Some api_key =>
      result ← extract_from_text sample_text "gemini-3-flash-preview" api_key;
      analyze_extractions result;;
      save_and_visualize result "." "nvidia_earnings_extraction";;
      print (nl +:+ PyStr.repeat_char "=" 60);;
      print "Extraction complete!";;
      print (PyStr.repeat_char "=" 60)
  end.

End Services.

End financial_extraction.

(** ** end_to_end_example.py *)

Module end_to_end_example.

Import Py PyDict lx external financial_extraction.

(** The row dict of one extraction in [export_to_dataframe]. *)
Definition dataframe_row (extraction : Extraction) : dict pd.value :=
  let row :=
    [ ("extraction_class", pd.Str (extraction_class extraction));
      ("extraction_text", pd.Str (extraction_text extraction));
      ("start_pos", match char_interval extraction with
                    | Some ci => pd.Int (start_pos ci)
                    | None => pd.PyNone
                    end);
      ("end_pos", match char_interval extraction with
                  | Some ci => pd.Int (end_pos ci)
                  | None => pd.PyNone
                  end) ] in
  fold_left (fun row '(key, value) => set ("attr_" +:+ key) (pd.Str value) row)
    (attributes extraction) row.

Definition export_to_dataframe (result : AnnotatedDocument) : pd.DataFrame :=
  let data :=
    fold_left (fun data extraction => append data (dataframe_row extraction))
      (extractions result) [] in
  pd.of_records data.

(** The dict appended to [metrics_data] for one metric. *)
Definition metric_row (metric : Extraction) : dict pd.value :=
  [ ("metric_name", pd.Str (get_default "metric_name" "unknown" (attributes metric)));
    ("value", pd.Str (get_default "value" "" (attributes metric)));
    ("unit", pd.Str (get_default "unit" "" (attributes metric)));
    ("time_period", pd.Str (get_default "time_period" "" (attributes metric)));
    ("segment", pd.Str (get_default "segment" "" (attributes metric)));
    ("text", pd.Str (extraction_text metric)) ].

(** [metrics_data] at the end of the loop of [export_financial_metrics]. *)
Definition metrics_data (result : AnnotatedDocument) : list (dict pd.value) :=
  let metrics := of_class "financial_metric" result in
  fold_left (fun data metric => append data (metric_row metric)) metrics [].

Definition risk_row (risk : Extraction) : json.value :=
  json.Obj
    [ ("category", json.Str (get_default "risk_category" "unknown" (attributes risk)));
      ("description", json.Str (extraction_text risk));
      ("geographic_exposure", json.Str (get_default "geographic_exposure" "" (attributes risk)));
      ("position",
        json.Obj
          [ ("start", match char_interval risk with
                      | Some ci => json.Num (start_pos ci)
                      | None => json.Null
                      end);
            ("end", match char_interval risk with
                    | Some ci => json.Num (end_pos ci)
                    | None => json.Null
                    end) ]) ].

(** [risk_data] at the end of the loop of [export_risk_factors]. *)
Definition risk_data (result : AnnotatedDocument) : list json.value :=
  let risks := of_class "risk_factor" result in
  fold_left (fun data risk => append data (risk_row risk)) risks [].

Definition segment_row (segment : Extraction) : dict pd.value :=
  [ ("segment_name", pd.Str (extraction_text segment));
    ("segment_type", pd.Str (get_default "segment_type" "" (attributes segment))) ].

Definition segment_metric_row (metric : Extraction) : dict pd.value :=
  [ ("segment_name", pd.Str (get_default "segment" "" (attributes metric)));
    ("segment_type", pd.Str "metric");
    ("metric_name", pd.Str (get_default "metric_name" "" (attributes metric)));
    ("value", pd.Str (get_default "value" "" (attributes metric)));
    ("unit", pd.Str (get_default "unit" "" (attributes metric))) ].

(** [e.extraction_class == "financial_metric" and e.attributes.get("segment")] *)
Definition has_segment (e : Extraction) : bool :=
  String.eqb (extraction_class e) "financial_metric"
  && PyStr.truthy (get "segment" (attributes e)).

(** [segment_data] at the end of the two loops of
    [export_business_segments]. *)
Definition segment_data (result : AnnotatedDocument) : list (dict pd.value) :=
  let segments := of_class "business_segment" result in
  let data :=
    fold_left (fun data segment => append data (segment_row segment)) segments [] in
  let metrics := filter (fun e => has_segment e = true) (extractions result) in
  fold_left (fun data metric => append data (segment_metric_row metric)) metrics data.

(** [risk_categories.most_common()] in [generate_summary_report]. *)
Definition risk_category_breakdown (result : AnnotatedDocument) : list (string * nat) :=
  let risks := of_class "risk_factor" result in
  let risk_categories :=
    collections.Counter
      (map (fun r => get_default "risk_category" "unknown" (attributes r)) risks) in
  collections.most_common risk_categories.

Definition risk_category_line (entry : string * nat) : string :=
  "- **" +:+ fst entry +:+ "**: " +:+ PyStr.str_of_nat (snd entry) +:+ " risks identified".

(** [generate_summary_report] builds [lines] in three stretches: the
    summary, company, metric and segment sections; the risk category
    breakdown; the sample risks and the footer. *)
Definition report_head (result : AnnotatedDocument) (ticker filing_type : string)
  : list string :=
  let company_info := of_class "company_info" result in
  let metrics := of_class "financial_metric" result in
  let risks := of_class "risk_factor" result in
  let segments := of_class "business_segment" result in
  [ "# Financial Analysis Report: " +:+ ticker +:+ " " +:+ filing_type;
    "";
    "## Executive Summary";
    "";
    "- **Total Extractions**: " +:+ PyStr.str_of_nat (List.length (extractions result));
    "- **Financial Metrics**: " +:+ PyStr.str_of_nat (List.length metrics);
    "- **Risk Factors**: " +:+ PyStr.str_of_nat (List.length risks);
    "- **Business Segments**: " +:+ PyStr.str_of_nat (List.length segments);
    "- **Document Length**: " +:+ PyStr.format_thousands (PyStr.len (text result))
      +:+ " characters";
    "";
    "## Company Information";
    "" ]
  ++ map (fun info =>
            let info_type := get_default "info_type" "unknown" (attributes info) in
            "- **" +:+ info_type +:+ "**: " +:+ extraction_text info)
       (take 5 company_info)
  ++ [ "";
       "## Key Financial Metrics";
       "";
       "| Metric | Value | Period |";
       "|--------|-------|--------|" ]
  ++ map (fun metric =>
            let name := get_default "metric_name" "unknown" (attributes metric) in
            let value := get_default "value" "" (attributes metric) in
            let unit := get_default "unit" "" (attributes metric) in
            let period := get_default "time_period" "" (attributes metric) in
            "| " +:+ name +:+ " | " +:+ value +:+ " " +:+ unit +:+ " | " +:+ period +:+ " |")
       (take 10 metrics)
  ++ [ ""; "## Business Segments"; "" ]
  ++ map (fun segment =>
            let segment_type := get_default "segment_type" "unknown" (attributes segment) in
            "- **" +:+ extraction_text segment +:+ "** (" +:+ segment_type +:+ ")")
       (take 5 segments).

Definition report_risk_categories (result : AnnotatedDocument) : list string :=
  [ ""; "## Risk Factor Categories"; "" ]
  ++ map risk_category_line (risk_category_breakdown result).

Definition report_tail (result : AnnotatedDocument) : list string :=
  let risks := of_class "risk_factor" result in
  [ ""; "## Sample Risk Factors"; "" ]
  ++ map (fun risk =>
            let category := get_default "risk_category" "unknown" (attributes risk) in
            let text :=
              if (150 <? PyStr.len (extraction_text risk))%nat
              then PyStr.slice_to 150 (extraction_text risk) +:+ "..."
              else extraction_text risk in
            "- **[" +:+ category +:+ "]** " +:+ text)
       (take 3 risks)
  ++ [ "";
       "---";
       "";
       "*Report generated by LangExtract financial extraction pipeline*" ].

(** [lines] at the end of [generate_summary_report]. *)
Definition report_lines (result : AnnotatedDocument) (ticker filing_type : string)
  : list string :=
  report_head result ticker filing_type
  ++ report_risk_categories result
  ++ report_tail result.

(** The parsed command line, [output_dir] as the path made of it. *)
Record Args : Type := {
  ticker : string;
  filing_type : string;
  year : option string;
  model : string;
  output_dir : string;
  skip_fetch : bool
}.

Section Services.

Variable svc : Services.

Definition export_financial_metrics (result : AnnotatedDocument) (output_file : string)
  : M unit :=
  let data := metrics_data result in
  let df := pd.of_records data in
  write_text output_file (to_csv svc df);;
  print ("✓ Exported " +:+ PyStr.str_of_nat (List.length data)
         +:+ " financial metrics to: " +:+ output_file).

Definition export_risk_factors (result : AnnotatedDocument) (output_file : string)
  : M unit :=
  let data := risk_data result in
  write_text output_file (json_dump svc (json.List data));;
  print ("✓ Exported " +:+ PyStr.str_of_nat (List.length data)
         +:+ " risk factors to: " +:+ output_file).

Definition export_business_segments (result : AnnotatedDocument) (output_file : string)
  : M unit :=
  let data := segment_data result in
  let df := pd.of_records data in
  write_text output_file (to_csv svc df);;
  print ("✓ Exported " +:+ PyStr.str_of_nat (List.length data)
         +:+ " business segment entries to: " +:+ output_file).

Definition generate_summary_report (result : AnnotatedDocument)
    (ticker filing_type output_file : string) : M unit :=
  let report_text := PyStr.join nl (report_lines result ticker filing_type) in
  write_text output_file report_text;;
  print ("✓ Generated summary report: " +:+ output_file).

(** Steps 2 to 4 of [main]. *)
Definition extract_and_export (args : Args) (api_key filing_text : string) : M unit :=
  let output_dir := output_dir args in
  print "Step 2: Extracting Structured Information";;
  print (PyStr.repeat_char "-" 40);;
  result ← extract_from_text svc filing_text (model args) api_key;
  print (nl +:+ "Step 3: Analyzing Results");;
  print (PyStr.repeat_char "-" 40);;
  analyze_extractions svc result;;
  print (nl +:+ "Step 4: Exporting Results");;
  print (PyStr.repeat_char "-" 40);;
  let base_name := ticker args +:+ "_" +:+ filing_type args +:+ "_extraction" in
  save_and_visualize svc result output_dir base_name;;
  export_financial_metrics result (path_join output_dir (base_name +:+ "_metrics.csv"));;
  export_risk_factors result (path_join output_dir (base_name +:+ "_risks.json"));;
  export_business_segments result (path_join output_dir (base_name +:+ "_segments.csv"));;
  generate_summary_report result (ticker args) (filing_type args)
    (path_join output_dir (base_name +:+ "_summary.md"));;
  let df := export_to_dataframe result in
  let df_path := path_join output_dir (base_name +:+ "_full.csv") in
  write_text df_path (to_csv svc df);;
  print ("✓ Exported full extraction data to: " +:+ df_path);;
  print (nl +:+ PyStr.repeat_char "=" 80);;
  print "Pipeline Complete!";;
  print (PyStr.repeat_char "=" 80);;
  print (nl +:+ "Results saved to: " +:+ output_dir +:+ "/");;
  print (nl +:+ "Generated files:");;
  print ("  - " +:+ base_name +:+ ".jsonl (structured extraction data)");;
  print ("  - " +:+ base_name +:+ "_visualization.html (interactive visualization)");;
  print ("  - " +:+ base_name +:+ "_metrics.csv (financial metrics table)");;
  print ("  - " +:+ base_name +:+ "_risks.json (risk factors)");;
  print ("  - " +:+ base_name +:+ "_segments.csv (business segments)");;
  print ("  - " +:+ base_name +:+ "_summary.md (markdown report)");;
  print ("  - " +:+ base_name +:+ "_full.csv (complete extraction dataframe)").

(** The path read by the [--skip-fetch] branch. *)
Definition skip_fetch_cache_file (args : Args) : string :=
  path_join (path_join (output_dir args) "sec_cache")
    (ticker args +:+ "_" +:+ filing_type args +:+ ".txt").

(** Step 1 of [main]. *)
Definition obtain_filing_text (args : Args) : M string :=
  if negb (skip_fetch args) then
    print "Step 1: Fetching SEC Filing";;
    print (PyStr.repeat_char "-" 40);;
    fetcher ← sec_filing_fetcher.__init__ (path_join (output_dir args) "sec_cache");
    filing_text ← sec_filing_fetcher.get_filing (edgar svc) (unicode_upper svc) fetcher
                    (ticker args) (filing_type args) (year args) None;
    match filing_text with
    | EmptyString =>
        print "❌ Failed to fetch filing";;
        sys_exit 1
    | _ =>
        print ("✓ Retrieved filing: " +:+ PyStr.format_thousands (PyStr.len filing_text)
               +:+ " characters" +:+ nl);;
        mret filing_text
    end
  else
    let cache_file := skip_fetch_cache_file args in
    cached ← path_exists cache_file;
    if cached : bool then
      filing_text ← read_text cache_file;
      print ("Using cached filing: " +:+ cache_file +:+ nl);;
      mret filing_text
    else
      print ("❌ Cached file not found: " +:+ cache_file);;
      sys_exit 1.

(** [main()], from the parsed arguments and the value of
    [os.getenv("LANGEXTRACT_API_KEY")]. *)
Definition main (args : Args) (LANGEXTRACT_API_KEY : option string) : M unit :=
  mkdir_exist_ok (output_dir args);;
  match LANGEXTRACT_API_KEY with
  | None | Some EmptyString =>
      print "❌ Error: LANGEXTRACT_API_KEY not set in environment";;
      print "   Set it with: export LANGEXTRACT_API_KEY='your-key-here'";;
      sys_exit 1
  | Some api_key =>
      print (PyStr.repeat_char "=" 80);;
      print ("Financial Extraction Pipeline: " +:+ ticker args +:+ " " +:+ filing_type args);;
      print (PyStr.repeat_char "=" 80 +:+ nl);;
      filing_text ← obtain_filing_text args;
      extract_and_export args api_key filing_text
  end.

End Services.

End end_to_end_example.


(** ** Vocabulary of the specification *)

Module Spec.

Import PyDict lx Py bs4 sec_filing_fetcher end_to_end_example.

(** The number of extractions whose class is exactly [cls]. *)
Fixpoint count_class (cls : string) (l : list Extraction) : nat :=
  match l with
  | [] => 0
  | e :: l' => (if String.eqb (extraction_class e) cls then 1 else 0) + count_class cls l'
  end.

(** The number of occurrences of [key] in [xs]. *)
Fixpoint occurrences (key : string) (xs : list string) : nat :=
  match xs with
  | [] => 0
  | x :: xs' => (if String.eqb x key then 1 else 0) + occurrences key xs'
  end.

(** The columns of the metrics table. *)
Definition metric_columns : list string :=
  ["metric_name"; "value"; "unit"; "time_period"; "segment"; "text"].

(** A financial metric whose [segment] attribute is present and not
    empty. *)
Definition carries_segment (e : Extraction) : Prop :=
  extraction_class e = "financial_metric"
  /\ match get "segment" (attributes e) with
     | Some s => s <> ""
     | None => False
     end.

#[export] Instance carries_segment_dec (e : Extraction) : Decision (carries_segment e).
Proof. unfold carries_segment. destruct (get "segment" (attributes e)); apply _. Defined.

(** The extraction carries its position in the text. *)
Definition located (e : Extraction) : bool :=
  match char_interval e with
  | Some _ => true
  | None => false
  end.

(** The category under which the report counts a risk. *)
Definition risk_category_of (e : Extraction) : string :=
  default "unknown" (get "risk_category" (attributes e)).

(** Descending order of counts. *)
Definition by_count_desc (a b : string * nat) : Prop := snd b <= snd a.

(** [c] holds exactly the positive occurrence counts of [xs], each key
    once. *)
Definition counts (c : dict nat) (xs : list string) : Prop :=
  NoDup (keys c)
  /\ forall k, get k c = if (occurrences k xs =? 0)%nat then None else Some (occurrences k xs).

(** The cache of a fetcher holds text: where the fetcher keeps the
    text of a filing there is no directory, and a file there is valid
    UTF-8. *)
Definition cache_holds_text (self : SECFilingFetcher) (w : World) : Prop :=
  forall url,
    match fs w !! cache_file self url with
    | Some Dir => False
    | Some (File content) => PyStr.utf8_valid content = true
    | None => True
    end.

(** A page that the remote server sends in answer to some request. *)
Definition page_served (edgar : list event -> HttpRequest -> string + BeautifulSoup)
    (soup : BeautifulSoup) : Prop :=
  exists hist req, edgar hist req = inr soup.

(** The text that [get_filing_text] takes from a document: the full
    cleaned text, cut to the limit when sections are requested. *)
Definition requested_text (sections : option (list string)) (doc_soup : BeautifulSoup)
  : string :=
  match sections with
  | Some (_ :: _) => PyStr.slice_to SECTION_TEXT_LIMIT (_extract_full_text doc_soup)
  | _ => _extract_full_text doc_soup
  end.

(** What [read_text] gives for the bytes of a file. *)
Definition decoded (content : string) : exn + string :=
  if PyStr.utf8_valid content then inr (PyStr.universal_newlines content)
  else inl (Exception "UnicodeDecodeError").

(** The text holds no carriage return. *)
Fixpoint no_carriage_return (s : string) : bool :=
  match s with
  | EmptyString => true
  | String c s' => negb (Ascii.eqb c PyStr.CR) && no_carriage_return s'
  end.

(** A link target that the remote server sends in some table of some
    page. *)
Definition served_href (edgar : list event -> HttpRequest -> string + BeautifulSoup)
    (h : string) : Prop :=
  exists hist req soup table row cell a,
    edgar hist req = inr soup
    /\ table ∈ tables soup
    /\ row ∈ table_rows table
    /\ cell ∈ row
    /\ td_a cell = Some a
    /\ href a = Some h.

(** A filing whose URL is the base URL followed by a served link. *)
Definition filing_served (edgar : list event -> HttpRequest -> string + BeautifulSoup)
    (f : Filing) : Prop :=
  exists h, served_href edgar h /\ filing_url f = BASE_URL +:+ h.


(** A file can be written at [p]: no directory is in the way and the
    parent directory is there. *)
Definition writable (w : World) (p : string) : bool :=
  match fs w !! p with
  | Some Dir => false
  | _ => parent_is_dir w p
  end.

(** The last character of a string. *)
Fixpoint last_char (s : string) : option ascii :=
  match s with
  | EmptyString => None
  | String c s' =>
      match last_char s' with
      | Some c' => Some c'
      | None => Some c
      end
  end.

(** The number of characters satisfying [p] at the start of [s]. *)
Fixpoint run_prefix (p : ascii -> bool) (s : string) : nat :=
  match s with
  | EmptyString => 0
  | String c s' => if p c then S (run_prefix p s') else 0
  end.

(** The length of the longest run of adjacent characters satisfying [p]
    in [s]. *)
Fixpoint longest_run (p : ascii -> bool) (s : string) : nat :=
  match s with
  | EmptyString => 0
  | String c s' => Nat.max (run_prefix p s) (longest_run p s')
  end.

(** Every character of [s] satisfies [p]. *)
Fixpoint all_chars (p : ascii -> bool) (s : string) : bool :=
  match s with
  | EmptyString => true
  | String c s' => p c && all_chars p s'
  end.

Definition is_newline (c : ascii) : bool := Ascii.eqb c newline.

Definition is_blank (c : ascii) : bool := Ascii.eqb c " "%char || Ascii.eqb c tab.

(** The first character of a string. *)
Definition first_char (s : string) : option ascii :=
  match s with
  | EmptyString => None
  | String c _ => Some c
  end.

(** The string starts with a whitespace character, of one, two or
    three bytes. *)
Definition starts_with_whitespace (s : string) : bool :=
  match s with
  | EmptyString => false
  | String c1 s1 =>
      PyStr.is_space c1
      || match s1 with
         | EmptyString => false
         | String c2 s2 =>
             PyStr.is_space2 c1 c2
             || match s2 with
                | EmptyString => false
                | String c3 _ => PyStr.is_space3 c1 c2 c3
                end
         end
  end.

(** A computation only appends events, all of them satisfying [P],
    whatever its outcome. *)
Definition emits {A : Type} (P : event -> Prop) (m : M A) : Prop :=
  forall w, exists evs : list event, trace (m w).1 = (trace w ++ evs)%list /\ Forall P evs.

(** A computation returns normally, changes no file and prints [n]
    lines, whatever the world it starts in. *)
Definition prints_lines (n : nat) (m : M unit) : Prop :=
  forall w, exists lines : list string,
    m w = ({| fs := fs w; trace := (trace w ++ (Stdout <$> lines))%list |}, inr tt)
    /\ List.length lines = n.



(** Requests and pauses: what the remote server can observe. *)
Definition is_network (e : event) : bool :=
  match e with
  | HttpGet _ | Sleep => true
  | _ => false
  end.


(** An extraction text occurs in a text once every line break of the
    text is read as a space. *)
Definition grounded_modulo_line_breaks (doc fragment : string) : bool :=
  PyStr.contains fragment (PyStr.join " " (PyStr.split newline doc)).

End Spec.

(** ** A concrete run: one annual report on the remote server *)

Module Scenario.

Import PyDict lx Py bs4 sec_filing_fetcher external end_to_end_example.

Definition td (content : string) (link : option string) : Td :=
  {| td_text := content; td_a := (fun h => {| href := Some h |}) <$> link |}.

(** The link of the filing index page, as the filing search serves it. *)
Definition index_href : string :=
  "/Archives/edgar/data/1045810/000104581024000029/0001045810-24-000029-index.htm".

(** Another page address with the same final segment. *)
Definition mirror_url : string :=
  "https://www.sec.gov/Archives/mirror/0001045810-24-000029-index.htm".

Definition doc_href : string :=
  "/Archives/edgar/data/1045810/000104581024000029/nvda-20240128.htm".

Definition search_page (h : string) : BeautifulSoup :=
  {| tables :=
       [ {| table_class := ["tableFile2"];
            table_rows :=
              [ [];
                [ td "10-K" None; td "Documents" (Some h); td "Annual report" None;
                  td " 2024-02-21 " None; td "001-23985" None ] ] |} ];
     get_text := "" |}.

Definition index_page : BeautifulSoup :=
  {| tables :=
       [ {| table_class := ["tableFile"];
            table_rows :=
              [ [];
                [ td "1" None; td "10-K" None; td "nvda-20240128.htm" (Some doc_href);
                  td "10-K" None; td "1204331" None ] ] |} ];
     get_text := "" |}.

Definition doc_page : BeautifulSoup :=
  {| tables := []; get_text := "NVIDIA  Corporation   annual report" |}.

(** A document whose text holds a carriage return. *)
Definition cr_doc_page : BeautifulSoup :=
  {| tables := []; get_text := "Item 1" +:+ String PyStr.CR "Business" |}.



(** A server whose filing search links to [h] and whose document is
    [doc]. *)
Definition server_with (h : string) (doc : BeautifulSoup) (hist : list event)
    (req : HttpRequest) : string + BeautifulSoup :=
  if String.eqb (req_url req) (BASE_URL +:+ "/cgi-bin/browse-edgar") then inr (search_page h)
  else if String.eqb (req_url req) (BASE_URL +:+ h) then inr index_page
  else if String.eqb (req_url req) (BASE_URL +:+ doc_href) then inr doc
  else inl "404 Client Error".

Definition server (h : string) : list event -> HttpRequest -> string + BeautifulSoup :=
  server_with h doc_page.

(** The tickers of the runs below are ASCII: the case mapping beyond
    ASCII is never consulted. *)
Definition services (h : string) : Services :=
  {| edgar := server h;
     unicode_upper := fun s => s;
     lx_extract := fun doc _ _ => inr {| text := doc; extractions := [] |};
     lx_jsonl := fun _ => "{}";
     lx_visualize := fun _ => "<html></html>";
     to_csv := fun _ => "";
     json_dump := fun _ => "[]";
     format_percentage := fun _ _ => "0.0" |}.

(** A filing search whose second row has a link without [href]. *)
Definition broken_search_page : BeautifulSoup :=
  {| tables :=
       [ {| table_class := ["tableFile2"];
            table_rows :=
              [ [];
                [ td "10-K" None; td "Documents" (Some index_href); td "Annual report" None;
                  td "2024-02-21" None; td "001-23985" None ];
                [ td "10-K" None;
                  {| td_text := "Documents"; td_a := Some {| href := None |} |};
                  td "Annual report" None; td "2023-02-24" None; td "001-23985" None ] ] |} ];
     get_text := "" |}.

(** The same collaborators, with an annotation service that fails. *)
Definition unavailable (h : string) : Services :=
  {| edgar := server h;
     unicode_upper := fun s => s;
     lx_extract := fun _ _ _ => inl "503 Service Unavailable";
     lx_jsonl := fun _ => "{}";
     lx_visualize := fun _ => "<html></html>";
     to_csv := fun _ => "";
     json_dump := fun _ => "[]";
     format_percentage := fun _ _ => "0.0" |}.

(** An annotated sentence pair: one metric with its position, one risk
    without. *)
Definition annotated : AnnotatedDocument :=
  {| text := "Revenue was $60.9 billion. Export controls may limit sales in China.";
     extractions :=
       [ {| extraction_class := "financial_metric";
            extraction_text := "Revenue was $60.9 billion";
            char_interval := Some {| start_pos := 0; end_pos := 25 |};
            attributes := [ ("metric_name", "revenue"); ("value", "60.9");
                            ("unit", "USD_billions") ] |};
         {| extraction_class := "risk_factor";
            extraction_text := "Export controls may limit sales in China";
            char_interval := None;
            attributes := [ ("risk_category", "regulatory");
                            ("geographic_exposure", "china") ] |} ] |}.

(** A segment and a metric reported for it. *)
Definition segmented : AnnotatedDocument :=
  {| text := "Data Center revenue was $47.5 billion";
     extractions :=
       [ {| extraction_class := "business_segment";
            extraction_text := "Data Center";
            char_interval := Some {| start_pos := 0; end_pos := 11 |};
            attributes := [ ("segment_type", "product_line") ] |};
         {| extraction_class := "financial_metric";
            extraction_text := "Data Center revenue was $47.5 billion";
            char_interval := Some {| start_pos := 0; end_pos := 37 |};
            attributes := [ ("metric_name", "segment_revenue"); ("value", "47.5");
                            ("unit", "USD_billions"); ("segment", "Data Center") ] |} ] |}.

Definition fresh : World := {| fs := ∅; trace := [] |}.

Definition fetcher : SECFilingFetcher := {| cache_dir := "sec_cache" |}.

(** A world whose only node is the cache directory of [fetcher]. *)
Definition cache_ready : World := {| fs := {[ "sec_cache" := Dir ]}; trace := [] |}.




(** A world whose only node is the output directory. *)
Definition output_ready : World := {| fs := {[ "output" := Dir ]}; trace := [] |}.

(** The output directory with an empty file where [--skip-fetch] looks
    for the filing text. *)
Definition cached_empty : World :=
  {| fs := <[ "output/sec_cache/NVDA_10-K.txt" := File "" ]>
             (<[ "output/sec_cache" := Dir ]> {[ "output" := Dir ]});
     trace := [] |}.



(** A fetching run for a ticker. *)
Definition args_for (symbol : string) : Args :=
  {| ticker := symbol;
     filing_type := "10-K";
     year := None;
     model := "gemini-3-flash-preview";
     output_dir := "output";
     skip_fetch := false |}.

Definition args (skip : bool) : Args :=
  {| ticker := "NVDA";
     filing_type := "10-K";
     year := None;
     model := "gemini-3-flash-preview";
     output_dir := "output";
     skip_fetch := skip |}.

End Scenario.

(** * Properties *)

Import PyDict lx Py bs4 sec_filing_fetcher collections external financial_extraction
  end_to_end_example Spec.

(** ** The monad *)

Lemma bind_unfold {A B : Type} (m : M A) (k : A -> M B) (w : World) :
  (m ≫= k) w =
    match m w with
    | (w', inl e) => (w', inl e)
    | (w', inr a) => k a w'
    end.
Proof. reflexivity. Qed.

Lemma print_unfold (line : string) (w : World) :
  print line w = ({| fs := fs w; trace := trace w ++ [Stdout line] |}, inr tt).
Proof. reflexivity. Qed.

Ltac run :=
  cbv beta iota zeta delta
    [mbind M_bind mret M_ret print emit sleep fetch_page lift_exn raise write_text
     fs_write try_except path_exists read_text sys_exit fs trace fst snd].

(** A write succeeds where no directory is in the way and the parent
    is there. *)
Lemma write_text_ok (p content : string) (w : World) :
  fs w !! p <> Some Dir ->
  parent_is_dir w p = true ->
  write_text p content w
  = ({| fs := <[p := File content]> (fs w); trace := trace w ++ [FileWrite p content] |},
     inr tt).
Proof.
  intros Hp Hparent. unfold write_text, fs_write. rewrite Hparent.
  by destruct (fs w !! p) as [[|old]|].
Qed.

Lemma write_text_writable (p content : string) (w : World) :
  writable w p = true ->
  write_text p content w
  = ({| fs := <[p := File content]> (fs w); trace := trace w ++ [FileWrite p content] |},
     inr tt).
Proof.
  unfold writable. intros Hw. apply write_text_ok; [|by destruct (fs w !! p) as [[|old]|]].
  intros E. by rewrite E in Hw.
Qed.

(** Where it cannot be written, the write raises and changes nothing. *)
Lemma write_text_blocked (p content : string) (w : World) :
  writable w p = false -> exists e, write_text p content w = (w, inl e).
Proof.
  unfold writable, write_text, fs_write. intros Hw.
  destruct (fs w !! p) as [[|old]|]; [by eexists| |]; rewrite Hw; by eexists.
Qed.

(** What reading a file gives. *)
Lemma read_text_file (p content : string) (w : World) :
  fs w !! p = Some (File content) ->
  read_text p w =
    (w, match decoded content with
        | inl e => inl e
        | inr t => inr t
        end).
Proof. intros Hp. unfold read_text, decoded. rewrite Hp. by destruct (PyStr.utf8_valid content). Qed.

(** ** Strings *)

Lemma string_length_app a b : String.length (a +:+ b) = String.length a + String.length b.
Proof. induction a as [|c a IH]; simpl; [done|]. by rewrite IH. Qed.

Lemma string_app_assoc a b c : (a +:+ b) +:+ c = a +:+ (b +:+ c).
Proof.
  induction a as [|x a IH]; [done|].
  change (String x ((a +:+ b) +:+ c) = String x (a +:+ (b +:+ c))). by rewrite IH.
Qed.

Lemma string_app_nil_r s : s +:+ "" = s.
Proof. induction s as [|c s IH]; [done|]. change (String c (s +:+ "") = String c s). by rewrite IH. Qed.

Lemma append_inj_l a b c : a +:+ b = a +:+ c -> b = c.
Proof. induction a as [|x a IH]; simpl; [done|]. intros [= H]. by apply IH. Qed.


(** Slices count characters, not bytes. *)
Lemma slice_to_prefix n s : String.prefix (PyStr.slice_to n s) s = true.
Proof.
  revert n. induction s as [|c s IH]; intros n; [done|]. cbn [PyStr.slice_to].
  destruct (PyStr.is_continuation c).
  - cbn [String.prefix]. destruct (ascii_dec c c); [apply IH|done].
  - destruct n as [|n]; [done|]. cbn [String.prefix]. destruct (ascii_dec c c); [apply IH|done].
Qed.

Lemma slice_to_len n s : PyStr.len (PyStr.slice_to n s) = Nat.min n (PyStr.len s).
Proof.
  revert n. induction s as [|c s IH]; intros n; cbn [PyStr.slice_to PyStr.len].
  - by rewrite Nat.min_0_r.
  - destruct (PyStr.is_continuation c) eqn:Hc.
    + cbn [PyStr.len]. by rewrite Hc, IH.
    + destruct n as [|n]; [done|]. cbn [PyStr.len]. rewrite Hc, IH. done.
Qed.


Lemma slice_to_empty n : PyStr.slice_to n "" = "".
Proof. done. Qed.

Lemma slice_to_all n s : PyStr.len s <= n -> PyStr.slice_to n s = s.
Proof.
  revert n. induction s as [|c s IH]; intros n; [done|]. cbn [PyStr.slice_to PyStr.len].
  destruct (PyStr.is_continuation c).
  - intros H. by rewrite IH.
  - destruct n as [|n]; [lia|]. intros H. rewrite IH; [done|lia].
Qed.

Lemma len_app a b : PyStr.len (a +:+ b) = PyStr.len a + PyStr.len b.
Proof.
  induction a as [|c a IH]; [done|]. change (String c a +:+ b) with (String c (a +:+ b)).
  cbn [PyStr.len]. destruct (PyStr.is_continuation c); rewrite IH; done.
Qed.

(** A text without a carriage return is read back as it was written. *)
Lemma universal_newlines_id s :
  no_carriage_return s = true -> PyStr.universal_newlines s = s.
Proof.
  induction s as [|c s IH]; [done|]. cbn [no_carriage_return PyStr.universal_newlines].
  intros [Hc Hs]%andb_prop. apply negb_true_iff in Hc. rewrite Hc. by rewrite IH.
Qed.

(** * The exporters *)

Lemma fold_append {A B : Type} (f : A -> B) (l : list A) (acc : list B) :
  fold_left (fun data x => append data (f x)) l acc = (acc ++ map f l)%list.
Proof.
  revert acc. induction l as [|x l IH]; intros acc; simpl.
  - by rewrite app_nil_r.
  - rewrite IH. unfold append. by rewrite <- app_assoc.
Qed.

Lemma metrics_data_map result :
  metrics_data result = map metric_row (of_class "financial_metric" result).
Proof. unfold metrics_data. by rewrite fold_append. Qed.

Lemma of_class_length cls result :
  List.length (of_class cls result) = count_class cls (extractions result).
Proof.
  unfold of_class. induction (extractions result) as [|e l IH]; [done|].
  rewrite filter_cons. simpl. destruct (String.eqb_spec (extraction_class e) cls) as [Heq|Hne].
  - rewrite decide_True by done. simpl. by rewrite IH.
  - rewrite decide_False by done. by rewrite IH.
Qed.

(** ** Dicts and frames *)

Lemma get_set {V : Type} (k k' : string) (v : V) (d : dict V) :
  get k' (set k v d) = if String.eqb k k' then Some v else get k' d.
Proof.
  induction d as [|[k0 v0] d IH]; cbn [set get]; [done|].
  destruct (String.eqb_spec k0 k) as [->|Hne]; cbn [get].
  - by destruct (String.eqb k k').
  - rewrite IH. destruct (String.eqb_spec k0 k') as [->|]; [|done].
    by destruct (String.eqb_spec k k').
Qed.

Lemma get_keys {V : Type} (k : string) (d : dict V) : is_Some (get k d) <-> k ∈ keys d.
Proof.
  induction d as [|[k0 v0] d IH].
  - split; [by intros [? [=]]|by intros ?%elem_of_nil].
  - change (keys ((k0, v0) :: d)) with (k0 :: keys d). cbn [get].
    rewrite elem_of_cons. destruct (String.eqb_spec k0 k) as [->|Hne].
    + split; [by left|by eexists].
    + rewrite IH. split; [by right|]. by intros [->|?].
Qed.

Lemma lookup_map {A B : Type} (f : A -> B) (l : list A) (i : nat) :
  map f l !! i = f <$> l !! i.
Proof. revert i. induction l as [|x l IH]; intros [|i]; cbn; try done; apply IH. Qed.

Lemma get_head {V : Type} (k : string) (v : V) (d : dict V) : get k ((k, v) :: d) = Some v.
Proof. simpl. by rewrite String.eqb_refl. Qed.

Lemma get_tail {V : Type} (k k' : string) (v : V) (d : dict V) :
  k <> k' -> get k' ((k, v) :: d) = get k' d.
Proof. intros Hne. simpl. destruct (String.eqb_spec k k'); [done|done]. Qed.

Lemma of_records_data_length records :
  List.length (pd.data (pd.of_records records)) = List.length records.
Proof. unfold pd.of_records. simpl. by rewrite length_map. Qed.

Lemma add_columns_fresh (ks acc : list string) :
  NoDup (acc ++ ks) ->
  fold_left (fun (acc : list string) k => if bool_decide (k ∈ acc) then acc else (acc ++ [k])%list) ks acc
  = (acc ++ ks)%list.
Proof.
  revert acc. induction ks as [|k ks IH]; intros acc Hnd; simpl.
  - by rewrite app_nil_r.
  - assert (k ∉ acc) as Hk.
    { apply NoDup_app in Hnd as (_ & Hd & _). intros Hin. apply (Hd k Hin). left. }
    rewrite bool_decide_eq_false_2 by done.
    rewrite IH; rewrite <- app_assoc; simpl; done.
Qed.

Lemma add_columns_known (ks acc : list string) :
  (forall k, k ∈ ks -> k ∈ acc) ->
  fold_left (fun (acc : list string) k => if bool_decide (k ∈ acc) then acc else (acc ++ [k])%list) ks acc
  = acc.
Proof.
  revert acc. induction ks as [|k ks IH]; intros acc Hin; simpl; [done|].
  rewrite bool_decide_eq_true_2 by (apply Hin; left).
  apply IH. intros k' Hk'. apply Hin. by right.
Qed.

Lemma columns_uniform (ks : list string) (records : list (dict pd.value)) :
  NoDup ks -> records <> [] -> Forall (fun r => keys r = ks) records ->
  pd.columns (pd.of_records records) = ks.
Proof.
  intros Hnd Hne Hall. unfold pd.of_records. simpl.
  destruct records as [|r records]; [done|]. clear Hne.
  apply Forall_cons in Hall as [Hr Hall]. simpl.
  unfold pd.add_columns at 2. rewrite Hr, add_columns_fresh by done. simpl.
  induction Hall as [|r' records Hr' Hall IH]; simpl; [done|].
  unfold pd.add_columns at 2. rewrite Hr', add_columns_known by done. apply IH.
Qed.

Lemma index_of_lookup label cols j :
  pd.index_of label cols = Some j -> cols !! j = Some label.
Proof.
  revert j. induction cols as [|c cols IH]; intros j; cbn [pd.index_of]; [done|].
  destruct (String.eqb_spec c label) as [->|Hne]; [by intros [= <-]|].
  destruct (pd.index_of label cols) as [j'|]; [|done]. intros [= <-]. by apply IH.
Qed.

Lemma index_of_elem label cols : label ∈ cols -> is_Some (pd.index_of label cols).
Proof.
  induction cols as [|c cols IH]; [by intros ?%elem_of_nil|]. cbn [pd.index_of].
  destruct (String.eqb_spec c label) as [->|Hne]; [by eexists|].
  intros [?|Hin]%elem_of_cons; [done|]. destruct (IH Hin) as [j ->]. by eexists.
Qed.

Lemma index_of_not_elem label cols : label ∉ cols -> pd.index_of label cols = None.
Proof.
  induction cols as [|c cols IH]; [done|]. cbn [pd.index_of].
  intros Hnot. apply not_elem_of_cons in Hnot as [Hne Hnot].
  destruct (String.eqb_spec c label) as [->|_]; [done|]. by rewrite IH.
Qed.

Lemma add_keys_elem label ks acc :
  label ∈ fold_left (fun (acc : list string) k =>
                       if bool_decide (k ∈ acc) then acc else (acc ++ [k])%list) ks acc
  <-> label ∈ acc \/ label ∈ ks.
Proof.
  revert acc. induction ks as [|k ks IH]; intros acc; cbn [fold_left].
  - rewrite elem_of_nil. tauto.
  - rewrite IH, elem_of_cons. destruct (bool_decide_reflect (k ∈ acc)).
    + split; [tauto|]. intros [?|[->|?]]; tauto.
    + rewrite elem_of_app, list_elem_of_singleton. tauto.
Qed.

Lemma fold_add_columns_elem label records acc :
  label ∈ fold_left pd.add_columns records acc
  <-> label ∈ acc \/ exists r, r ∈ records /\ label ∈ keys r.
Proof.
  revert acc. induction records as [|r records IH]; intros acc; cbn [fold_left].
  - split; [by left|]. intros [?|(r & Hr & _)]; [done|]. by apply elem_of_nil in Hr.
  - rewrite IH. unfold pd.add_columns at 1. rewrite add_keys_elem. split.
    + intros [[?|?]|(r' & Hr' & Hk)]; [by left| |].
      * right. exists r. split; [left|done].
      * right. exists r'. split; [by right|done].
    + intros [?|(r' & Hr' & Hk)]; [by left; left|].
      apply elem_of_cons in Hr' as [->|Hr']; [by left; right|].
      right. by exists r'.
Qed.

(** The columns of a frame are the keys of its records. *)
Lemma columns_of_records_elem label records :
  label ∈ pd.columns (pd.of_records records)
  <-> exists r, r ∈ records /\ label ∈ keys r.
Proof.
  unfold pd.of_records. cbn [pd.columns]. rewrite fold_add_columns_elem, elem_of_nil. tauto.
Qed.

(** A column in which some record has a string is kept as it is. *)
Lemma string_column_kept (records : list (dict pd.value)) (label : string) :
  (exists r s, r ∈ records /\ get label r = Some (pd.Str s)) ->
  pd.stored_as_float (map (pd.raw_cell label) records) = false.
Proof.
  intros (r & s & Hr & Hs). unfold pd.stored_as_float.
  assert (forallb (fun v => pd.is_int v || pd.is_missing v) (map (pd.raw_cell label) records)
          = false) as ->; [|done].
  apply not_true_is_false. intros Hall. rewrite forallb_forall in Hall.
  assert (pd.raw_cell label r = pd.Str s) as Hcell by (unfold pd.raw_cell; by rewrite Hs).
  assert (In (pd.raw_cell label r) (map (pd.raw_cell label) records)) as Hin
    by (apply in_map; by apply list_elem_of_In).
  apply Hall in Hin. rewrite Hcell in Hin. discriminate Hin.
Qed.

(** A cell of a frame: the value of the record under a label that is a
    column, as the type of the column stores it, [NaN] where the record
    lacks the label; a label that is no column is a [KeyError]. *)
Lemma loc_of_records records i r label :
  records !! i = Some r ->
  pd.loc (pd.of_records records) i label
  = if bool_decide (label ∈ pd.columns (pd.of_records records))
    then Some (if pd.stored_as_float (map (pd.raw_cell label) records)
               then pd.to_float (pd.raw_cell label r)
               else pd.raw_cell label r)
    else None.
Proof.
  intros Hr. unfold pd.loc. set (cols := pd.columns (pd.of_records records)).
  change (pd.data (pd.of_records records))
    with (map (fun r =>
                 map (fun c =>
                        if pd.stored_as_float (map (pd.raw_cell c) records)
                        then pd.to_float (pd.raw_cell c r)
                        else pd.raw_cell c r) cols) records).
  rewrite lookup_map, Hr. cbn [fmap option_fmap option_map mbind option_bind].
  destruct (bool_decide_reflect (label ∈ cols)) as [Hin|Hnot].
  - destruct (index_of_elem _ _ Hin) as [j Hj]. rewrite Hj. cbn [mbind option_bind].
    rewrite lookup_map, (index_of_lookup _ _ _ Hj). done.
  - by rewrite index_of_not_elem.
Qed.

(** The cell of a column of strings. *)
Lemma loc_of_string records i r label s :
  records !! i = Some r ->
  get label r = Some (pd.Str s) ->
  pd.loc (pd.of_records records) i label = Some (pd.Str s).
Proof.
  intros Hr Hs. rewrite (loc_of_records _ _ _ _ Hr).
  rewrite bool_decide_eq_true_2.
  - rewrite string_column_kept.
    + unfold pd.raw_cell. by rewrite Hs.
    + exists r, s. split; [by eapply list_elem_of_lookup_2|done].
  - apply columns_of_records_elem. exists r. split; [by eapply list_elem_of_lookup_2|].
    apply get_keys. by eexists.
Qed.

Lemma cells_of_record (r : dict pd.value) :
  NoDup (keys r) -> map (fun c => pd.raw_cell c r) (keys r) = map snd r.
Proof.
  unfold pd.raw_cell. induction r as [|[k v] r IH]; intros Hnd; [done|].
  apply NoDup_cons in Hnd as [Hk Hnd].
  change (keys ((k, v) :: r)) with (k :: keys r).
  rewrite map_cons, get_head. cbn [default map snd]. f_equal.
  rewrite <- IH by done. apply map_ext_in. intros c Hc.
  rewrite get_tail; [done|]. intros ->. apply Hk. by apply list_elem_of_In.
Qed.

(** A frame of records that all have the keys [ks], with strings as
    values. *)
Lemma data_uniform (ks : list string) (records : list (dict pd.value)) :
  NoDup ks ->
  Forall (fun r => keys r = ks) records ->
  Forall (fun r => forall k v, get k r = Some v -> exists s, v = pd.Str s) records ->
  pd.data (pd.of_records records) = map (map snd) records.
Proof.
  intros Hnd Hall Hstr. destruct records as [|r0 rs] eqn:E; [done|]. rewrite <- E in *.
  assert (records <> []) as Hne by (by rewrite E).
  pose proof (columns_uniform ks records Hnd Hne Hall) as Hc.
  assert (forall c, c ∈ ks -> pd.stored_as_float (map (pd.raw_cell c) records) = false)
    as Hkept.
  { intros c Hin. apply string_column_kept.
    assert (r0 ∈ records) as Hr0 by (rewrite E; left).
    rewrite Forall_forall in Hall, Hstr. pose proof (Hall r0 Hr0) as Hkeys.
    assert (is_Some (get c r0)) as [v Hv] by (apply get_keys; by rewrite Hkeys).
    destruct (Hstr r0 Hr0 c v Hv) as [s ->]. by exists r0, s. }
  unfold pd.of_records in *. cbn [pd.data pd.columns] in *. rewrite Hc. clear Hc E Hne.
  apply map_ext_in. intros r Hr. rewrite Forall_forall in Hall.
  rewrite <- (cells_of_record r) by (by rewrite (Hall r) by (by apply list_elem_of_In)).
  rewrite (Hall r) by (by apply list_elem_of_In).
  apply map_ext_in. intros c Hin. by rewrite Hkept by (by apply list_elem_of_In).
Qed.

(** ** The metrics table *)

Lemma metrics_frame (result : AnnotatedDocument) :
  let metrics := filter (fun e => extraction_class e = "financial_metric") (extractions result) in
  pd.of_records (metrics_data result)
  = {| pd.columns := match metrics with [] => [] | _ :: _ => metric_columns end;
       pd.data :=
         map (fun e =>
                [ pd.Str (default "unknown" (get "metric_name" (attributes e)));
                  pd.Str (default "" (get "value" (attributes e)));
                  pd.Str (default "" (get "unit" (attributes e)));
                  pd.Str (default "" (get "time_period" (attributes e)));
                  pd.Str (default "" (get "segment" (attributes e)));
                  pd.Str (extraction_text e) ]) metrics |}.
Proof.
  intros metrics. rewrite metrics_data_map.
  change (of_class "financial_metric" result) with metrics.
  assert (NoDup metric_columns) as Hnd by compute_done.
  assert (Forall (fun r => keys r = metric_columns) (map metric_row metrics)) as Hall.
  { apply Forall_map. apply Forall_forall. intros e _. reflexivity. }
  assert (Forall (fun r => forall k v, get k r = Some v -> exists s, v = pd.Str s)
            (map metric_row metrics)) as Hstr.
  { apply Forall_map. apply Forall_forall. intros e _ k v. unfold metric_row. cbn [get].
    repeat (destruct (String.eqb _ k); [intros [= <-]; by eexists|]). done. }
  assert (forall df df' : pd.DataFrame,
            pd.columns df = pd.columns df' -> pd.data df = pd.data df' -> df = df') as Hext
    by (intros [c d] [c' d']; cbn; by intros -> ->).
  apply Hext; cbn [pd.columns pd.data].
  - destruct metrics as [|e metrics'] eqn:E; [done|]. rewrite <- E in *.
    apply columns_uniform; [done| |done]. by rewrite E.
  - rewrite (data_uniform metric_columns) by done. rewrite map_map. apply map_ext. intros e.
    unfold metric_row, get_default. simpl. repeat f_equal; by destruct (get _ _).
Qed.

(** ** Segments *)

Lemma has_segment_carries e : has_segment e = true <-> carries_segment e.
Proof.
  unfold has_segment, carries_segment. rewrite andb_true_iff, String.eqb_eq.
  split; intros [Hc Hs]; split; try done.
  - by destruct (get "segment" (attributes e)) as [[|c s]|].
  - by destruct (get "segment" (attributes e)) as [[|c s]|].
Qed.

Lemma segment_data_rows (result : AnnotatedDocument) :
  segment_data result
  = (map segment_row (of_class "business_segment" result)
     ++ map segment_metric_row (filter carries_segment (extractions result)))%list.
Proof.
  unfold segment_data. rewrite !fold_append. simpl. f_equal. f_equal.
  apply list_filter_iff. intros e. apply has_segment_carries.
Qed.

(** ** Counters *)

Lemma occurrences_app key xs ys :
  occurrences key (xs ++ ys) = occurrences key xs + occurrences key ys.
Proof. induction xs as [|x xs IH]; simpl; [done|]. rewrite IH. lia. Qed.

Lemma occurrences_pos key xs : 0 < occurrences key xs <-> key ∈ xs.
Proof.
  induction xs as [|x xs IH]; simpl.
  - split; [lia|]. by intros ?%elem_of_nil.
  - rewrite elem_of_cons. destruct (String.eqb_spec x key) as [->|Hne].
    + split; [by left|lia].
    + simpl. rewrite IH. split; [by right|]. intros [->|?]; done.
Qed.

Lemma get_incr key k (c : dict nat) :
  get k (incr key c) = if String.eqb key k then Some (S (default 0 (get key c))) else get k c.
Proof.
  induction c as [|[k0 n] c IH]; simpl.
  - destruct (String.eqb_spec key k); done.
  - destruct (String.eqb_spec k0 key) as [->|Hne]; simpl.
    + destruct (String.eqb_spec key k); done.
    + rewrite IH. destruct (String.eqb_spec k0 k) as [->|Hne'].
      * destruct (String.eqb_spec key k); [congruence|done].
      * done.
Qed.

Lemma keys_incr key (c : dict nat) :
  keys (incr key c) = if bool_decide (key ∈ keys c) then keys c else (keys c ++ [key])%list.
Proof.
  induction c as [|[k0 n] c IH]; simpl; [done|].
  destruct (String.eqb_spec k0 key) as [->|Hne]; simpl.
  - rewrite bool_decide_eq_true_2 by left. done.
  - unfold keys in *. rewrite IH. destruct (decide (key ∈ map fst c)) as [Hin|Hnin].
    + rewrite !bool_decide_eq_true_2; [done|by right|done].
    + rewrite !bool_decide_eq_false_2; [done| |done].
      intros [->|?]%elem_of_cons; done.
Qed.

Lemma NoDup_keys_incr key (c : dict nat) : NoDup (keys c) -> NoDup (keys (incr key c)).
Proof.
  intros Hnd. rewrite keys_incr. case_bool_decide; [done|].
  apply NoDup_app. split; [done|]. split; [|apply NoDup_singleton].
  intros k Hk ->%list_elem_of_singleton. done.
Qed.


Lemma counts_incr c xs key : counts c xs -> counts (incr key c) (xs ++ [key]).
Proof.
  intros [Hnd Hget]. split; [by apply NoDup_keys_incr|].
  intros k. rewrite get_incr, occurrences_app. cbn [occurrences].
  destruct (String.eqb_spec key k) as [->|Hne].
  - rewrite Hget.
    destruct (Nat.eqb_spec (occurrences k xs + (1 + 0)) 0) as [E1|E1]; [lia|].
    destruct (Nat.eqb_spec (occurrences k xs) 0) as [E|E]; simpl; f_equal; lia.
  - rewrite Hget, !Nat.add_0_r. done.
Qed.

Lemma counts_fold xs c seen :
  counts c seen -> counts (fold_left (fun c key => incr key c) xs c) (seen ++ xs).
Proof.
  revert c seen. induction xs as [|x xs IH]; intros c seen H; simpl.
  - by rewrite app_nil_r.
  - replace (seen ++ x :: xs)%list with ((seen ++ [x]) ++ xs)%list by (by rewrite <- app_assoc).
    apply IH. by apply counts_incr.
Qed.

Lemma counts_Counter xs : counts (Counter xs) xs.
Proof. apply (counts_fold xs [] []). split; [constructor|]. intros k. done. Qed.

Lemma elem_of_dict {V : Type} (c : dict V) k v :
  NoDup (keys c) -> (k, v) ∈ c <-> get k c = Some v.
Proof.
  induction c as [|[k0 v0] c IH]; intros Hnd.
  - simpl. split; [by intros ?%elem_of_nil|done].
  - apply NoDup_cons in Hnd as [Hk Hnd]. rewrite elem_of_cons. simpl.
    destruct (String.eqb_spec k0 k) as [->|Hne].
    + split.
      * intros [[= ->]|Hin]; [done|]. exfalso. apply Hk.
        apply list_elem_of_fmap. by exists (k, v).
      * intros [= ->]. by left.
    + rewrite <- IH by done. split; [|by right]. intros [[= ? ?]|?]; done.
Qed.


Lemma insert_desc_perm x l : Permutation (insert_desc x l) (x :: l).
Proof.
  induction l as [|y l IH]; simpl; [done|].
  destruct (snd y <? snd x)%nat; [done|]. rewrite IH. apply perm_swap.
Qed.

Lemma insert_desc_sorted x l :
  StronglySorted by_count_desc l -> StronglySorted by_count_desc (insert_desc x l).
Proof.
  induction 1 as [|y l Hs IH Hall]; simpl.
  - repeat constructor.
  - destruct (Nat.ltb_spec (snd y) (snd x)) as [Hlt|Hge].
    + constructor; [by constructor|]. constructor; [unfold by_count_desc; lia|].
      eapply Forall_impl; [exact Hall|]. unfold by_count_desc. simpl. intros z ?. lia.
    + constructor; [done|]. rewrite insert_desc_perm. by constructor.
Qed.

Lemma most_common_fold l acc :
  StronglySorted by_count_desc acc ->
  StronglySorted by_count_desc (fold_left (fun sorted x => insert_desc x sorted) l acc)
  /\ Permutation (fold_left (fun sorted x => insert_desc x sorted) l acc) (acc ++ l).
Proof.
  revert acc. induction l as [|x l IH]; intros acc Hs; simpl.
  - by rewrite app_nil_r.
  - destruct (IH (insert_desc x acc)) as [H1 H2]; [by apply insert_desc_sorted|].
    split; [done|]. rewrite H2, insert_desc_perm. simpl. apply Permutation_middle.
Qed.

Lemma most_common_sorted c : StronglySorted by_count_desc (most_common c).
Proof. apply most_common_fold. constructor. Qed.

Lemma most_common_perm c : Permutation (most_common c) c.
Proof. apply (most_common_fold c []). constructor. Qed.


Lemma risk_breakdown_spec (result : AnnotatedDocument) :
  let categories :=
    map risk_category_of
      (filter (fun e => extraction_class e = "risk_factor") (extractions result)) in
  let breakdown := risk_category_breakdown result in
  StronglySorted by_count_desc breakdown
  /\ NoDup (map fst breakdown)
  /\ (forall c, c ∈ map fst breakdown <-> c ∈ categories)
  /\ (forall c n, (c, n) ∈ breakdown <-> 0 < n /\ n = occurrences c categories).
Proof.
  intros categories breakdown.
  assert (breakdown = most_common (Counter categories)) as E by reflexivity.
  destruct (counts_Counter categories) as [Hnd Hget].
  pose proof (most_common_perm (Counter categories)) as Hperm. rewrite <- E in Hperm.
  assert (forall c n, (c, n) ∈ breakdown <-> 0 < n /\ n = occurrences c categories) as Hmem.
  { intros c n. rewrite Hperm, elem_of_dict, Hget by done.
    destruct (Nat.eqb_spec (occurrences c categories) 0) as [E0|E0].
    - split; [done|]. intros [? ->]. lia.
    - split; [intros [= <-]; lia|]. by intros [_ ->]. }
  split; [rewrite E; apply most_common_sorted|].
  split; [by rewrite Hperm|].
  split; [|done].
  intros c. split.
  - intros ([c' n] & -> & Hin)%list_elem_of_fmap. apply Hmem in Hin as [Hpos ->].
    by apply occurrences_pos.
  - intros Hpos%occurrences_pos. apply list_elem_of_fmap.
    exists (c, occurrences c categories). split; [done|]. by apply Hmem.
Qed.

(** ** What the exports write *)

Section Exports.

Variable svc : Services.

(** An export is one write followed by one printed line. *)
Lemma export_run (p content line : string) (w : World) :
  if writable w p
  then (write_text p content;; print line) w
       = ({| fs := <[p := File content]> (fs w);
             trace := trace w ++ [FileWrite p content; Stdout line] |},
          inr tt)
  else exists e, (write_text p content;; print line) w = (w, inl e).
Proof.
  destruct (writable w p) eqn:Hw; rewrite bind_unfold.
  - rewrite (write_text_writable _ _ _ Hw), print_unfold. cbn [fs trace].
    by rewrite <- app_assoc.
  - destruct (write_text_blocked p content w Hw) as [e ->]. by exists e.
Qed.

(** C4. The metrics export writes the CSV of a table with one data row
    per extraction whose class is exactly ["financial_metric"], and the
    count it prints is that number. Where the file cannot be written
    (a directory in the way, no parent directory) the export raises and
    nothing is written. *)
Theorem metrics_export_row_count (result : AnnotatedDocument) (output_file : string)
    (w : World) :
  let rows := count_class "financial_metric" (extractions result) in
  let table := pd.of_records (metrics_data result) in
  (if writable w output_file
   then export_financial_metrics svc result output_file w
        = ({| fs := <[output_file := File (to_csv svc table)]> (fs w);
              trace := trace w ++
                [ FileWrite output_file (to_csv svc table);
                  Stdout ("✓ Exported " +:+ PyStr.str_of_nat rows
                          +:+ " financial metrics to: " +:+ output_file) ] |},
           inr tt)
   else exists e, export_financial_metrics svc result output_file w = (w, inl e))
  /\ List.length (pd.data table) = rows.
Proof.
  intros rows table.
  assert (List.length (metrics_data result) = rows) as Hrows
    by (subst rows; by rewrite metrics_data_map, length_map, of_class_length).
  split.
  - unfold export_financial_metrics. cbv zeta. rewrite Hrows. apply export_run.
  - subst table. by rewrite of_records_data_length.
Qed.

(** C2, as the code has it. The metrics export writes the CSV of the
    table that has one row per ["financial_metric"] extraction, in
    order, under the columns [metric_name], [value], [unit],
    [time_period], [segment], [text] (a table without rows has no
    columns); an absent attribute gives ["unknown"] in [metric_name]
    and the empty string in [value], [unit], [time_period] and
    [segment]. Where the file cannot be written the export raises and
    nothing is written. *)
Theorem metrics_table_rows (result : AnnotatedDocument) (output_file : string) (w : World) :
  let metrics := filter (fun e => extraction_class e = "financial_metric") (extractions result) in
  let table :=
    {| pd.columns := match metrics with [] => [] | _ :: _ => metric_columns end;
       pd.data :=
         map (fun e =>
                [ pd.Str (default "unknown" (get "metric_name" (attributes e)));
                  pd.Str (default "" (get "value" (attributes e)));
                  pd.Str (default "" (get "unit" (attributes e)));
                  pd.Str (default "" (get "time_period" (attributes e)));
                  pd.Str (default "" (get "segment" (attributes e)));
                  pd.Str (extraction_text e) ]) metrics |} in
  if writable w output_file
  then export_financial_metrics svc result output_file w
       = ({| fs := <[output_file := File (to_csv svc table)]> (fs w);
             trace := trace w ++
               [ FileWrite output_file (to_csv svc table);
                 Stdout ("✓ Exported " +:+ PyStr.str_of_nat (List.length metrics)
                         +:+ " financial metrics to: " +:+ output_file) ] |},
          inr tt)
  else exists e, export_financial_metrics svc result output_file w = (w, inl e).
Proof.
  intros metrics table.
  assert (List.length (metrics_data result) = List.length metrics) as Hrows
    by (by rewrite metrics_data_map, length_map).
  unfold export_financial_metrics. cbv zeta. rewrite Hrows, metrics_frame. apply export_run.
Qed.

(** C5. The segment export writes the CSV of the table built from
    these rows and no other: one row per ["business_segment"]
    extraction (its text and its [segment_type] attribute), followed by
    one row per ["financial_metric"] extraction whose [segment]
    attribute is present and not empty (that segment, the constant
    ["metric"], and the metric name, value and unit). The table has one
    data row per row of the list. Where the file cannot be written the
    export raises and nothing is written. *)
Theorem segment_table_rows (result : AnnotatedDocument) (output_file : string) (w : World) :
  let rows :=
    (map (fun e =>
           [ ("segment_name", pd.Str (extraction_text e));
             ("segment_type", pd.Str (default "" (get "segment_type" (attributes e)))) ])
       (filter (fun e => extraction_class e = "business_segment") (extractions result))
    ++
    map (fun e =>
           [ ("segment_name", pd.Str (default "" (get "segment" (attributes e))));
             ("segment_type", pd.Str "metric");
             ("metric_name", pd.Str (default "" (get "metric_name" (attributes e))));
             ("value", pd.Str (default "" (get "value" (attributes e))));
             ("unit", pd.Str (default "" (get "unit" (attributes e)))) ])
       (filter carries_segment (extractions result)))%list in
  let table := pd.of_records rows in
  (if writable w output_file
   then export_business_segments svc result output_file w
        = ({| fs := <[output_file := File (to_csv svc table)]> (fs w);
              trace := trace w ++
                [ FileWrite output_file (to_csv svc table);
                  Stdout ("✓ Exported " +:+ PyStr.str_of_nat (List.length rows)
                          +:+ " business segment entries to: " +:+ output_file) ] |},
           inr tt)
   else exists e, export_business_segments svc result output_file w = (w, inl e))
  /\ List.length (pd.data table)
     = count_class "business_segment" (extractions result)
       + List.length (filter carries_segment (extractions result)).
Proof.
  intros rows table.
  assert (segment_data result = rows) as E.
  { rewrite segment_data_rows. subst rows. reflexivity. }
  split.
  - unfold export_business_segments. cbv zeta. rewrite E. apply export_run.
  - subst table. rewrite of_records_data_length. subst rows.
    rewrite length_app, !length_map. f_equal. apply of_class_length.
Qed.

(** C6, as the code has it. The summary report is written with the
    risk category breakdown between its head and its tail: the
    categories of the ["risk_factor"] extractions in descending order
    of their number of occurrences, each occurring category once with
    its count, and no other category, where a risk without
    [risk_category] counts under ["unknown"]. Where the file cannot be
    written the call raises and nothing is written. *)
Theorem risk_breakdown_descending (result : AnnotatedDocument)
    (ticker ftype output_file : string) (w : World) :
  let categories :=
    map risk_category_of
      (filter (fun e => extraction_class e = "risk_factor") (extractions result)) in
  exists breakdown : list (string * nat),
    let report :=
      PyStr.join nl
        (report_head result ticker ftype
         ++ ([""; "## Risk Factor Categories"; ""]
             ++ map (fun entry =>
                       "- **" +:+ fst entry +:+ "**: " +:+ PyStr.str_of_nat (snd entry)
                       +:+ " risks identified") breakdown)
         ++ report_tail result)%list in
    (if writable w output_file
     then generate_summary_report result ticker ftype output_file w
          = ({| fs := <[output_file := File report]> (fs w);
                trace := trace w ++
                  [ FileWrite output_file report;
                    Stdout ("✓ Generated summary report: " +:+ output_file) ] |},
             inr tt)
     else exists e, generate_summary_report result ticker ftype output_file w = (w, inl e))
    /\ StronglySorted by_count_desc breakdown
    /\ NoDup (map fst breakdown)
    /\ (forall c, c ∈ map fst breakdown <-> c ∈ categories)
    /\ (forall c n, (c, n) ∈ breakdown <-> 0 < n /\ n = occurrences c categories).
Proof.
  intros categories. exists (risk_category_breakdown result). cbv zeta.
  split; [|apply risk_breakdown_spec].
  unfold generate_summary_report. cbv zeta. apply export_run.
Qed.

End Exports.

(** C2, as stated, fails: with no [metric_name] attribute the cell is
    ["unknown"], not the empty string. *)
Lemma metrics_table_default_not_empty :
  let e := {| extraction_class := "financial_metric";
              extraction_text := "revenue of $60.9 billion";
              char_interval := None;
              attributes := [("value", "60.9")] |} in
  let df := pd.of_records (metrics_data {| text := "revenue of $60.9 billion";
                                           extractions := [e] |}) in
  get "metric_name" (attributes e) = None
  /\ pd.loc df 0 "metric_name" = Some (pd.Str "unknown")
  /\ pd.loc df 0 "metric_name" <> Some (pd.Str "").
Proof. split; [reflexivity|]. split; [reflexivity|discriminate]. Qed.

(** * The fetcher *)

(** C7. A ticker that the table does not hold once upper-cased, by
    [str.upper] whatever that does beyond ASCII, makes [get_filing]
    return the empty string after one console message: no request is
    sent, nothing is written. *)
Theorem get_filing_unknown_ticker
    (edgar : list event -> HttpRequest -> string + BeautifulSoup)
    (unicode_upper : string -> string)
    (self : SECFilingFetcher) (ticker ftype : string)
    (year : option string) (sections : option (list string)) (w : World) :
  ticker_to_cik !! PyStr.upper unicode_upper ticker = None ->
  get_filing edgar unicode_upper self ticker ftype year sections w
  = ({| fs := fs w;
        trace := trace w ++ [Stdout ("CIK not found for ticker: " +:+ ticker)] |},
     inr "")
  /\ (forall req,
        HttpGet req ∈ trace (get_filing edgar unicode_upper self ticker ftype year sections w).1 ->
        HttpGet req ∈ trace w).
Proof.
  intros Hcik.
  assert (get_filing edgar unicode_upper self ticker ftype year sections w
          = ({| fs := fs w;
                trace := trace w ++ [Stdout ("CIK not found for ticker: " +:+ ticker)] |},
             inr "")) as E
    by (unfold get_filing, get_company_cik; by rewrite Hcik).
  split; [exact E|]. intros req. rewrite E. cbn [fst trace].
  intros [Hin|Hin]%elem_of_app; [done|].
  apply list_elem_of_singleton in Hin. discriminate.
Qed.

Lemma requested_text_eq (sections : option (list string)) (doc_soup : BeautifulSoup) :
  match sections_given sections with
  | Some secs => _extract_sections doc_soup secs
  | None => _extract_full_text doc_soup
  end = requested_text sections doc_soup.
Proof. by destruct sections as [[|s secs]|]. Qed.


Section Fetcher.

Variable edgar : list event -> HttpRequest -> string + BeautifulSoup.
Variable unicode_upper : string -> string.

(** A cache entry is decoded, not fetched. *)
Lemma get_filing_text_hit self url sections w c :
  fs w !! cache_file self url = Some (File c) ->
  get_filing_text edgar self url sections w
  = ({| fs := fs w;
        trace := trace w ++ [Stdout ("Using cached filing: " +:+ cache_file self url)] |},
     decoded c).
Proof.
  intros Hhit. destruct w as [wfs wtr]. cbn [fs trace] in *. unfold get_filing_text. run.
  rewrite Hhit. rewrite bool_decide_eq_true_2 by (by eexists). run. rewrite Hhit.
  unfold decoded. by destruct (PyStr.utf8_valid c).
Qed.

(** A directory where the entry belongs makes the read raise. *)
Lemma get_filing_text_blocked self url sections w :
  fs w !! cache_file self url = Some Dir ->
  get_filing_text edgar self url sections w
  = ({| fs := fs w;
        trace := trace w ++ [Stdout ("Using cached filing: " +:+ cache_file self url)] |},
     inl (Exception "IsADirectoryError")).
Proof.
  intros Hhit. destruct w as [wfs wtr]. cbn [fs trace] in *. unfold get_filing_text. run.
  rewrite Hhit. rewrite bool_decide_eq_true_2 by (by eexists). run. by rewrite Hhit.
Qed.

(** On a miss the call returns: the empty string with the files as they
    were, or the text taken from a served document, which it caches. *)
Lemma get_filing_text_miss self url sections w :
  fs w !! cache_file self url = None ->
  exists w' t,
    get_filing_text edgar self url sections w = (w', inr t)
    /\ ((fs w' = fs w /\ t = "")
        \/ (fs w' = <[cache_file self url := File t]> (fs w)
            /\ exists doc_soup,
                 page_served edgar doc_soup /\ t = requested_text sections doc_soup)).
Proof.
  intros Hmiss. destruct w as [wfs wtr]. cbn [fs] in *. unfold get_filing_text. run.
  rewrite Hmiss. rewrite bool_decide_eq_false_2 by (by intros [? ?]).
  destruct (edgar _ _) as [msg|soup]; run; [by eexists _, _; split; [|left]|].
  destruct (find_table "tableFile" soup) as [table|]; run;
    [|by eexists _, _; split; [|left]].
  destruct (find_main_document _) as [msg|[doc_link|]]; run;
    [by eexists _, _; split; [|left]| |by eexists _, _; split; [|left]].
  destruct (edgar _ _) as [msg|doc_soup] eqn:Hdoc; run; [by eexists _, _; split; [|left]|].
  rewrite Hmiss. destruct (parent_is_dir _ _); run.
  - eexists _, _. split; [reflexivity|]. right. rewrite requested_text_eq.
    split; [reflexivity|]. exists doc_soup. split; [|reflexivity]. eexists _, _. exact Hdoc.
  - by eexists _, _; split; [|left].
Qed.



(** What a call that returns leaves in the cache: after a returned
    text that is not empty, or with a cache entry present afterwards,
    the entry is a file; it holds the returned text when this call
    fetched it, and the bytes that decode to the returned text when the
    entry was there before. *)
Lemma get_filing_text_cached self url sections w w1 t :
  get_filing_text edgar self url sections w = (w1, inr t) ->
  t <> "" \/ is_Some (fs w1 !! cache_file self url) ->
  exists c,
    fs w1 !! cache_file self url = Some (File c)
    /\ ((fs w !! cache_file self url = None /\ c = t)
        \/ (fs w !! cache_file self url = Some (File c) /\ decoded c = inr t)).
Proof.
  intros Hrun Hok. destruct (fs w !! cache_file self url) as [[|c]|] eqn:Hc.
  - by rewrite (get_filing_text_blocked _ _ _ _ Hc) in Hrun.
  - rewrite (get_filing_text_hit _ _ _ _ _ Hc) in Hrun. injection Hrun as <- Hdec.
    exists c. split; [done|]. by right.
  - destruct (get_filing_text_miss self url sections w Hc) as (w' & t' & Hrun' & Hfs).
    rewrite Hrun' in Hrun. injection Hrun as <- <-.
    destruct Hfs as [[Hfs ->]|[Hfs _]].
    + rewrite Hfs, Hc in Hok. by destruct Hok as [?|[? ?]].
    + exists t'. rewrite Hfs. split; [apply lookup_insert_eq|by left].
Qed.

(** C10, as the code has it. The cache entry of a filing is named after
    the final segment of its URL alone: once a call for one URL has
    returned with its text in the cache, a call for a URL with the same
    final segment sends no request and prints one line; it decodes the
    entry of the first URL. That entry holds the text the first call
    fetched, or the bytes the first call itself decoded. So the second
    call returns the text of the first with every [\r\n] and every
    other [\r] read as [\n], which is the text of the first when that
    has no carriage return; it raises when the entry is not UTF-8. *)
Theorem get_filing_text_cache_key_collision (self : SECFilingFetcher)
    (url1 url2 : string) (sections1 sections2 : option (list string))
    (w w1 : World) (t1 : string) :
  cache_key url1 = cache_key url2 ->
  get_filing_text edgar self url1 sections1 w = (w1, inr t1) ->
  t1 <> "" \/ is_Some (fs w1 !! cache_file self url1) ->
  cache_file self url2 = cache_file self url1
  /\ exists (c line : string),
       fs w1 !! cache_file self url1 = Some (File c)
       /\ (c = t1 \/ decoded c = inr t1)
       /\ get_filing_text edgar self url2 sections2 w1
          = ({| fs := fs w1; trace := trace w1 ++ [Stdout line] |},
             if PyStr.utf8_valid c
             then inr (PyStr.universal_newlines c)
             else inl (Exception "UnicodeDecodeError"))
       /\ (PyStr.utf8_valid t1 = true ->
           (c = t1 -> decoded c = inr (PyStr.universal_newlines t1))
           /\ (no_carriage_return t1 = true -> decoded c = inr t1)).
Proof.
  intros Hkey Hrun Hok.
  assert (cache_file self url2 = cache_file self url1) as E
    by (unfold cache_file; by rewrite Hkey).
  split; [done|].
  destruct (get_filing_text_cached self url1 sections1 w w1 t1 Hrun Hok) as (c & Hc & Hfrom).
  exists c, ("Using cached filing: " +:+ cache_file self url1).
  split; [done|]. split; [destruct Hfrom as [[_ ->]|[_ ?]]; [by left|by right]|].
  split; [rewrite <- E; apply get_filing_text_hit; by rewrite E|].
  intros Hvalid. split.
  - intros ->. unfold decoded. by rewrite Hvalid.
  - intros Hcr. destruct Hfrom as [[_ ->]|[_ Hdec]]; [|done].
    unfold decoded. by rewrite Hvalid, universal_newlines_id.
Qed.

Lemma find_table_elem cls soup table :
  find_table cls soup = Some table -> table ∈ tables soup.
Proof.
  unfold find_table. induction (tables soup) as [|t ts IH]; simpl; [done|].
  case_bool_decide.
  - intros [= ->]. left.
  - intros H'. right. by apply IH.
Qed.

Lemma collect_filings_served (P : string -> Prop) ftype rows acc filings :
  (forall row cell a h,
     row ∈ rows -> cell ∈ row -> td_a cell = Some a -> href a = Some h -> P h) ->
  Forall (fun f => exists h, P h /\ filing_url f = BASE_URL +:+ h) acc ->
  collect_filings ftype rows acc = inr filings ->
  Forall (fun f => exists h, P h /\ filing_url f = BASE_URL +:+ h) filings.
Proof.
  revert acc. induction rows as [|cols rows IH]; intros acc Hrows Hacc; cbn [collect_filings].
  - by intros [= <-].
  - assert (forall row cell a h,
              row ∈ rows -> cell ∈ row -> td_a cell = Some a -> href a = Some h -> P h)
      as Hrows' by (intros row ? ? ? Hin; apply Hrows; by right).
    destruct (4 <=? List.length cols)%nat; [|by apply IH].
    destruct (cols !! 1%nat) as [cell|] eqn:Hcell; cbn [mbind option_bind]; [|by apply IH].
    destruct (td_a cell) as [a|] eqn:Ha; [|by apply IH].
    unfold get_href. destruct (href a) as [h|] eqn:Hh; [|done].
    apply IH; [done|]. apply Forall_app. split; [done|].
    apply Forall_singleton. exists h. split; [|done].
    apply (Hrows cols cell a h); [left| |done|done].
    by apply list_elem_of_lookup_2 with 1%nat.
Qed.

Lemma search_filings_spec self cik ftype count w :
  exists w' filings,
    search_filings edgar self cik ftype count w = (w', inr filings)
    /\ fs w' = fs w
    /\ Forall (filing_served edgar) filings.
Proof.
  destruct w as [wfs wtr]. unfold search_filings. run.
  destruct (edgar _ _) as [msg|soup] eqn:Hsoup; run; [by eexists _, _|].
  destruct (find_table "tableFile2" soup) as [table|] eqn:Htable; run; [|by eexists _, _].
  destruct (collect_filings _ _ _) as [msg|filings] eqn:Hcollect; run; [by eexists _, _|].
  eexists _, _. split; [reflexivity|]. split; [done|].
  eapply (collect_filings_served (served_href edgar)); [|apply Forall_nil_2|exact Hcollect].
  intros row cell a h Hrow Hcell Ha Hh.
  exists (wtr ++ [Stdout ("Searching for " +:+ ftype +:+ " filings for CIK " +:+ cik +:+ "...")])%list.
  eexists _, soup, table, row, cell, a.
  split; [exact Hsoup|]. split; [by eapply find_table_elem|].
  split; [|done]. eapply elem_of_sublist; [|apply sublist_drop].
  eapply elem_of_sublist; [exact Hrow|apply sublist_take].
Qed.

(** What [get_filing] does: it returns the empty string and leaves the
    files as they were, or it goes to the cache entry of a served
    filing: a directory there or bytes that are not UTF-8 make it
    raise, a file is decoded, and without an entry the text taken from
    a served document is returned and cached. *)
Lemma get_filing_cases self ticker ftype year sections w :
  exists w' outcome,
    get_filing edgar unicode_upper self ticker ftype year sections w = (w', outcome)
    /\ ((fs w' = fs w /\ outcome = inr "")
        \/ exists f,
             filing_served edgar f
             /\ match fs w !! cache_file self (filing_url f) with
                | Some Dir => fs w' = fs w /\ outcome = inl (Exception "IsADirectoryError")
                | Some (File c) => fs w' = fs w /\ outcome = decoded c
                | None =>
                    exists doc_soup,
                      page_served edgar doc_soup
                      /\ outcome = inr (requested_text sections doc_soup)
                      /\ fs w' = <[cache_file self (filing_url f)
                                   := File (requested_text sections doc_soup)]> (fs w)
                end).
Proof.
  unfold get_filing.
  destruct (get_company_cik unicode_upper ticker) as [[|c cik]|];
    [by eexists _, _; split; [|left]| |by eexists _, _; split; [|left]].
  rewrite bind_unfold.
  destruct (search_filings_spec self (String c cik) ftype 10 w)
    as (w1 & filings & -> & Hfs & Hserved).
  destruct filings as [|f0 filings0] eqn:E; [by eexists _, _; split; [|left]|].
  rewrite <- E in *. clear E f0 filings0.
  set (filings' := if PyStr.truthy year then _ else filings).
  assert (Forall (filing_served edgar) filings') as Hserved'.
  { subst filings'. destruct (PyStr.truthy year); [|done].
    rewrite Forall_forall in Hserved |- *.
    intros f [_ Hf]%list_elem_of_filter. by apply Hserved. }
  destruct filings' as [|filing others]; [by eexists _, _; split; [|left]|].
  apply Forall_cons in Hserved' as [Hfiling _].
  rewrite bind_unfold, print_unfold.
  set (w2 := {| fs := fs w1; trace := _ |}).
  assert (fs w2 = fs w) as Hfs2 by exact Hfs.
  destruct (fs w !! cache_file self (filing_url filing)) as [[|t]|] eqn:Hc.
  - rewrite get_filing_text_blocked by (by rewrite Hfs2). eexists _, _. split; [reflexivity|].
    right. exists filing. split; [done|]. by rewrite Hc.
  - rewrite (get_filing_text_hit _ _ _ _ t) by (by rewrite Hfs2).
    eexists _, _. split; [reflexivity|].
    right. exists filing. split; [done|]. by rewrite Hc.
  - destruct (get_filing_text_miss self (filing_url filing) sections w2)
      as (w' & t & -> & Hw'); [by rewrite Hfs2|].
    eexists _, _. split; [reflexivity|]. destruct Hw' as [[Hw' ->]|(Hw' & doc_soup & Hdoc & ->)].
    + left. by rewrite Hw'.
    + right. exists filing. split; [done|]. rewrite Hc. exists doc_soup.
      split; [done|]. split; [done|]. by rewrite Hw', Hfs2.
Qed.

(** With a cache that holds text, [get_filing] returns. *)
Lemma get_filing_returns self ticker ftype year sections w :
  cache_holds_text self w ->
  exists w' t,
    get_filing edgar unicode_upper self ticker ftype year sections w = (w', inr t)
    /\ ((fs w' = fs w /\ t = "")
        \/ exists f c,
             filing_served edgar f
             /\ fs w' !! cache_file self (filing_url f) = Some (File c)
             /\ ((fs w' = fs w /\ decoded c = inr t)
                 \/ (fs w' = <[cache_file self (filing_url f) := File t]> (fs w) /\ c = t))).
Proof.
  intros Hcache.
  destruct (get_filing_cases self ticker ftype year sections w)
    as (w' & outcome & Hrun & [[Hfs ->]|(f & Hf & Hentry)]).
  { exists w', "". split; [done|]. by left. }
  specialize (Hcache (filing_url f)).
  destruct (fs w !! cache_file self (filing_url f)) as [[|c]|] eqn:Hc; [done| |].
  - destruct Hentry as [Hfs ->]. exists w', (PyStr.universal_newlines c).
    assert (decoded c = inr (PyStr.universal_newlines c)) as Hdec
      by (unfold decoded; by rewrite Hcache).
    split; [by rewrite Hrun, Hdec|]. right. exists f, c.
    split; [done|]. split; [by rewrite Hfs|]. by left.
  - destruct Hentry as (doc_soup & Hdoc & -> & Hfs).
    eexists _, _. split; [exact Hrun|]. right. exists f, (requested_text sections doc_soup).
    split; [done|]. split; [rewrite Hfs; apply lookup_insert_eq|]. by right.
Qed.



End Fetcher.

(** ** Paths *)




(** ** Which paths a computation leaves alone *)
















Section Pipeline.

Variable svc : Services.






End Pipeline.

(** ** The entry point *)



Section EntryPoint.

Variable svc : Services.


(** C1, as the code has it. Without the credential (unset or empty),
    [main] first creates the output directory; when the directory is
    there or can be created, it then prints the two lines of the report
    and exits with status 1: no request is sent, no file is written, and
    the new directory is the only change to the file system. When the
    directory cannot be created, [main] ends with the error of [mkdir]
    before it looks at the credential. *)
Theorem main_without_api_key (args : Args) (key : option string) (w : World) :
  PyStr.truthy key = false ->
  let report :=
    [ Mkdir (output_dir args);
      Stdout "❌ Error: LANGEXTRACT_API_KEY not set in environment";
      Stdout "   Set it with: export LANGEXTRACT_API_KEY='your-key-here'" ] in
  main svc args key w =
    match fs w !! output_dir args with
    | Some Dir =>
        ({| fs := fs w; trace := trace w ++ report |}, inl (SystemExit 1))
    | Some (File _) =>
        ({| fs := fs w; trace := trace w ++ [Mkdir (output_dir args)] |},
         inl (Exception "FileExistsError"))
    | None =>
        if parent_is_dir w (output_dir args)
        then ({| fs := <[output_dir args := Dir]> (fs w); trace := trace w ++ report |},
              inl (SystemExit 1))
        else ({| fs := fs w; trace := trace w ++ [Mkdir (output_dir args)] |},
              inl (Exception "FileNotFoundError"))
    end.
Proof.
  intros Hkey report. destruct w as [wfs wtr]. unfold main. rewrite bind_unfold.
  unfold mkdir_exist_ok. cbn [fs trace].
  assert (forall l : list event, (((l ++ [Mkdir (output_dir args)]) ++
            [Stdout "❌ Error: LANGEXTRACT_API_KEY not set in environment"]) ++
            [Stdout "   Set it with: export LANGEXTRACT_API_KEY='your-key-here'"])%list
          = (l ++ report)%list) as E by (intros l; by rewrite <- !app_assoc).
  destruct (wfs !! output_dir args) as [[|c]|]; [|done|].
  - destruct key as [[|c key]|]; [|done|]; run; by rewrite E.
  - destruct (parent_is_dir _ _); [|done].
    destruct key as [[|c key]|]; [|done|]; run; by rewrite E.
Qed.


End EntryPoint.

(** ** The theorems on a concrete run *)



Lemma metrics_export_row_count_witness :
  let svc := Scenario.services Scenario.index_href in
  let out := "output/NVDA_10-K_extraction_metrics.csv" in
  let run := export_financial_metrics svc Scenario.annotated out Scenario.output_ready in
  writable Scenario.output_ready out = true
  /\ run.2 = inr tt
  /\ fs run.1 !! out
     = Some (File (to_csv svc (pd.of_records (metrics_data Scenario.annotated))))
  /\ List.length (pd.data (pd.of_records (metrics_data Scenario.annotated))) = 1.
Proof.
  intros svc out run.
  assert (writable Scenario.output_ready out = true) as Hw by (vm_compute; reflexivity).
  destruct (metrics_export_row_count svc Scenario.annotated out Scenario.output_ready)
    as [Hrun Hlen].
  rewrite Hw in Hrun. split; [exact Hw|]. unfold run. rewrite Hrun. cbn [fst snd fs].
  split; [reflexivity|]. split; [apply lookup_insert_eq|exact Hlen].
Defined.

Lemma metrics_table_rows_witness :
  let svc := Scenario.services Scenario.index_href in
  let out := "output/NVDA_10-K_extraction_metrics.csv" in
  let run := export_financial_metrics svc Scenario.annotated out Scenario.output_ready in
  let table :=
    {| pd.columns := metric_columns;
       pd.data := [ [ pd.Str "revenue"; pd.Str "60.9"; pd.Str "USD_billions"; pd.Str "";
                      pd.Str ""; pd.Str "Revenue was $60.9 billion" ] ] |} in
  writable Scenario.output_ready out = true
  /\ run.2 = inr tt
  /\ fs run.1 !! out = Some (File (to_csv svc table)).
Proof.
  intros svc out run table.
  assert (writable Scenario.output_ready out = true) as Hw by (vm_compute; reflexivity).
  pose proof (metrics_table_rows svc Scenario.annotated out Scenario.output_ready) as Hrun.
  cbv zeta in Hrun. rewrite Hw in Hrun. split; [exact Hw|]. unfold run. rewrite Hrun.
  cbn [fst snd fs]. split; [reflexivity|]. apply lookup_insert_eq.
Defined.

Lemma segment_table_rows_witness :
  let svc := Scenario.services Scenario.index_href in
  let out := "output/NVDA_10-K_extraction_segments.csv" in
  let run := export_business_segments svc Scenario.segmented out Scenario.output_ready in
  let rows :=
    [ [ ("segment_name", pd.Str "Data Center"); ("segment_type", pd.Str "product_line") ];
      [ ("segment_name", pd.Str "Data Center"); ("segment_type", pd.Str "metric");
        ("metric_name", pd.Str "segment_revenue"); ("value", pd.Str "47.5");
        ("unit", pd.Str "USD_billions") ] ] in
  writable Scenario.output_ready out = true
  /\ run.2 = inr tt
  /\ fs run.1 !! out = Some (File (to_csv svc (pd.of_records rows)))
  /\ List.length (pd.data (pd.of_records rows)) = 2.
Proof.
  intros svc out run rows.
  assert (writable Scenario.output_ready out = true) as Hw by (vm_compute; reflexivity).
  destruct (segment_table_rows svc Scenario.segmented out Scenario.output_ready)
    as [Hrun Hlen].
  rewrite Hw in Hrun. split; [exact Hw|]. unfold run. rewrite Hrun. cbn [fst snd fs].
  split; [reflexivity|]. split; [apply lookup_insert_eq|exact Hlen].
Defined.

Lemma risk_breakdown_descending_witness :
  let out := "output/NVDA_10-K_extraction_summary.md" in
  let run := generate_summary_report Scenario.annotated "NVDA" "10-K" out
               Scenario.output_ready in
  writable Scenario.output_ready out = true
  /\ exists breakdown : list (string * nat),
       run.2 = inr tt
       /\ ("regulatory", 1) ∈ breakdown
       /\ StronglySorted by_count_desc breakdown
       /\ NoDup (map fst breakdown).
Proof.
  intros out run.
  assert (writable Scenario.output_ready out = true) as Hw by (vm_compute; reflexivity).
  destruct (risk_breakdown_descending Scenario.annotated "NVDA" "10-K" out
              Scenario.output_ready)
    as (breakdown & Hrun & Hsorted & Hnodup & _ & Hmem).
  rewrite Hw in Hrun. split; [exact Hw|]. exists breakdown.
  split; [unfold run; by rewrite Hrun|]. split; [|by split].
  apply Hmem. split; [lia|reflexivity].
Defined.

(** C6, as stated, fails: a risk without a [risk_category] attribute is
    listed under ["unknown"], a category that no extraction of the
    input has. *)
Lemma risk_breakdown_lists_unknown :
  let risk := {| extraction_class := "risk_factor";
                 extraction_text := "Supply may be constrained";
                 char_interval := None;
                 attributes := [("geographic_exposure", "taiwan")] |} in
  let result := {| text := "Supply may be constrained"; extractions := [risk] |} in
  let out := "output/NVDA_10-K_extraction_summary.md" in
  let run := generate_summary_report result "NVDA" "10-K" out Scenario.output_ready in
  Forall (fun e => get "risk_category" (attributes e) = None) (extractions result)
  /\ run.2 = inr tt
  /\ exists report,
       fs run.1 !! out = Some (File report)
       /\ "- **unknown**: 1 risks identified" ∈ PyStr.split newline report.
Proof.
  intros risk result out run.
  split; [by apply Forall_singleton|]. split; [reflexivity|].
  eexists. split; [vm_compute; reflexivity|]. apply list_elem_of_In. vm_compute. tauto.
Qed.

Lemma get_filing_unknown_ticker_witness :
  ticker_to_cik !! PyStr.upper (fun s => s) "ibm" = None
  /\ (get_filing (fun _ _ => inl "unreachable") (fun s => s) {| cache_dir := "cache" |}
        "ibm" "10-K" None None {| fs := ∅; trace := [] |}).2 = inr "".
Proof.
  split; [reflexivity|].
  pose proof (get_filing_unknown_ticker (fun _ _ => inl "unreachable") (fun s => s)
                {| cache_dir := "cache" |} "ibm" "10-K" None None
                {| fs := ∅; trace := [] |} eq_refl) as [H _].
  rewrite H. reflexivity.
Defined.




Lemma get_filing_text_cache_key_collision_witness :
  let edgar := Scenario.server Scenario.index_href in
  let url1 := BASE_URL +:+ Scenario.index_href in
  let first := get_filing_text edgar Scenario.fetcher url1 None Scenario.cache_ready in
  let second := get_filing_text edgar Scenario.fetcher Scenario.mirror_url None first.1 in
  url1 <> Scenario.mirror_url
  /\ cache_key url1 = cache_key Scenario.mirror_url
  /\ first.2 = inr "NVIDIA Corporation annual report"
  /\ second.2 = inr "NVIDIA Corporation annual report"
  /\ fs second.1 = fs first.1
  /\ exists line, trace second.1 = (trace first.1 ++ [Stdout line])%list.
Proof.
  intros edgar url1 first second.
  assert (cache_key url1 = cache_key Scenario.mirror_url) as Hkey by (vm_compute; reflexivity).
  assert (get_filing_text edgar Scenario.fetcher url1 None Scenario.cache_ready
          = (first.1, inr "NVIDIA Corporation annual report")) as Hrun
    by (vm_compute; reflexivity).
  split; [discriminate|]. split; [exact Hkey|]. split; [vm_compute; reflexivity|].
  destruct (get_filing_text_cache_key_collision edgar Scenario.fetcher url1
              Scenario.mirror_url None None Scenario.cache_ready first.1
              "NVIDIA Corporation annual report" Hkey Hrun)
    as (_ & c & line & _ & _ & Hsecond & Hsame).
  - left. discriminate.
  - assert (decoded c = inr "NVIDIA Corporation annual report") as Hdec
      by (apply (Hsame eq_refl); reflexivity).
    unfold second. rewrite Hsecond. cbn [fst snd fs trace].
    split; [exact Hdec|]. split; [reflexivity|]. by exists line.
Defined.

(** C10, as stated, fails: the second call returns what reading the
    cache entry gives, and a carriage return of the first text is read
    back as a line feed. *)
Lemma cache_key_collision_rewrites_line_ends :
  let edgar := Scenario.server_with Scenario.index_href Scenario.cr_doc_page in
  let url1 := BASE_URL +:+ Scenario.index_href in
  let first := get_filing_text edgar Scenario.fetcher url1 None Scenario.cache_ready in
  let second := get_filing_text edgar Scenario.fetcher Scenario.mirror_url None first.1 in
  url1 <> Scenario.mirror_url
  /\ cache_key url1 = cache_key Scenario.mirror_url
  /\ first.2 = inr ("Item 1" +:+ String PyStr.CR "Business")
  /\ fs first.1 !! cache_file Scenario.fetcher url1
     = Some (File ("Item 1" +:+ String PyStr.CR "Business"))
  /\ second.2 = inr ("Item 1" +:+ String PyStr.LF "Business")
  /\ second.2 <> first.2.
Proof.
  intros edgar url1 first second.
  split; [discriminate|]. split; [vm_compute; reflexivity|]. split; [vm_compute; reflexivity|].
  split; [vm_compute; reflexivity|]. split; [vm_compute; reflexivity|].
  vm_compute. discriminate.
Qed.

Lemma main_without_api_key_witness :
  PyStr.truthy None = false
  /\ main (Scenario.services Scenario.index_href) (Scenario.args false) None
       {| fs := {[ "output" := Dir ]}; trace := [] |}
     = ({| fs := {[ "output" := Dir ]};
           trace :=
             [ Mkdir "output";
               Stdout "❌ Error: LANGEXTRACT_API_KEY not set in environment";
               Stdout "   Set it with: export LANGEXTRACT_API_KEY='your-key-here'" ] |},
        inl (SystemExit 1)).
Proof.
  split; [reflexivity|].
  exact (main_without_api_key (Scenario.services Scenario.index_href) (Scenario.args false)
           None {| fs := {[ "output" := Dir ]}; trace := [] |} eq_refl).
Defined.

(** C1, as stated, fails: the output directory is created before the
    missing credential is reported. *)
Lemma main_creates_output_dir_before_exit :
  let run := main (Scenario.services Scenario.index_href) (Scenario.args false) None
               Scenario.fresh in
  run.2 = inl (SystemExit 1)
  /\ fs Scenario.fresh !! "output" = None
  /\ fs run.1 !! "output" = Some Dir
  /\ trace run.1 =
       [ Mkdir "output";
         Stdout "❌ Error: LANGEXTRACT_API_KEY not set in environment";
         Stdout "   Set it with: export LANGEXTRACT_API_KEY='your-key-here'" ]
  /\ fs run.1 <> fs Scenario.fresh.
Proof.
  intros run. split; [reflexivity|]. split; [reflexivity|]. split; [reflexivity|].
  split; [reflexivity|]. intros E. apply (f_equal (fun m => m !! "output")) in E.
  discriminate E.
Qed.



(** ** Worked examples *)

Example upper_ticker : PyStr.upper (fun s => s) "nvda" = "NVDA".
Proof. reflexivity. Qed.

(** Beyond ASCII the case mapping is that of [str.upper]: with the
    mapping of the long s to [S], the ticker is found. *)
Example upper_beyond_ascii :
  PyStr.is_ascii "tſla" = false
  /\ get_company_cik (fun s => if String.eqb s "tſla" then "TSLA" else s) "tſla"
     = Some "0001318605".
Proof. split; reflexivity. Qed.

Example len_counts_characters :
  PyStr.len "é—✓a" = 4 /\ String.length "é—✓a" = 9 /\ PyStr.slice_to 2 "é—✓a" = "é—".
Proof. repeat split; reflexivity. Qed.

Example strip_removes_no_break_space :
  let nbsp := String (ascii_of_nat 194) (String (ascii_of_nat 160) EmptyString) in
  PyStr.strip (nbsp +:+ " 10-K" +:+ nbsp +:+ String newline EmptyString) = "10-K".
Proof. reflexivity. Qed.

Example read_text_translates_line_ends :
  decoded ("a" +:+ String PyStr.CR (String PyStr.LF "b") +:+ String PyStr.CR "c")
  = inr ("a" +:+ String PyStr.LF "b" +:+ String PyStr.LF "c")
  /\ decoded (String (ascii_of_nat 255) EmptyString) = inl (Exception "UnicodeDecodeError").
Proof. split; reflexivity. Qed.

Example lstrip_zeros_cik : PyStr.lstrip_zeros "0001045810" = "1045810".
Proof. reflexivity. Qed.

Example format_thousands_grouping :
  PyStr.format_thousands (N.to_nat 1234567) = "1,234,567".
Proof. reflexivity. Qed.

Example year_filter_match :
  PyStr.contains "2024" "2024-02-21" = true /\ PyStr.contains "2023" "2024-02-21" = false.
Proof. split; reflexivity. Qed.

Example cache_key_of_index_page :
  cache_key (BASE_URL +:+ Scenario.index_href) = "0001045810-24-000029-index.htm"
  /\ cache_key Scenario.mirror_url = "0001045810-24-000029-index.htm".
Proof. split; reflexivity. Qed.

Example full_text_is_cleaned :
  _extract_full_text Scenario.doc_page = "NVIDIA Corporation annual report".
Proof. reflexivity. Qed.

Example most_common_keeps_first_seen_on_ties :
  most_common (Counter ["market"; "regulatory"; "regulatory"; "unknown"; "supply"; "supply"])
  = [("regulatory", 2); ("supply", 2); ("market", 1); ("unknown", 1)].
Proof. reflexivity. Qed.

Example segment_frame_has_two_row_shapes :
  pd.of_records
    (segment_data
       {| text := "Gaming. Data Center revenue of $47.5 billion.";
          extractions :=
            [ {| extraction_class := "business_segment";
                 extraction_text := "Gaming";
                 char_interval := Some {| start_pos := 0; end_pos := 6 |};
                 attributes := [("segment_type", "product_line")] |};
              {| extraction_class := "financial_metric";
                 extraction_text := "revenue of $47.5 billion";
                 char_interval := None;
                 attributes := [("metric_name", "revenue"); ("value", "47.5");
                                ("segment", "Data Center")] |} ] |})
  = {| pd.columns := ["segment_name"; "segment_type"; "metric_name"; "value"; "unit"];
       pd.data :=
         [ [pd.Str "Gaming"; pd.Str "product_line"; pd.NaN; pd.NaN; pd.NaN];
           [pd.Str "Data Center"; pd.Str "metric"; pd.Str "revenue"; pd.Str "47.5";
            pd.Str ""] ] |}.
Proof. reflexivity. Qed.

(** * Further properties of the fetcher *)

Section FetcherFacts.

Variable edgar : list event -> HttpRequest -> string + BeautifulSoup.
Variable unicode_upper : string -> string.

Lemma collect_filings_bound ftype rows acc filings :
  collect_filings ftype rows acc = inr filings ->
  List.length filings <= List.length acc + List.length rows
  /\ (Forall (fun f => sec_filing_fetcher.filing_type f = ftype) acc ->
      Forall (fun f => sec_filing_fetcher.filing_type f = ftype) filings).
Proof.
  revert acc. induction rows as [|cols rows IH]; intros acc; cbn [collect_filings].
  - intros [= <-]. split; [lia|done].
  - destruct (4 <=? List.length cols)%nat;
      [|intros H; destruct (IH _ H); split; [cbn [List.length]; lia|done]].
    destruct (cols !! 1%nat ≫= td_a) as [a|];
      [|intros H; destruct (IH _ H); split; [cbn [List.length]; lia|done]].
    destruct (get_href a) as [e|h]; [done|].
    intros H. destruct (IH _ H) as [Hlen Hty]. split.
    + rewrite length_app in Hlen. cbn [List.length] in *. lia.
    + intros Hacc. apply Hty. apply Forall_app. split; [done|]. by apply Forall_singleton.
Qed.

(** X1. The filing search never raises and never touches the file system:
    it prints one line, sends one request and prints one more line,
    and it returns at most [count] filings, all of the requested type. *)
Theorem search_filings_one_request (self : SECFilingFetcher) (cik ftype : string)
    (count : nat) (w : World) :
  exists filings line,
    search_filings edgar self cik ftype count w
    = ({| fs := fs w;
          trace := trace w ++
            [ Stdout ("Searching for " +:+ ftype +:+ " filings for CIK " +:+ cik +:+ "...");
              HttpGet {| req_url := BASE_URL +:+ "/cgi-bin/browse-edgar";
                         req_params :=
                           [ ("action", "getcompany"); ("CIK", PyStr.lstrip_zeros cik);
                             ("type", ftype); ("dateb", ""); ("owner", "exclude");
                             ("count", PyStr.str_of_nat count); ("search_text", "") ];
                         req_timeout := 10 |};
              Stdout line ] |},
       inr filings)
    /\ List.length filings <= count
    /\ Forall (fun f => sec_filing_fetcher.filing_type f = ftype) filings.
Proof.
  destruct w as [wfs wtr]. unfold search_filings. run.
  destruct (edgar _ _) as [msg|soup]; run.
  { exists [], ("Error searching filings: " +:+ msg). rewrite <- !app_assoc.
    split; [reflexivity|]. split; [cbn; lia|done]. }
  destruct (find_table "tableFile2" soup) as [table|]; run.
  2: { exists [], "No filings table found". rewrite <- !app_assoc.
       split; [reflexivity|]. split; [cbn; lia|done]. }
  destruct (collect_filings _ _ _) as [msg|filings] eqn:Hcollect; run.
  { exists [], ("Error searching filings: " +:+ msg). rewrite <- !app_assoc.
    split; [reflexivity|]. split; [cbn; lia|done]. }
  exists filings, ("Found " +:+ PyStr.str_of_nat (List.length filings) +:+ " filings").
  rewrite <- !app_assoc. split; [reflexivity|].
  apply collect_filings_bound in Hcollect as [Hlen Hty]. split; [|by apply Hty].
  rewrite length_take in Hlen. cbn [List.length] in Hlen. lia.
Qed.

Lemma collect_filings_missing_href ftype rows acc :
  (exists cols cell a,
     cols ∈ rows /\ 4 <= List.length cols /\ cols !! 1%nat = Some cell
     /\ td_a cell = Some a /\ href a = None) ->
  collect_filings ftype rows acc = inl "'href'".
Proof.
  revert acc. induction rows as [|cols rows IH]; intros acc (bad & cell & a & Hin & Hlen & Hcell & Ha & Hh).
  - by apply elem_of_nil in Hin.
  - cbn [collect_filings]. apply elem_of_cons in Hin as [<-|Hin].
    + destruct (Nat.leb_spec 4 (List.length bad)); [|lia].
      unfold Tr in *. rewrite Hcell. cbn [mbind option_bind]. rewrite Ha. unfold get_href. by rewrite Hh.
    + assert (forall acc', collect_filings ftype rows acc' = inl "'href'") as Hrest
        by (intros acc'; apply IH; by exists bad, cell, a).
      destruct (4 <=? List.length cols)%nat; [|apply Hrest].
      destruct (cols !! 1%nat ≫= td_a) as [a'|]; [|apply Hrest].
      unfold get_href. destruct (href a'); [apply Hrest|done].
Qed.

(** X2. One link without an [href] spoils the whole search: when any of the
    rows read has a link without the attribute in its second cell, the
    [KeyError] is caught and the search returns no filing at all, also
    not those of the rows before it. *)
Theorem search_filings_missing_href (self : SECFilingFetcher) (cik ftype : string)
    (count : nat) (w : World) (soup : BeautifulSoup) (table : Table)
    (cols : Tr) (cell : Td) (a : Anchor) :
  (forall hist req, edgar hist req = inr soup) ->
  find_table "tableFile2" soup = Some table ->
  cols ∈ take count (drop 1 (table_rows table)) ->
  4 <= List.length cols ->
  cols !! 1%nat = Some cell ->
  td_a cell = Some a ->
  href a = None ->
  exists w',
    search_filings edgar self cik ftype count w = (w', inr [])
    /\ List.last (trace w') Sleep = Stdout "Error searching filings: 'href'".
Proof.
  intros Hsoup Htable Hin Hlen Hcell Ha Hh. destruct w as [wfs wtr].
  unfold search_filings. run. rewrite Hsoup. run. rewrite Htable. run.
  rewrite (collect_filings_missing_href ftype _ []) by (by exists cols, cell, a). run.
  eexists. split; [reflexivity|]. cbn [trace]. by rewrite last_last.
Qed.

(** X3. A year filter that no filing date contains ends the call with the
    empty string right after the search: no filing page is requested
    and nothing is written. *)
Theorem get_filing_year_without_match (self : SECFilingFetcher)
    (ticker ftype year cik : string) (sections : option (list string))
    (w w1 : World) (filings : list Filing) :
  get_company_cik unicode_upper ticker = Some cik ->
  cik <> "" ->
  year <> "" ->
  search_filings edgar self cik ftype 10 w = (w1, inr filings) ->
  filings <> [] ->
  Forall (fun f => PyStr.contains year (filing_date f) = false) filings ->
  get_filing edgar unicode_upper self ticker ftype (Some year) sections w
  = ({| fs := fs w1;
        trace := trace w1 ++
          [ Stdout ("No " +:+ ftype +:+ " filings found for " +:+ ticker +:+ " in " +:+ year) ] |},
     inr "").
Proof.
  intros Hcik Hne Hyear Hsearch Hfilings Hdates. unfold get_filing. rewrite Hcik.
  destruct cik as [|c cik]; [done|]. rewrite bind_unfold, Hsearch.
  destruct filings as [|f0 filings0] eqn:E; [done|]. rewrite <- E in *.
  destruct year as [|y year]; [done|]. cbn [PyStr.truthy default].
  replace (filter _ filings) with (@nil Filing); [done|].
  symmetry. clear -Hdates. induction Hdates as [|f l Hf Hl IH]; [done|].
  rewrite filter_cons. destruct (decide _) as [Hc|_]; [|exact IH].
  change (PyStr.contains (String y year) (filing_date f) = true) in Hc. congruence.
Qed.

(** X4. An empty year string filters nothing: the call behaves as without
    a year. *)
Theorem get_filing_empty_year (self : SECFilingFetcher) (ticker ftype : string)
    (sections : option (list string)) (w : World) :
  get_filing edgar unicode_upper self ticker ftype (Some "") sections w
  = get_filing edgar unicode_upper self ticker ftype None sections w.
Proof.
  unfold get_filing. destruct (get_company_cik unicode_upper ticker) as [[|c cik]|]; [done| |done].
  rewrite !bind_unfold. destruct (search_filings _ _ _ _ _ w) as [w1 [e|filings]]; [done|].
  by destruct filings.
Qed.


(** X6. What the remote server sees of one call of [get_filing_text]:
    nothing when the cache has an entry for the URL; otherwise the
    request for the filing page and, when a document link is found, one
    pause followed by the request for the document. *)
Theorem get_filing_text_paces_requests (self : SECFilingFetcher) (url : string)
    (sections : option (list string)) (w : World) :
  exists evs : list event,
    trace (get_filing_text edgar self url sections w).1 = (trace w ++ evs)%list
    /\ let page := HttpGet {| req_url := url; req_params := []; req_timeout := 10 |} in
       match fs w !! cache_file self url with
       | Some _ => List.filter is_network evs = []
       | None =>
           List.filter is_network evs = [page]
           \/ exists doc_link,
                List.filter is_network evs
                = [ page; Sleep;
                    HttpGet {| req_url := doc_link; req_params := []; req_timeout := 30 |} ]
       end.
Proof.
  destruct w as [wfs wtr]. cbn [fs trace]. unfold get_filing_text. run.
  destruct (wfs !! cache_file self url) as [[|t]|] eqn:Hc.
  - rewrite bool_decide_eq_true_2 by (by eexists). run. rewrite Hc.
    eexists. split; [reflexivity|]. reflexivity.
  - rewrite bool_decide_eq_true_2 by (by eexists). run. rewrite Hc.
    destruct (PyStr.utf8_valid t); (eexists; split; [reflexivity|]; reflexivity).
  - rewrite bool_decide_eq_false_2 by (by intros [? ?]). run.
    destruct (edgar _ _) as [msg|soup]; run.
    { rewrite <- !app_assoc. eexists. split; [reflexivity|]. by left. }
    destruct (find_table "tableFile" soup) as [table|]; run.
    2: { rewrite <- !app_assoc. eexists. split; [reflexivity|]. by left. }
    destruct (find_main_document _) as [msg|[doc_link|]]; run.
    { rewrite <- !app_assoc. eexists. split; [reflexivity|]. by left. }
    2: { rewrite <- !app_assoc. eexists. split; [reflexivity|]. by left. }
    destruct (edgar _ _) as [msg|doc_soup]; run.
    { rewrite <- !app_assoc. eexists. split; [reflexivity|]. right. by exists doc_link. }
    rewrite Hc. destruct (parent_is_dir _ _); run.
    + rewrite <- !app_assoc. eexists. split; [reflexivity|]. right. by exists doc_link.
    + rewrite <- !app_assoc. eexists. split; [reflexivity|]. right. by exists doc_link.
Qed.

(** X7. Creating a fetcher can be repeated: once [__init__] has succeeded
    the cache directory is there, and a second [__init__] on the same
    path succeeds with the same fetcher and changes no file. *)
Theorem fetcher_init_repeatable (dir : string) (w w1 : World) (self : SECFilingFetcher) :
  __init__ dir w = (w1, inr self) ->
  cache_dir self = dir
  /\ fs w1 !! dir = Some Dir
  /\ __init__ dir w1 = ({| fs := fs w1; trace := trace w1 ++ [Mkdir dir] |}, inr self).
Proof.
  unfold __init__. rewrite !bind_unfold. unfold mkdir_exist_ok.
  destruct (fs w !! dir) as [[|c]|] eqn:Hdir; [|done|].
  - intros [= <- <-]. cbn [fs trace cache_dir]. by rewrite Hdir.
  - destruct (parent_is_dir w dir); [|done]. intros [= <- <-]. cbn [fs trace cache_dir].
    by rewrite lookup_insert_eq.
Qed.

(** X8. The example run of the fetcher module, started with its cache
    directory in place and holding text: it ends normally, and it saves
    a sample file only for a text that is not empty, which is then what
    the cache entry of a filing the server listed holds or decodes to;
    otherwise the sample path is left as it was and the last line
    reports the failure. *)
Theorem fetcher_main_saves_retrieved_text (w : World) :
  fs w !! "sec_filings_cache" = Some Dir ->
  cache_holds_text {| cache_dir := "sec_filings_cache" |} w ->
  fs w !! "nvidia_10k_sample.txt" <> Some Dir ->
  exists w',
    sec_filing_fetcher.main edgar unicode_upper w = (w', inr tt)
    /\ ((fs w' !! "nvidia_10k_sample.txt" = fs w !! "nvidia_10k_sample.txt"
         /\ List.last (trace w') Sleep
            = Stdout (String newline "✗ Failed to retrieve filing"))
        \/ exists f t c,
             t <> ""
             /\ filing_served edgar f
             /\ fs w' !! cache_file {| cache_dir := "sec_filings_cache" |} (filing_url f)
                = Some (File c)
             /\ (c = t \/ decoded c = inr t)
             /\ fs w' !! "nvidia_10k_sample.txt" = Some (File t)).
Proof.
  intros Hdir Hcache Hsample. destruct w as [wfs wtr]. cbn [fs] in *.
  unfold sec_filing_fetcher.main, __init__, mkdir_exist_ok. run. rewrite Hdir. run.
  set (self := {| cache_dir := "sec_filings_cache" |}).
  match goal with
  | |- context [get_filing edgar unicode_upper self "NVDA" "10-K" None None ?w0] =>
      set (w1 := w0)
  end.
  destruct (get_filing_returns edgar unicode_upper self "NVDA" "10-K" None None w1 Hcache)
    as (w2 & t & -> & Hfs).
  assert (forall url, "nvidia_10k_sample.txt" <> cache_file self url) as Hne
    by (intros url; discriminate).
  assert (fs w2 !! "nvidia_10k_sample.txt" = wfs !! "nvidia_10k_sample.txt") as Hkeep.
  { destruct Hfs as [[-> _]|(f & c & _ & _ & [[-> _]|[-> _]])]; [done|done|].
    cbn [fs w1]. by rewrite lookup_insert_ne. }
  destruct w2 as [fs2 tr2]. cbn [fs] in *. destruct t as [|c0 t]; run.
  - eexists. split; [reflexivity|]. left. split; [exact Hkeep|]. by rewrite last_last.
  - destruct Hfs as [[_ [=]]|(f & c & Hf & Hentry & Hfrom)]. rewrite Hkeep.
    assert (c = String c0 t \/ decoded c = inr (String c0 t)) as Hfrom'
      by (destruct Hfrom as [[_ ?]|[_ ?]]; [by right|by left]).
    destruct (wfs !! "nvidia_10k_sample.txt") as [[|old]|] eqn:Hold; [done| |].
    + eexists. split; [reflexivity|]. right. exists f, (String c0 t), c. cbn [fs].
      split; [done|]. split; [exact Hf|]. split; [|split; [done|by rewrite lookup_insert_eq]].
      rewrite lookup_insert_ne; [exact Hentry|]. intros E. by apply (Hne (filing_url f)).
    + eexists. split; [reflexivity|]. right. exists f, (String c0 t), c. cbn [fs].
      split; [done|]. split; [exact Hf|]. split; [|split; [done|by rewrite lookup_insert_eq]].
      rewrite lookup_insert_ne; [exact Hentry|]. intros E. by apply (Hne (filing_url f)).
Qed.

End FetcherFacts.

Lemma upper_char_idempotent c : PyStr.upper_char (PyStr.upper_char c) = PyStr.upper_char c.
Proof. by destruct c as [[] [] [] [] [] [] [] []]. Qed.

Lemma upper_char_ascii c :
  (nat_of_ascii (PyStr.upper_char c) <? 128)%nat = (nat_of_ascii c <? 128)%nat.
Proof. by destruct c as [[] [] [] [] [] [] [] []]. Qed.

Lemma upper_ascii_is_ascii s : PyStr.is_ascii (PyStr.upper_ascii s) = PyStr.is_ascii s.
Proof.
  induction s as [|c s IH]; [done|]. cbn [PyStr.upper_ascii PyStr.is_ascii].
  by rewrite upper_char_ascii, IH.
Qed.

Lemma upper_ascii_idempotent s :
  PyStr.upper_ascii (PyStr.upper_ascii s) = PyStr.upper_ascii s.
Proof.
  induction s as [|c s IH]; [done|]. cbn [PyStr.upper_ascii].
  by rewrite upper_char_idempotent, IH.
Qed.

(** X9. ASCII tickers are looked up without regard to case, and a CIK that
    is found is never empty, so that [if not cik] rejects unknown
    tickers only. *)
Theorem get_company_cik_case_insensitive (unicode_upper : string -> string)
    (ticker : string) :
  PyStr.is_ascii ticker = true ->
  get_company_cik unicode_upper (PyStr.upper unicode_upper ticker)
  = get_company_cik unicode_upper ticker
  /\ PyStr.upper unicode_upper ticker = PyStr.upper_ascii ticker
  /\ forall symbol, get_company_cik unicode_upper symbol <> Some "".
Proof.
  intros Hascii. unfold get_company_cik, PyStr.upper. rewrite Hascii.
  rewrite upper_ascii_is_ascii, Hascii, upper_ascii_idempotent.
  split; [done|]. split; [done|].
  intros symbol H. unfold ticker_to_cik in H.
  apply elem_of_list_to_map_2 in H.
  repeat (apply elem_of_cons in H as [H|H]; [discriminate H|]). by apply elem_of_nil in H.
Qed.

(** * The clean-up of the document text *)

Section Runs.

Variable p : ascii -> bool.

Lemma run_prefix_cons c s :
  run_prefix p (String c s) = if p c then S (run_prefix p s) else 0.
Proof. reflexivity. Qed.

Lemma longest_run_cons c s :
  longest_run p (String c s) = Nat.max (run_prefix p (String c s)) (longest_run p s).
Proof. reflexivity. Qed.

Lemma run_prefix_le_longest s : run_prefix p s <= longest_run p s.
Proof. destruct s as [|c s]; [done|]. cbn [longest_run]. lia. Qed.

Lemma run_prefix_all s : all_chars p s = true -> run_prefix p s = String.length s.
Proof.
  induction s as [|c s IH]; [done|]. cbn [all_chars run_prefix String.length].
  intros [-> H]%andb_prop. by rewrite IH.
Qed.

Lemma longest_run_le_length s : longest_run p s <= String.length s.
Proof.
  induction s as [|c s IH]; [done|]. cbn [longest_run String.length].
  assert (run_prefix p (String c s) <= S (String.length s)); [|lia].
  clear IH. revert c. induction s as [|d s IH]; intros c; cbn [run_prefix String.length].
  - destruct (p c); lia.
  - destruct (p c); [|lia]. specialize (IH d). cbn [run_prefix] in IH. lia.
Qed.

Lemma all_chars_app a b : all_chars p (a +:+ b) = all_chars p a && all_chars p b.
Proof.
  induction a as [|c a IH]; [done|].
  change (String c a +:+ b) with (String c (a +:+ b)). cbn [all_chars].
  by rewrite IH, andb_assoc.
Qed.

(** A run of [p] followed by a character outside [p]. *)
Lemma run_prefix_all_app a c s :
  all_chars p a = true -> p c = false -> run_prefix p (a +:+ String c s) = String.length a.
Proof.
  intros Ha Hc. induction a as [|d a IH].
  - change ("" +:+ String c s) with (String c s). cbn [run_prefix]. by rewrite Hc.
  - change (String d a +:+ String c s) with (String d (a +:+ String c s)).
    cbn [all_chars] in Ha. apply andb_prop in Ha as [Hd Ha].
    cbn [run_prefix String.length]. by rewrite Hd, IH.
Qed.

Lemma longest_run_all_app a c s :
  all_chars p a = true -> p c = false ->
  longest_run p (a +:+ String c s) = Nat.max (String.length a) (longest_run p s).
Proof.
  intros Ha Hc. induction a as [|d a IH].
  - change ("" +:+ String c s) with (String c s). cbn [longest_run run_prefix String.length].
    by rewrite Hc.
  - pose proof (run_prefix_all_app (String d a) c s Ha Hc) as Hrun.
    change (String d a +:+ String c s) with (String d (a +:+ String c s)) in *.
    cbn [all_chars] in Ha. apply andb_prop in Ha as [Hd Ha].
    cbn [longest_run]. rewrite Hrun, (IH Ha). cbn [String.length]. lia.
Qed.

(** After the substitution no run of [p] is as long as [min], provided
    the replacement is a shorter run of [p]. *)
Lemma collapse_runs_bound min repl run s :
  all_chars p repl = true -> String.length repl < min ->
  all_chars p run = true ->
  longest_run p (collapse_runs p min repl run s) < min.
Proof.
  intros Hrepl Hlen. revert run. induction s as [|c s IH]; intros run Hrun.
  - cbn [collapse_runs]. destruct (Nat.leb_spec min (String.length run)).
    + pose proof (longest_run_le_length repl). lia.
    + pose proof (longest_run_le_length run). lia.
  - cbn [collapse_runs]. destruct (p c) eqn:Hc.
    + apply IH. rewrite all_chars_app, Hrun. cbn [all_chars]. by rewrite Hc.
    + specialize (IH "" eq_refl).
      destruct (Nat.leb_spec min (String.length run)).
      * rewrite longest_run_all_app by done. lia.
      * rewrite longest_run_all_app by done. lia.
Qed.

(** A text without a run of length [min] is left as it is. *)
Lemma collapse_runs_id min repl run s :
  all_chars p run = true ->
  String.length run + run_prefix p s < min ->
  longest_run p s < min ->
  collapse_runs p min repl run s = run +:+ s.
Proof.
  revert run. induction s as [|c s IH]; intros run Hrun Hpre Hlong.
  - cbn [collapse_runs run_prefix] in *.
    destruct (Nat.leb_spec min (String.length run)); [lia|].
    by rewrite string_app_nil_r.
  - cbn [collapse_runs]. cbn [run_prefix longest_run] in Hpre, Hlong.
    destruct (p c) eqn:Hc.
    + rewrite IH.
      * by rewrite string_app_assoc.
      * rewrite all_chars_app, Hrun. cbn [all_chars]. by rewrite Hc.
      * rewrite string_length_app. cbn [String.length]. lia.
      * lia.
    + destruct (Nat.leb_spec min (String.length run)); [lia|].
      rewrite (IH ""); [done|done| |lia].
      pose proof (run_prefix_le_longest s). cbn [String.length]. lia.
Qed.

Lemma longest_run_tail c s : longest_run p s <= longest_run p (String c s).
Proof. cbn [longest_run]. lia. Qed.

Lemma longest_run_suffix a s : longest_run p s <= longest_run p (a +:+ s).
Proof.
  induction a as [|c a IH]; [done|]. change (String c a +:+ s) with (String c (a +:+ s)).
  etrans; [exact IH|apply longest_run_tail].
Qed.

End Runs.

Section Untouched.

(** Runs of [q] when runs of [p] are substituted or stripped: the two
    sets of characters are disjoint. *)
Variables p q : ascii -> bool.

Hypothesis disjoint : forall c, p c = true -> q c = false.

Lemma all_chars_no_run a s :
  all_chars p a = true -> a <> "" -> run_prefix q (a +:+ s) = 0.
Proof.
  destruct a as [|c a]; [done|]. intros H _. cbn [all_chars] in H.
  apply andb_prop in H as [Hc _]. change (String c a +:+ s) with (String c (a +:+ s)).
  cbn [run_prefix]. by rewrite (disjoint c Hc).
Qed.

Lemma all_chars_longest_run a s :
  all_chars p a = true -> longest_run q (a +:+ s) = longest_run q s.
Proof.
  induction a as [|c a IH]; [done|]. intros H.
  pose proof (all_chars_no_run (String c a) s H) as Hrun.
  cbn [all_chars] in H. apply andb_prop in H as [Hc Ha].
  change (String c a +:+ s) with (String c (a +:+ s)) in *.
  cbn [longest_run]. rewrite Hrun by done. rewrite (IH Ha). lia.
Qed.

Lemma collapse_runs_other min repl run s :
  0 < min -> repl <> "" -> all_chars p repl = true -> all_chars p run = true ->
  run_prefix q (collapse_runs p min repl run s)
    <= match run with EmptyString => run_prefix q s | _ => 0 end
  /\ longest_run q (collapse_runs p min repl run s) <= longest_run q s.
Proof.
  intros Hmin Hne Hrepl. revert run. induction s as [|c s IH]; intros run Hrun.
  - cbn [collapse_runs]. destruct (Nat.leb_spec min (String.length run)).
    + rewrite <- (string_app_nil_r repl) at 1 2.
      rewrite all_chars_no_run, all_chars_longest_run by done.
      split; [lia|done].
    + rewrite <- (string_app_nil_r run) at 1 3.
      rewrite all_chars_longest_run by done.
      destruct run as [|d run]; [done|]. by rewrite all_chars_no_run.
  - cbn [collapse_runs]. destruct (p c) eqn:Hc.
    + destruct (IH (run +:+ String c "")) as [Hpre Hlong].
      { rewrite all_chars_app, Hrun. cbn [all_chars]. by rewrite Hc. }
      cbn [longest_run]. split; [|etrans; [exact Hlong|apply Nat.le_max_r]].
      destruct run as [|d run]; [|exact Hpre].
      etrans; [exact Hpre|]. cbn [append]. lia.
    + destruct (IH "" eq_refl) as [Hpre Hlong].
      set (flush := if (min <=? String.length run)%nat then repl else run).
      assert (all_chars p flush = true) as Hflush
        by (subst flush; by destruct (min <=? String.length run)%nat).
      assert (run <> "" -> flush <> "") as Hflush'.
      { subst flush. by destruct (min <=? String.length run)%nat. }
      rewrite all_chars_longest_run by done.
      cbn [longest_run run_prefix]. split.
      * destruct run as [|d run]; [|by rewrite all_chars_no_run by auto].
        assert (flush = "") as ->.
        { subst flush. destruct (Nat.leb_spec min (String.length "")); [|done].
          cbn [String.length] in *. lia. }
        change ("" +:+ String c (collapse_runs p min repl "" s))
          with (String c (collapse_runs p min repl "" s)).
        cbn [run_prefix]. destruct (q c); lia.
      * destruct (q c); lia.
Qed.

End Untouched.

(** ** Stripping *)

Lemma lstrip_cases s :
  (starts_with_whitespace s = false /\ PyStr.lstrip s = s)
  \/ exists a s', s = a +:+ s' /\ String.length s' < String.length s
                  /\ PyStr.lstrip s = PyStr.lstrip s'.
Proof.
  destruct s as [|c1 s1]; [by left|]. cbn [PyStr.lstrip starts_with_whitespace].
  destruct (PyStr.is_space c1).
  { right. exists (String c1 ""), s1. cbn. split; [done|]. split; [lia|done]. }
  destruct s1 as [|c2 s2]; [by left|]. destruct (PyStr.is_space2 c1 c2).
  { right. exists (String c1 (String c2 "")), s2. cbn. split; [done|]. split; [lia|done]. }
  destruct s2 as [|c3 s3]; [by left|]. destruct (PyStr.is_space3 c1 c2 c3); [|by left].
  right. exists (String c1 (String c2 (String c3 ""))), s3. cbn. split; [done|]. split; [lia|done].
Qed.

(** What [lstrip] leaves is the end of the string, and it does not
    start with a whitespace character. *)
Lemma lstrip_spec s :
  exists a, s = a +:+ PyStr.lstrip s /\ starts_with_whitespace (PyStr.lstrip s) = false.
Proof.
  remember (String.length s) as n eqn:Hn. revert s Hn.
  induction n as [n IH] using lt_wf_ind. intros s ->.
  destruct (lstrip_cases s) as [[Hws Hid]|(a & s' & -> & Hlen & Hrec)].
  - exists "". by rewrite Hid.
  - destruct (IH _ Hlen s' eq_refl) as (a' & Hs' & Hws). rewrite Hrec.
    exists (a +:+ a'). split; [|done]. rewrite string_app_assoc. by rewrite <- Hs'.
Qed.

Lemma lstrip_id s : starts_with_whitespace s = false -> PyStr.lstrip s = s.
Proof.
  destruct s as [|c1 s1]; [done|]. cbn [PyStr.lstrip starts_with_whitespace].
  destruct (PyStr.is_space c1); [done|]. cbn [orb].
  destruct s1 as [|c2 s2]; [done|]. destruct (PyStr.is_space2 c1 c2); [done|]. cbn [orb].
  destruct s2 as [|c3 s3]; [done|]. by intros ->.
Qed.

Lemma starts_with_whitespace_prefix v b :
  starts_with_whitespace (v +:+ b) = false -> starts_with_whitespace v = false.
Proof.
  destruct v as [|c1 [|c2 [|c3 v]]]; [done| | |]; cbn [append starts_with_whitespace].
  - intros [-> _]%orb_false_elim. done.
  - intros [-> [-> _]%orb_false_elim]%orb_false_elim. done.
  - intros [-> [-> ->]%orb_false_elim]%orb_false_elim. done.
Qed.

Lemma starts_with_whitespace_first s c :
  starts_with_whitespace s = false -> first_char s = Some c -> PyStr.is_space c = false.
Proof.
  destruct s as [|c1 s1]; [done|]. cbn [starts_with_whitespace first_char].
  intros [H _]%orb_false_elim [= <-]. exact H.
Qed.

Lemma rstrip_cons c s :
  PyStr.rstrip (String c s) = ""
  \/ (PyStr.rstrip (String c s) = String c (PyStr.rstrip s)
      /\ PyStr.is_whitespace (String c (PyStr.rstrip s)) = false).
Proof.
  cbn [PyStr.rstrip]. cbv zeta.
  destruct (PyStr.is_whitespace (String c (PyStr.rstrip s))); [by left|by right].
Qed.

(** What [rstrip] leaves is the start of the string. *)
Lemma rstrip_prefix s : exists b, s = PyStr.rstrip s +:+ b.
Proof.
  induction s as [|c s [b IH]]; [by exists ""|].
  destruct (rstrip_cons c s) as [->|[-> _]].
  - by exists (String c s).
  - exists b. change (String c s = String c (PyStr.rstrip s +:+ b)). by rewrite <- IH.
Qed.

Lemma rstrip_last s c : last_char (PyStr.rstrip s) = Some c -> PyStr.is_space c = false.
Proof.
  revert c. induction s as [|d s IH]; intros c; [done|].
  destruct (rstrip_cons d s) as [->|[-> Hws]]; [done|].
  cbn [last_char]. destruct (PyStr.rstrip s) as [|e r] eqn:E.
  - cbn [last_char]. intros [= <-]. exact Hws.
  - destruct (last_char (String e r)) as [c'|] eqn:Hlast;
      [|cbn [last_char] in Hlast; by destruct (last_char r)].
    intros [= <-]. by apply IH.
Qed.

Lemma rstrip_idempotent s : PyStr.rstrip (PyStr.rstrip s) = PyStr.rstrip s.
Proof.
  induction s as [|c s IH]; [done|].
  destruct (rstrip_cons c s) as [->|[-> Hws]]; [done|].
  cbn [PyStr.rstrip]. cbv zeta. by rewrite IH, Hws.
Qed.

Section Suffix.

Variable q : ascii -> bool.

Lemma lstrip_longest_run s : longest_run q (PyStr.lstrip s) <= longest_run q s.
Proof.
  destruct (lstrip_spec s) as (a & Hs & _). rewrite Hs at 2. apply longest_run_suffix.
Qed.

Lemma rstrip_runs s :
  run_prefix q (PyStr.rstrip s) <= run_prefix q s
  /\ longest_run q (PyStr.rstrip s) <= longest_run q s.
Proof.
  induction s as [|c s [IHpre IHlong]]; [done|].
  destruct (rstrip_cons c s) as [->|[-> _]].
  - cbn [run_prefix longest_run]. lia.
  - rewrite !(longest_run_cons q c), !(run_prefix_cons q c). destruct (q c); lia.
Qed.

End Suffix.

(** Stripping twice is stripping once. *)
Lemma strip_idempotent s : PyStr.strip (PyStr.strip s) = PyStr.strip s.
Proof.
  unfold PyStr.strip. destruct (lstrip_spec s) as (a & _ & Hws).
  destruct (rstrip_prefix (PyStr.lstrip s)) as [b Hb].
  rewrite lstrip_id; [apply rstrip_idempotent|].
  apply (starts_with_whitespace_prefix _ b). by rewrite <- Hb.
Qed.

Lemma full_text_fixed (soup : BeautifulSoup) :
  longest_run is_blank (get_text soup) <= 1 ->
  longest_run is_newline (get_text soup) <= 2 ->
  PyStr.strip (get_text soup) = get_text soup ->
  _extract_full_text soup = get_text soup.
Proof.
  intros Hb Hn Hstrip. unfold _extract_full_text.
  pose proof (run_prefix_le_longest is_blank (get_text soup)).
  pose proof (run_prefix_le_longest is_newline (get_text soup)).
  rewrite (collapse_runs_id is_newline) by (try done; cbn [String.length]; lia).
  change ("" +:+ get_text soup) with (get_text soup).
  rewrite (collapse_runs_id is_blank) by (try done; cbn [String.length]; lia).
  exact Hstrip.
Qed.

(** X10. In the cleaned text of a document no two spaces or tabs are
    adjacent, no three line feeds are adjacent, and neither end is a
    whitespace character. Cleaning is idempotent: a document whose text
    is such a cleaned text is returned as it is, whatever its tables. *)
Theorem extract_full_text_clean (soup : BeautifulSoup) (ts : list Table) :
  let text := _extract_full_text soup in
  longest_run is_blank text <= 1
  /\ longest_run is_newline text <= 2
  /\ from_option PyStr.is_space false (first_char text) = false
  /\ from_option PyStr.is_space false (last_char text) = false
  /\ _extract_full_text {| tables := ts; get_text := text |} = text.
Proof.
  intros text.
  assert (longest_run is_blank text <= 1
          /\ longest_run is_newline text <= 2
          /\ from_option PyStr.is_space false (first_char text) = false
          /\ from_option PyStr.is_space false (last_char text) = false
          /\ PyStr.strip text = text) as Hclean.
  { subst text. unfold _extract_full_text.
    set (t1 := collapse_runs _ 3 _ _ _). set (t2 := collapse_runs _ 2 _ _ t1).
    assert (longest_run is_newline t1 < 3) as H1
      by (apply (collapse_runs_bound is_newline); [done|cbn; lia|done]).
    assert (longest_run is_blank t2 < 2) as H2
      by (apply (collapse_runs_bound is_blank); [done|cbn; lia|done]).
    assert (longest_run is_newline t2 <= longest_run is_newline t1) as H3.
    { apply (collapse_runs_other is_blank is_newline); [|lia|done|done|done].
      intros c. unfold is_blank, is_newline.
      intros [->%Ascii.eqb_eq| ->%Ascii.eqb_eq]%orb_prop; reflexivity. }
    split; [|split; [|split; [|split]]]; [| | | |apply strip_idempotent]; unfold PyStr.strip.
    - pose proof (rstrip_runs is_blank (PyStr.lstrip t2)) as [_ Hb].
      pose proof (lstrip_longest_run is_blank t2). lia.
    - pose proof (rstrip_runs is_newline (PyStr.lstrip t2)) as [_ Hn].
      pose proof (lstrip_longest_run is_newline t2). lia.
    - destruct (first_char _) as [c|] eqn:Hc; [|done]. cbn [from_option].
      destruct (lstrip_spec t2) as (a & _ & Hws).
      destruct (rstrip_prefix (PyStr.lstrip t2)) as [b Hb].
      apply (starts_with_whitespace_first (PyStr.rstrip (PyStr.lstrip t2))); [|done].
      apply (starts_with_whitespace_prefix _ b). by rewrite <- Hb.
    - destruct (last_char _) as [c|] eqn:Hc; [|done]. by apply rstrip_last in Hc. }
  destruct Hclean as (Hb & Hn & Hfirst & Hlast & Hstrip). repeat (split; [done|]).
  by apply (full_text_fixed {| tables := ts; get_text := text |}).
Qed.

(** * Further properties of the exporters *)

(** ** The full table *)

Lemma attr_label_base (label k : string) :
  label ∈ ["extraction_class"; "extraction_text"; "start_pos"; "end_pos"] ->
  "attr_" +:+ k <> label.
Proof.
  intros Hin E. subst label.
  repeat (apply elem_of_cons in Hin as [Hin|Hin]; [discriminate Hin|]).
  by apply elem_of_nil in Hin.
Qed.

Lemma attr_fold_other label (attrs : dict string) (row : dict pd.value) :
  (forall k, "attr_" +:+ k <> label) ->
  get label (fold_left (fun row '(key, value) => set ("attr_" +:+ key) (pd.Str value) row)
               attrs row)
  = get label row.
Proof.
  intros Hne. revert row. induction attrs as [|[k v] attrs IH]; intros row; [done|].
  cbn [fold_left]. rewrite IH, get_set.
  destruct (String.eqb_spec ("attr_" +:+ k) label) as [E|_]; [by apply Hne in E|done].
Qed.

Lemma attr_fold_attr k (attrs : dict string) (row : dict pd.value) :
  NoDup (keys attrs) ->
  get ("attr_" +:+ k)
    (fold_left (fun row '(key, value) => set ("attr_" +:+ key) (pd.Str value) row) attrs row)
  = match get k attrs with
    | Some v => Some (pd.Str v)
    | None => get ("attr_" +:+ k) row
    end.
Proof.
  revert row. induction attrs as [|[k0 v0] attrs IH]; intros row Hnd; [done|].
  apply NoDup_cons in Hnd as [Hk0 Hnd]. cbn [fold_left get].
  rewrite IH by done. rewrite get_set.
  destruct (String.eqb_spec k0 k) as [->|Hne].
  - rewrite String.eqb_refl. destruct (get k attrs) as [v|] eqn:E; [|done].
    exfalso. apply Hk0. apply get_keys. by eexists.
  - destruct (String.eqb_spec ("attr_" +:+ k0) ("attr_" +:+ k)) as [E|_]; [|done].
    by apply append_inj_l in E.
Qed.

Lemma attr_fold_mono label (attrs : dict string) (row : dict pd.value) :
  is_Some (get label row) ->
  is_Some (get label
             (fold_left (fun row '(key, value) => set ("attr_" +:+ key) (pd.Str value) row)
                attrs row)).
Proof.
  revert row. induction attrs as [|[k v] attrs IH]; intros row Hrow; [done|].
  cbn [fold_left]. apply IH. rewrite get_set. by destruct (String.eqb _ _).
Qed.

Lemma attr_fold_key k (attrs : dict string) (row : dict pd.value) :
  k ∈ keys attrs ->
  is_Some (get ("attr_" +:+ k)
             (fold_left (fun row '(key, value) => set ("attr_" +:+ key) (pd.Str value) row)
                attrs row)).
Proof.
  revert row. induction attrs as [|[k0 v0] attrs IH]; intros row Hin;
    [by apply elem_of_nil in Hin|].
  cbn [fold_left]. apply elem_of_cons in Hin as [->|Hin]; [|by apply IH].
  apply attr_fold_mono. rewrite get_set. cbn [fst]. by rewrite String.eqb_refl.
Qed.

Lemma attr_fold_str k (attrs : dict string) (row : dict pd.value) :
  k ∈ keys attrs \/ (exists v, get ("attr_" +:+ k) row = Some (pd.Str v)) ->
  exists v,
    get ("attr_" +:+ k)
      (fold_left (fun row '(key, value) => set ("attr_" +:+ key) (pd.Str value) row) attrs row)
    = Some (pd.Str v).
Proof.
  revert row. induction attrs as [|[k0 v0] attrs IH]; intros row Hk.
  - destruct Hk as [Hk|Hk]; [by apply elem_of_nil in Hk|exact Hk].
  - cbn [fold_left]. apply IH. rewrite get_set.
    destruct Hk as [[->|Hk]%elem_of_cons|[v Hv]].
    + right. cbn [fst]. rewrite String.eqb_refl. by eexists.
    + by left.
    + right. destruct (String.eqb _ _); [by eexists|by exists v].
Qed.

Lemma export_to_dataframe_records result :
  export_to_dataframe result = pd.of_records (map dataframe_row (extractions result)).
Proof. unfold export_to_dataframe. by rewrite fold_append. Qed.

Lemma position_column (pos : CharInterval -> nat) (label : string)
    (l : list Extraction) :
  (forall e, pd.raw_cell label (dataframe_row e)
             = match char_interval e with
               | Some ci => pd.Int (pos ci)
               | None => pd.PyNone
               end) ->
  pd.stored_as_float (map (pd.raw_cell label) (map dataframe_row l))
  = existsb located l && negb (forallb located l).
Proof.
  intros Hcell. unfold pd.stored_as_float. rewrite map_map.
  assert (forallb (fun v => pd.is_int v || pd.is_missing v)
            (map (fun e => pd.raw_cell label (dataframe_row e)) l) = true) as ->.
  { apply forallb_forall. intros v (e & <- & _)%in_map_iff. rewrite Hcell.
    by destruct (char_interval e). }
  cbn [andb]. f_equal.
  - induction l as [|e l IH]; [done|]. cbn [map existsb]. rewrite IH, Hcell.
    unfold located. by destruct (char_interval e).
  - induction l as [|e l IH]; [done|]. cbn [map existsb forallb]. rewrite IH, Hcell.
    unfold located. destruct (char_interval e); cbn; [done|]. by destruct (forallb _ l).
Qed.

Lemma located_forall (l : list Extraction) (e : Extraction) :
  e ∈ l -> located e = false -> forallb located l = false.
Proof.
  intros Hin He. apply not_true_is_false. intros Hall. rewrite forallb_forall in Hall.
  rewrite Hall in He; [done|]. by apply list_elem_of_In.
Qed.

Lemma located_exists (l : list Extraction) (e : Extraction) :
  e ∈ l -> located e = true -> existsb located l = true.
Proof. intros Hin He. apply existsb_exists. exists e. split; [by apply list_elem_of_In|done]. Qed.

(** X11. The full table holds one row per extraction, in order. The row of
    an extraction gives its class and its text under their labels,
    each of its attributes under [attr_<key>], and [NaN] under the
    label of an attribute that only other extractions have. Its two
    positions are integers when every extraction has an interval and
    [None] when none has; when some have one and some have not, the
    two columns hold floats, and [NaN] for a missing position. *)
Theorem full_table_cells (result : AnnotatedDocument) (i : nat) (e : Extraction) :
  extractions result !! i = Some e ->
  NoDup (keys (attributes e)) ->
  let df := export_to_dataframe result in
  let position (pos : CharInterval -> nat) :=
    match char_interval e with
    | Some ci =>
        if forallb located (extractions result) then pd.Int (pos ci) else pd.Float (pos ci)
    | None =>
        if existsb located (extractions result) then pd.NaN else pd.PyNone
    end in
  List.length (pd.data df) = List.length (extractions result)
  /\ pd.loc df i "extraction_class" = Some (pd.Str (extraction_class e))
  /\ pd.loc df i "extraction_text" = Some (pd.Str (extraction_text e))
  /\ pd.loc df i "start_pos" = Some (position start_pos)
  /\ pd.loc df i "end_pos" = Some (position end_pos)
  /\ (forall k v, get k (attributes e) = Some v ->
        pd.loc df i ("attr_" +:+ k) = Some (pd.Str v))
  /\ (forall k e', e' ∈ extractions result -> k ∈ keys (attributes e') ->
        get k (attributes e) = None ->
        pd.loc df i ("attr_" +:+ k) = Some pd.NaN).
Proof.
  intros He Hnd df position. subst df. rewrite export_to_dataframe_records.
  set (records := map dataframe_row (extractions result)).
  assert (e ∈ extractions result) as Hin by (by eapply list_elem_of_lookup_2).
  assert (records !! i = Some (dataframe_row e)) as Hrow
    by (subst records; by rewrite lookup_map, He).
  assert (forall label, is_Some (get label (dataframe_row e)) ->
            label ∈ pd.columns (pd.of_records records)) as Hcol.
  { intros label Hl. apply columns_of_records_elem. exists (dataframe_row e).
    split; [by eapply list_elem_of_lookup_2|by apply get_keys]. }
  assert (forall label e0,
            label ∈ ["extraction_class"; "extraction_text"; "start_pos"; "end_pos"] ->
            get label (dataframe_row e0)
            = get label
                [ ("extraction_class", pd.Str (extraction_class e0));
                  ("extraction_text", pd.Str (extraction_text e0));
                  ("start_pos", match char_interval e0 with
                                | Some ci => pd.Int (start_pos ci)
                                | None => pd.PyNone
                                end);
                  ("end_pos", match char_interval e0 with
                              | Some ci => pd.Int (end_pos ci)
                              | None => pd.PyNone
                              end) ]) as Hbase.
  { intros label e0 Hlabel. unfold dataframe_row.
    by rewrite attr_fold_other by (intros k; by apply attr_label_base). }
  assert (forall (pos : CharInterval -> nat) label,
            label ∈ ["extraction_class"; "extraction_text"; "start_pos"; "end_pos"] ->
            (forall e0, get label (dataframe_row e0)
                        = Some (match char_interval e0 with
                                | Some ci => pd.Int (pos ci)
                                | None => pd.PyNone
                                end)) ->
            pd.loc (pd.of_records records) i label = Some (position pos)) as Hpos.
  { intros pos label Hlabel Hget. rewrite (loc_of_records _ _ _ _ Hrow).
    rewrite bool_decide_eq_true_2 by (apply Hcol; rewrite Hget; by eexists).
    assert (forall e0, pd.raw_cell label (dataframe_row e0)
                       = match char_interval e0 with
                         | Some ci => pd.Int (pos ci)
                         | None => pd.PyNone
                         end) as Hcell
      by (intros e0; unfold pd.raw_cell; by rewrite Hget).
    subst records. rewrite (position_column pos) by done. rewrite Hcell.
    subst position. cbv beta.
    destruct (char_interval e) as [ci|] eqn:Hci.
    - rewrite (located_exists _ e) by (try done; unfold located; by rewrite Hci).
      cbn [andb]. by destruct (forallb located (extractions result)).
    - rewrite (located_forall _ e) by (try done; unfold located; by rewrite Hci).
      rewrite andb_true_r. by destruct (existsb located (extractions result)). }
  split; [subst records; by rewrite of_records_data_length, length_map|].
  split; [apply (loc_of_string _ _ _ _ _ Hrow); rewrite Hbase; [done|set_solver]|].
  split; [apply (loc_of_string _ _ _ _ _ Hrow); rewrite Hbase; [done|set_solver]|].
  split; [apply Hpos; [set_solver|]; intros e0; rewrite Hbase; [done|set_solver]|].
  split; [apply Hpos; [set_solver|]; intros e0; rewrite Hbase; [done|set_solver]|].
  split.
  - intros k v Hk. apply (loc_of_string _ _ _ _ _ Hrow).
    unfold dataframe_row. by rewrite attr_fold_attr, Hk.
  - intros k e' He' Hk' Hk. rewrite (loc_of_records _ _ _ _ Hrow).
    assert (exists v, get ("attr_" +:+ k) (dataframe_row e') = Some (pd.Str v)) as [v Hv]
      by (unfold dataframe_row; apply attr_fold_str; by left).
    rewrite bool_decide_eq_true_2.
    + rewrite string_column_kept.
      * unfold pd.raw_cell, dataframe_row. by rewrite attr_fold_attr, Hk.
      * exists (dataframe_row e'), v. split; [|done].
        subst records. apply list_elem_of_In, in_map. by apply list_elem_of_In.
    + apply columns_of_records_elem. exists (dataframe_row e'). split.
      * subst records. apply list_elem_of_In, in_map. by apply list_elem_of_In.
      * apply get_keys. by eexists.
Qed.

(** ** The segment table *)

(** X12. The two row shapes of the segment table share one frame. The row
    of a ["business_segment"] extraction gives its text and its
    [segment_type] (empty without the attribute); under [metric_name],
    [value] and [unit] it holds [NaN] as soon as one metric carries a
    segment, and without such a metric the frame has no such column. *)
Theorem segment_table_cells (result : AnnotatedDocument) (i : nat) (e : Extraction) :
  filter (fun e => extraction_class e = "business_segment") (extractions result) !! i
  = Some e ->
  let df := pd.of_records (segment_data result) in
  pd.loc df i "segment_name" = Some (pd.Str (extraction_text e))
  /\ pd.loc df i "segment_type"
     = Some (pd.Str (default "" (get "segment_type" (attributes e))))
  /\ Forall (fun label =>
               pd.loc df i label
               = match filter carries_segment (extractions result) with
                 | [] => None
                 | _ :: _ => Some pd.NaN
                 end)
       [ "metric_name"; "value"; "unit" ].
Proof.
  intros He df. subst df.
  set (segments := filter (fun e => extraction_class e = "business_segment")
                     (extractions result)) in *.
  set (metrics := filter carries_segment (extractions result)).
  assert (segment_data result
          = (map segment_row segments ++ map segment_metric_row metrics)%list) as ->.
  { unfold segment_data. rewrite !fold_append. cbn [app]. f_equal. f_equal.
    apply list_filter_iff. intros e'. apply has_segment_carries. }
  set (records := (map segment_row segments ++ map segment_metric_row metrics)%list).
  assert (records !! i = Some (segment_row e)) as Hrow.
  { subst records. rewrite lookup_app_l.
    - by rewrite lookup_map, He.
    - rewrite length_map. by eapply lookup_lt_Some. }
  assert (forall label, label ∈ keys (segment_row e) ->
            label ∈ pd.columns (pd.of_records records)) as Hcol.
  { intros label Hl. apply columns_of_records_elem. exists (segment_row e).
    split; [by eapply list_elem_of_lookup_2|done]. }
  split; [|split].
  - by apply (loc_of_string _ _ _ _ _ Hrow).
  - apply (loc_of_string _ _ _ _ _ Hrow).
    unfold segment_row, get_default. cbn [get String.eqb Ascii.eqb Bool.eqb].
    by destruct (get "segment_type" (attributes e)).
  - apply Forall_forall. intros label Hlabel. rewrite (loc_of_records _ _ _ _ Hrow).
    assert (pd.raw_cell label (segment_row e) = pd.NaN) as ->.
    { repeat (apply elem_of_cons in Hlabel as [->|Hlabel]; [reflexivity|]).
      by apply elem_of_nil in Hlabel. }
    destruct metrics as [|m metrics'] eqn:Hm.
    + rewrite bool_decide_eq_false_2; [done|].
      intros (r & Hr & Hk)%columns_of_records_elem. subst records.
      cbn [map] in Hr. rewrite app_nil_r in Hr.
      apply list_elem_of_In, in_map_iff in Hr as (e' & <- & _).
      cbn [segment_row keys map fst] in Hk. apply list_elem_of_In in Hk. cbn [In] in Hk.
      repeat (apply elem_of_cons in Hlabel as [->|Hlabel];
              [by repeat (destruct Hk as [Hk|Hk]; [discriminate Hk|])|]).
      by apply elem_of_nil in Hlabel.
    + assert (segment_metric_row m ∈ records) as Hm'
        by (subst records; apply elem_of_app; right; cbn [map]; left).
      assert (exists v, get label (segment_metric_row m) = Some (pd.Str v)) as [v Hv].
      { repeat (apply elem_of_cons in Hlabel as [->|Hlabel]; [by eexists|]).
        by apply elem_of_nil in Hlabel. }
      rewrite bool_decide_eq_true_2.
      * rewrite string_column_kept; [done|]. by exists (segment_metric_row m), v.
      * apply columns_of_records_elem. exists (segment_metric_row m). split; [done|].
        apply get_keys. by eexists.
Qed.

(** ** The risk list *)

(** X13. The risk list holds one record per ["risk_factor"] extraction, in
    order: the category (["unknown"] without [risk_category]), the
    whole extraction text, the geographic exposure (empty without the
    attribute) and the two positions, [null] without an interval. *)
Theorem risk_export_records (result : AnnotatedDocument) :
  risk_data result =
    map (fun e =>
           json.Obj
             [ ("category", json.Str (default "unknown" (get "risk_category" (attributes e))));
               ("description", json.Str (extraction_text e));
               ("geographic_exposure",
                 json.Str (default "" (get "geographic_exposure" (attributes e))));
               ("position",
                 json.Obj
                   [ ("start", from_option (fun ci => json.Num (start_pos ci)) json.Null
                                 (char_interval e));
                     ("end", from_option (fun ci => json.Num (end_pos ci)) json.Null
                               (char_interval e)) ]) ])
      (filter (fun e => extraction_class e = "risk_factor") (extractions result))
  /\ List.length (risk_data result) = count_class "risk_factor" (extractions result).
Proof.
  assert (risk_data result = map risk_row (of_class "risk_factor" result)) as E
    by (unfold risk_data; by rewrite fold_append).
  split.
  - rewrite E. apply map_ext. intros e. unfold risk_row, get_default.
    by destruct (char_interval e), (get "risk_category" _), (get "geographic_exposure" _).
  - by rewrite E, length_map, of_class_length.
Qed.

(** ** Counters *)

Lemma incr_sum key (c : dict nat) :
  list_sum (map snd (incr key c)) = S (list_sum (map snd c)).
Proof.
  induction c as [|[k n] c IH]; [done|]. cbn [incr].
  destruct (String.eqb k key); rewrite !map_cons; change (list_sum (?x :: ?l)) with (x + list_sum l);
    cbn [snd]; [lia|]. rewrite IH. lia.
Qed.

Lemma Counter_fold_sum xs (c : dict nat) :
  list_sum (map snd (fold_left (fun c key => incr key c) xs c))
  = list_sum (map snd c) + List.length xs.
Proof.
  revert c. induction xs as [|x xs IH]; intros c; cbn [fold_left List.length]; [lia|].
  rewrite IH, incr_sum. lia.
Qed.

Lemma list_sum_perm l l' : Permutation l l' -> list_sum l = list_sum l'.
Proof. induction 1; simpl; lia. Qed.

(** The counts of a counter, in any order of [most_common], add up to
    the number of items counted, and each of them is positive. *)
Lemma most_common_counts xs :
  list_sum (map snd (most_common (Counter xs))) = List.length xs
  /\ Forall (fun entry => 0 < snd entry <= List.length xs) (most_common (Counter xs)).
Proof.
  assert (list_sum (map snd (most_common (Counter xs))) = List.length xs) as Hsum.
  { rewrite (list_sum_perm _ (map snd (Counter xs)))
      by (apply Permutation_map, most_common_perm).
    unfold Counter. by rewrite Counter_fold_sum. }
  split; [exact Hsum|]. apply Forall_forall. intros [k n] Hin.
  destruct (counts_Counter xs) as [Hnd Hget].
  assert ((k, n) ∈ Counter xs) as Hin' by (by rewrite <- (most_common_perm (Counter xs))).
  apply elem_of_dict in Hin'; [|done]. rewrite Hget in Hin'. cbn [snd].
  destruct (Nat.eqb_spec (occurrences k xs) 0); [done|]. injection Hin' as <-.
  split; [lia|]. rewrite <- Hsum.
  apply list_elem_of_In, in_split in Hin as (l1 & l2 & ->).
  rewrite map_app, list_sum_app, map_cons. change (list_sum (?x :: ?l)) with (x + list_sum l).
  cbn [snd]. lia.
Qed.

(** X14. The counts of the risk category breakdown add up to the number of
    ["risk_factor"] extractions: every risk is counted under exactly one
    category. *)
Theorem risk_breakdown_total (result : AnnotatedDocument) :
  list_sum (map snd (risk_category_breakdown result))
  = count_class "risk_factor" (extractions result).
Proof.
  unfold risk_category_breakdown.
  rewrite (proj1 (most_common_counts _)), length_map. apply of_class_length.
Qed.

(** ** The summary report *)


Lemma slice_to_exact n s : n <= PyStr.len s -> PyStr.len (PyStr.slice_to n s) = n.
Proof. intros Hn. rewrite slice_to_len. lia. Qed.

(** X16. A sample risk of the report shows at most 153 characters of the
    risk text: the whole text when it has at most 150 characters, else
    its first 150 characters followed by three dots. *)
Theorem report_sample_risks (result : AnnotatedDocument) :
  exists excerpts : list string,
    report_tail result
    = ([ ""; "## Sample Risk Factors"; "" ]
       ++ zip_with (fun risk excerpt =>
                      "- **[" +:+ risk_category_of risk +:+ "]** " +:+ excerpt)
            (take 3 (filter (fun e => extraction_class e = "risk_factor")
                       (extractions result)))
            excerpts
       ++ [ ""; "---"; "";
            "*Report generated by LangExtract financial extraction pipeline*" ])%list
    /\ Forall2 (fun risk excerpt =>
                  PyStr.len excerpt <= 153
                  /\ (if (PyStr.len (extraction_text risk) <=? 150)%nat
                      then excerpt = extraction_text risk
                      else String.prefix (PyStr.slice_to 150 (extraction_text risk))
                             (extraction_text risk) = true
                           /\ excerpt = PyStr.slice_to 150 (extraction_text risk) +:+ "..."
                           /\ PyStr.len (PyStr.slice_to 150 (extraction_text risk)) = 150
                           /\ PyStr.len excerpt = 153))
         (take 3 (filter (fun e => extraction_class e = "risk_factor")
                    (extractions result)))
         excerpts.
Proof.
  unfold report_tail. cbv zeta.
  change (of_class "risk_factor" result)
    with (filter (fun e => extraction_class e = "risk_factor") (extractions result)).
  set (risks := take 3 _).
  exists (map (fun risk =>
                 if (150 <? PyStr.len (extraction_text risk))%nat
                 then PyStr.slice_to 150 (extraction_text risk) +:+ "..."
                 else extraction_text risk) risks).
  split.
  - f_equal. f_equal. clear. induction risks as [|r risks IH]; [done|].
    cbn [map zip_with]. by rewrite IH.
  - clear. induction risks as [|r risks IH]; [constructor|].
    cbn [map]. constructor; [|exact IH].
    destruct (Nat.ltb_spec 150 (PyStr.len (extraction_text r))) as [Hlong|Hshort].
    + destruct (Nat.leb_spec (PyStr.len (extraction_text r)) 150); [lia|].
      assert (PyStr.len (PyStr.slice_to 150 (extraction_text r)) = 150) as Hlen
        by (apply slice_to_exact; lia).
      rewrite len_app, Hlen. change (PyStr.len "...") with 3.
      split; [lia|]. split; [apply slice_to_prefix|]. split; [done|]. split; [done|lia].
    + destruct (Nat.leb_spec (PyStr.len (extraction_text r)) 150); [|lia].
      split; [lia|done].
Qed.

(** ** The console analysis *)

Lemma prints_print line : prints_lines 1 (print line).
Proof. intros w. by exists [line]. Qed.

Lemma prints_ret : prints_lines 0 (mret tt).
Proof. intros w. exists []. cbn [fmap list_fmap]. by rewrite app_nil_r; destruct w. Qed.

Lemma prints_bind n1 n2 (m k : M unit) :
  prints_lines n1 m -> prints_lines n2 k -> prints_lines (n1 + n2) (m ≫= fun _ => k).
Proof.
  intros Hm Hk w. destruct (Hm w) as (l1 & E1 & <-).
  rewrite bind_unfold, E1. destruct (Hk {| fs := fs w; trace := trace w ++ (Stdout <$> l1) |})
    as (l2 & E2 & <-).
  exists (l1 ++ l2)%list. rewrite E2. cbn [fs trace].
  by rewrite fmap_app, app_assoc, length_app.
Qed.

Lemma prints_lines_eq n n' (m : M unit) : n = n' -> prints_lines n m -> prints_lines n' m.
Proof. by intros ->. Qed.

Lemma prints_for_each {A : Type} n (l : list A) (body : A -> M unit) :
  (forall x, prints_lines n (body x)) -> prints_lines (n * List.length l) (for_each l body).
Proof.
  intros Hbody. induction l as [|x l IH]; cbn [for_each List.length].
  - rewrite Nat.mul_0_r. apply prints_ret.
  - replace (n * S (List.length l)) with (n + n * List.length l) by lia.
    by apply prints_bind.
Qed.

Lemma analyze_extractions_lines (svc : Services) (result : AnnotatedDocument) :
  prints_lines
    (9
     + List.length (most_common (Counter (map extraction_class (extractions result))))
     + 2 * Nat.min 5 (count_class "financial_metric" (extractions result))
     + match count_class "risk_factor" (extractions result) with
       | 0 => 0
       | S n => 2 + Nat.min 3 (S n)
       end)
    (analyze_extractions svc result).
Proof.
  unfold analyze_extractions. cbv zeta.
  set (breakdown := most_common _). set (metrics := of_class "financial_metric" result).
  set (risks := of_class "risk_factor" result).
  assert (List.length (take 5 metrics)
          = Nat.min 5 (count_class "financial_metric" (extractions result))) as <-
    by (subst metrics; by rewrite length_take, of_class_length).
  assert (List.length risks = count_class "risk_factor" (extractions result)) as <-
    by apply of_class_length.
  clearbody breakdown metrics risks.
  apply (prints_lines_eq
           (1 + (1 + (1 + (1 + (1 + (1 + (1 + (1 * List.length breakdown + (1 + (1 + ((1 + 1) * List.length (take 5 metrics) + (match risks with [] => 0 | _ :: _ => 1 + (1 + 1 * List.length (take 3 risks)) end))))))))))))).
  { destruct risks as [|r risks']; cbn [List.length]; [lia|].
    rewrite !length_take. cbn [List.length]. lia. }
  repeat (apply prints_bind; [apply prints_print|]).
  apply prints_bind; [apply prints_for_each; intros [entity_type count]; apply prints_print|].
  repeat (apply prints_bind; [apply prints_print|]).
  apply prints_bind.
  { apply prints_for_each. intros metric. apply prints_bind; apply prints_print. }
  destruct risks as [|r risks'] eqn:E; [apply prints_ret|]. rewrite <- E.
  repeat (apply prints_bind; [apply prints_print|]).
  apply prints_for_each. intros risk. apply prints_print.
Qed.

(** X17. The console analysis returns normally, changes no file and prints:
    nine fixed lines, one line per class that occurs, two lines for
    each of the first five metrics and, when there is a risk, two lines
    and one for each of the first three risks. In the breakdown it
    prints, every class has a count between one and the number of
    extractions, and the counts add up to that number: a percentage is
    only computed when there is an extraction to divide by. *)
Theorem analyze_extractions_prints (svc : Services) (result : AnnotatedDocument) :
  let breakdown := most_common (Counter (map extraction_class (extractions result))) in
  prints_lines
    (9
     + List.length breakdown
     + 2 * Nat.min 5 (count_class "financial_metric" (extractions result))
     + match count_class "risk_factor" (extractions result) with
       | 0 => 0
       | S n => 2 + Nat.min 3 (S n)
       end)
    (analyze_extractions svc result)
  /\ list_sum (map snd breakdown) = List.length (extractions result)
  /\ Forall (fun entry => 0 < snd entry <= List.length (extractions result)) breakdown.
Proof.
  intros breakdown. subst breakdown. split; [apply analyze_extractions_lines|].
  destruct (most_common_counts (map extraction_class (extractions result))) as [Hsum Hall].
  rewrite length_map in Hsum, Hall. by split.
Qed.

(** * Further properties of the pipeline *)

(** ** Which events a computation adds *)

Section Emits.

Variable P : event -> Prop.

Lemma emits_ret {A : Type} (a : A) : emits P (mret a).
Proof. intros w. exists []. by rewrite app_nil_r. Qed.

Lemma emits_raise {A : Type} e : emits P (raise (A := A) e).
Proof. intros w. exists []. by rewrite app_nil_r. Qed.

Lemma emits_emit e : P e -> emits P (emit e).
Proof. intros He w. exists [e]. split; [done|]. by apply Forall_singleton. Qed.

Lemma emits_bind {A B : Type} (m : M A) (k : A -> M B) :
  emits P m -> (forall a, emits P (k a)) -> emits P (m ≫= k).
Proof.
  intros Hm Hk w. rewrite bind_unfold. destruct (Hm w) as (evs1 & E1 & H1).
  destruct (m w) as [w1 [e|a]]; cbn [fst] in *; [by exists evs1|].
  destruct (Hk a w1) as (evs2 & E2 & H2). exists (evs1 ++ evs2)%list.
  split; [by rewrite E2, E1, app_assoc|]. by apply Forall_app.
Qed.

Lemma emits_bind_result {A B : Type} (m : M A) (k : A -> M B) :
  emits P m -> (forall w w1 a, m w = (w1, inr a) -> emits P (k a)) -> emits P (m ≫= k).
Proof.
  intros Hm Hk w. rewrite bind_unfold. destruct (Hm w) as (evs1 & E1 & H1).
  destruct (m w) as [w1 [e|a]] eqn:E; cbn [fst] in *; [by exists evs1|].
  destruct (Hk w w1 a E w1) as (evs2 & E2 & H2). exists (evs1 ++ evs2)%list.
  split; [by rewrite E2, E1, app_assoc|]. by apply Forall_app.
Qed.

Lemma emits_try_except {A : Type} (body : M A) (handler : string -> M A) :
  emits P body -> (forall msg, emits P (handler msg)) -> emits P (try_except body handler).
Proof.
  intros Hb Hh w. unfold try_except. destruct (Hb w) as (evs1 & E1 & H1).
  destruct (body w) as [w1 [[code|msg]|a]]; cbn [fst] in *; [by exists evs1| |by exists evs1].
  destruct (Hh msg w1) as (evs2 & E2 & H2). exists (evs1 ++ evs2)%list.
  split; [by rewrite E2, E1, app_assoc|]. by apply Forall_app.
Qed.

Lemma emits_for_each {A : Type} (l : list A) (body : A -> M unit) :
  (forall x, emits P (body x)) -> emits P (for_each l body).
Proof.
  intros Hbody. induction l as [|x l IH]; [apply emits_ret|].
  cbn [for_each]. apply emits_bind; [apply Hbody|]. intros _. apply IH.
Qed.

Lemma emits_path_exists p : emits P (path_exists p).
Proof. intros w. exists []. by rewrite app_nil_r. Qed.

Lemma emits_read_text p : emits P (read_text p).
Proof.
  intros w. exists []. rewrite app_nil_r. unfold read_text.
  destruct (fs w !! p) as [[|c]|]; [done| |done]. by destruct (PyStr.utf8_valid c).
Qed.

Lemma emits_write_text p content : P (FileWrite p content) -> emits P (write_text p content).
Proof.
  intros He w. unfold write_text, fs_write.
  destruct (fs w !! p) as [[|c]|]; [exists []; by rewrite app_nil_r| |];
    (destruct (parent_is_dir w p); [|exists []; by rewrite app_nil_r]);
    exists [FileWrite p content]; (split; [done|by apply Forall_singleton]).
Qed.

Lemma emits_mkdir p : P (Mkdir p) -> emits P (mkdir_exist_ok p).
Proof.
  intros He w. exists [Mkdir p]. split; [|by apply Forall_singleton].
  unfold mkdir_exist_ok. destruct (fs w !! p) as [[|c]|]; [done|done|].
  by destruct (parent_is_dir w p).
Qed.

Lemma emits_prints_lines n (m : M unit) :
  (forall line, P (Stdout line)) -> prints_lines n m -> emits P m.
Proof.
  intros Hp Hm w. destruct (Hm w) as (lines & -> & _). exists (Stdout <$> lines).
  split; [done|]. apply Forall_fmap, Forall_forall. intros line _. apply Hp.
Qed.

End Emits.

Ltac emits_step :=
  lazymatch goal with
  | |- emits _ (mbind _ _) => apply emits_bind; [|intros ?]
  | |- emits _ (mret _) => apply emits_ret
  | |- emits _ (print _) => apply emits_emit
  | |- emits _ (emit _) => apply emits_emit
  | |- emits _ (raise _) => apply emits_raise
  | |- emits _ (sys_exit _) => apply emits_raise
  | |- emits _ (path_exists _) => apply emits_path_exists
  | |- emits _ (read_text _) => apply emits_read_text
  | |- emits _ (write_text _ _) => apply emits_write_text
  | |- emits _ (mkdir_exist_ok _) => apply emits_mkdir
  | |- emits _ (analyze_extractions _ _) =>
      eapply emits_prints_lines; [intros ?|apply analyze_extractions_lines]
  | |- emits _ (try_except _ _) => apply emits_try_except; [|intros ?]
  | |- emits _ (for_each _ _) => apply emits_for_each; intros ?
  | |- emits _ (match ?x with _ => _ end) => destruct x
  end.

(** ** Which files a computation writes *)











Section Steps.

Variable svc : Services.






(** X19. An error of the annotation service is not caught: steps 2 to 4
    end with it right after the call, before anything is written. *)
Theorem extract_and_export_llm_failure (args : Args) (api_key filing_text msg : string)
    (w : World) :
  lx_extract svc filing_text (model args) api_key = inl msg ->
  extract_and_export svc args api_key filing_text w
  = ({| fs := fs w;
        trace := trace w ++
          [ Stdout "Step 2: Extracting Structured Information";
            Stdout (PyStr.repeat_char "-" 40);
            Stdout ("Extracting financial information using " +:+ model args +:+ "...");
            Stdout ("Text length: " +:+ PyStr.format_thousands (PyStr.len filing_text)
                    +:+ " characters");
            LlmExtract filing_text (model args) ] |},
     inl (Exception msg)).
Proof.
  intros Hlx. destruct w as [wfs wtr]. unfold extract_and_export, extract_from_text.
  run. rewrite Hlx. by rewrite <- !app_assoc.
Qed.

(** X20. With [--skip-fetch], [main] never goes to the filing server: it
    sends no request with [requests.get] and never pauses, however it
    ends. The call of the annotation service is another event, which
    such a run does make. *)
Theorem main_skip_fetch_sends_no_filing_request (args : Args) (key : option string) :
  skip_fetch args = true ->
  emits (fun e => match e with HttpGet _ | Sleep => False | _ => True end)
    (main svc args key).
Proof.
  intros Hskip. unfold main, obtain_filing_text. rewrite Hskip. cbn [negb].
  unfold extract_and_export, extract_from_text, save_and_visualize,
    export_financial_metrics, export_risk_factors, export_business_segments,
    generate_summary_report. cbv zeta.
  repeat emits_step; exact I.
Qed.



(** X22. For a ticker that the table does not hold once upper-cased by
    [str.upper], a fetching run of [main] never ends normally, and all it does is print and create
    directories: no request, no call of the annotation service, no file
    written. *)
Theorem main_unknown_ticker (args : Args) (key : option string) (w : World) :
  skip_fetch args = false ->
  ticker_to_cik !! PyStr.upper (unicode_upper svc) (ticker args) = None ->
  (exists e, (main svc args key w).2 = inl e)
  /\ exists evs : list event,
       trace (main svc args key w).1 = (trace w ++ evs)%list
       /\ Forall (fun e => match e with Stdout _ | Mkdir _ => True | _ => False end) evs.
Proof.
  intros Hskip Hcik.
  assert (forall self ftype year sections w0,
            get_filing (edgar svc) (unicode_upper svc) self (ticker args) ftype year sections w0
            = ({| fs := fs w0;
                  trace := trace w0 ++ [Stdout ("CIK not found for ticker: " +:+ ticker args)] |},
               inr "")) as Hget.
  { intros self ftype year sections w0. unfold get_filing, get_company_cik. by rewrite Hcik. }
  assert (forall w0, exists e, (obtain_filing_text svc args w0).2 = inl e) as Hfail.
  { intros w0. unfold obtain_filing_text, __init__. rewrite Hskip. cbn [negb]. run.
    match goal with
    | |- context [mkdir_exist_ok ?p ?w1] => destruct (mkdir_exist_ok p w1) as [w2 [e|[]]]
    end; run; [by eexists|].
    rewrite Hget. run. by eexists. }
  assert (emits (fun e => match e with Stdout _ | Mkdir _ => True | _ => False end)
            (obtain_filing_text svc args)) as Hobtain.
  { unfold obtain_filing_text, __init__. rewrite Hskip. cbn [negb].
    do 2 (apply emits_bind; [by apply emits_emit|]; intros _).
    apply emits_bind; [apply emits_bind; [by apply emits_mkdir|intros _; apply emits_ret]|].
    intros fetcher. apply emits_bind_result.
    - intros w0. rewrite Hget. cbn [fst trace]. eexists. split; [reflexivity|].
      by apply Forall_singleton.
    - intros w0 w1 text. rewrite Hget. intros [= _ <-]. repeat emits_step; done. }
  split.
  - unfold main. run.
    destruct (mkdir_exist_ok (output_dir args) w) as [w1 [e|[]]]; run; [by eexists|].
    destruct key as [[|c key]|]; run; [by eexists| |by eexists].
    match goal with
    | |- context [obtain_filing_text svc args ?w0] =>
        destruct (Hfail w0) as [e He];
        destruct (obtain_filing_text svc args w0) as [w2 [e'|t]]
    end; [by eexists|done].
  - assert (emits (fun e => match e with Stdout _ | Mkdir _ => True | _ => False end)
              (main svc args key)) as Hemits; [|exact (Hemits w)].
    unfold main. apply emits_bind; [by apply emits_mkdir|]. intros _.
    destruct key as [[|c key]|]; [repeat emits_step; done| |repeat emits_step; done].
    do 3 (apply emits_bind; [by apply emits_emit|]; intros _).
    apply emits_bind_result; [exact Hobtain|].
    intros w0 w1 t Hrun. destruct (Hfail w0) as [e He]. by rewrite Hrun in He.
Qed.

(** ** The example run of the extraction module *)

(** X23. Without the credential (unset or empty) the example run only warns:
    it prints three lines and returns normally, without a call of the
    annotation service and without exit status. *)
Theorem extraction_main_without_api_key (key : option string) (w : World) :
  PyStr.truthy key = false ->
  financial_extraction.main svc key w
  = ({| fs := fs w;
        trace := trace w ++
          [ Stdout "⚠️  Warning: LANGEXTRACT_API_KEY not set in environment";
            Stdout "   Set it with: export LANGEXTRACT_API_KEY='your-key-here'";
            Stdout "   Or add to .env file" ] |},
     inr tt).
Proof.
  intros Hkey. destruct w as [wfs wtr]. unfold financial_extraction.main.
  destruct key as [[|c key]|]; [|done|]; run; by rewrite <- !app_assoc.
Qed.



End Steps.

(** * The further properties on concrete runs *)

Lemma search_filings_missing_href_witness :
  let edgar := fun (_ : list event) (_ : HttpRequest) =>
                 inr (B := BeautifulSoup) (A := string) Scenario.broken_search_page in
  find_table "tableFile2" Scenario.broken_search_page <> None
  /\ exists w',
       search_filings edgar Scenario.fetcher "0001045810" "10-K" 10 Scenario.fresh
       = (w', inr [])
       /\ List.last (trace w') Sleep = Stdout "Error searching filings: 'href'".
Proof.
  intros edgar. split; [discriminate|].
  refine (search_filings_missing_href edgar Scenario.fetcher "0001045810" "10-K" 10
            Scenario.fresh Scenario.broken_search_page
            {| table_class := ["tableFile2"];
               table_rows := table_rows (hd {| table_class := []; table_rows := [] |}
                                           (tables Scenario.broken_search_page)) |}
            [ Scenario.td "10-K" None;
              {| td_text := "Documents"; td_a := Some {| href := None |} |};
              Scenario.td "Annual report" None; Scenario.td "2023-02-24" None;
              Scenario.td "001-23985" None ]
            {| td_text := "Documents"; td_a := Some {| href := None |} |}
            {| href := None |} _ _ _ _ _ _ _).
  - intros hist req. reflexivity.
  - reflexivity.
  - apply list_elem_of_In. simpl. right. left. reflexivity.
  - simpl. lia.
  - reflexivity.
  - reflexivity.
  - reflexivity.
Defined.

Lemma get_filing_year_without_match_witness :
  let edgar := Scenario.server Scenario.index_href in
  PyStr.contains "2023" "2024-02-21" = false
  /\ get_filing edgar (fun s => s) Scenario.fetcher "NVDA" "10-K" (Some "2023") None
       Scenario.cache_ready
     = ({| fs := fs Scenario.cache_ready;
           trace :=
             trace (search_filings edgar Scenario.fetcher "0001045810" "10-K" 10
                      Scenario.cache_ready).1
             ++ [ Stdout "No 10-K filings found for NVDA in 2023" ] |},
        inr "").
Proof.
  intros edgar. split; [reflexivity|].
  refine (get_filing_year_without_match edgar (fun s => s) Scenario.fetcher "NVDA" "10-K" "2023"
            "0001045810" None Scenario.cache_ready
            (search_filings edgar Scenario.fetcher "0001045810" "10-K" 10
               Scenario.cache_ready).1
            [ {| sec_filing_fetcher.filing_type := "10-K";
                 filing_date := "2024-02-21";
                 filing_url := BASE_URL +:+ Scenario.index_href |} ] _ _ _ _ _ _).
  - reflexivity.
  - discriminate.
  - discriminate.
  - vm_compute. reflexivity.
  - discriminate.
  - repeat constructor.
Defined.


Lemma fetcher_init_repeatable_witness :
  let first := __init__ "sec_cache" Scenario.fresh in
  first.2 = inr Scenario.fetcher
  /\ fs first.1 !! "sec_cache" = Some Dir
  /\ (__init__ "sec_cache" first.1).2 = inr Scenario.fetcher
  /\ fs (__init__ "sec_cache" first.1).1 = fs first.1.
Proof.
  intros first.
  destruct (fetcher_init_repeatable "sec_cache" Scenario.fresh first.1 Scenario.fetcher
              eq_refl) as (_ & Hdir & Hagain).
  split; [reflexivity|]. split; [exact Hdir|]. by rewrite Hagain.
Defined.

Lemma fetcher_main_saves_retrieved_text_witness :
  let edgar := Scenario.server Scenario.index_href in
  let w := {| fs := {[ "sec_filings_cache" := Dir ]}; trace := [] |} in
  exists w',
    sec_filing_fetcher.main edgar (fun s => s) w = (w', inr tt)
    /\ fs w' !! "nvidia_10k_sample.txt" = Some (File "NVIDIA Corporation annual report").
Proof.
  intros edgar w.
  assert (cache_holds_text {| cache_dir := "sec_filings_cache" |} w) as Hcache.
  { intros url. unfold w, cache_file, path_join. cbn [fs cache_dir].
    rewrite lookup_singleton_ne; [done|]. cbn. discriminate. }
  destruct (fetcher_main_saves_retrieved_text edgar (fun s => s) w eq_refl Hcache)
    as (w' & Hrun & Hsaved); [discriminate|].
  exists w'. split; [exact Hrun|].
  assert ((sec_filing_fetcher.main edgar (fun s => s) w).1 = w') as <- by (by rewrite Hrun).
  vm_compute. reflexivity.
Defined.

Lemma get_company_cik_case_insensitive_witness :
  PyStr.is_ascii "nvda" = true
  /\ get_company_cik (fun s => s) "nvda" = Some "0001045810"
  /\ get_company_cik (fun s => s) (PyStr.upper (fun s => s) "nvda")
     = get_company_cik (fun s => s) "nvda".
Proof.
  split; [reflexivity|]. split; [reflexivity|].
  exact (proj1 (get_company_cik_case_insensitive (fun s => s) "nvda" eq_refl)).
Defined.

Lemma full_table_cells_witness :
  let df := export_to_dataframe Scenario.annotated in
  pd.columns df
  = [ "extraction_class"; "extraction_text"; "start_pos"; "end_pos"; "attr_metric_name";
      "attr_value"; "attr_unit"; "attr_risk_category"; "attr_geographic_exposure" ]
  /\ pd.loc df 0 "start_pos" = Some (pd.Float 0)
  /\ pd.loc df 0 "end_pos" = Some (pd.Float 25)
  /\ pd.loc df 1 "extraction_class" = Some (pd.Str "risk_factor")
  /\ pd.loc df 1 "start_pos" = Some pd.NaN
  /\ pd.loc df 1 "attr_risk_category" = Some (pd.Str "regulatory")
  /\ pd.loc df 1 "attr_value" = Some pd.NaN.
Proof.
  intros df.
  destruct (full_table_cells Scenario.annotated 0
              {| extraction_class := "financial_metric";
                 extraction_text := "Revenue was $60.9 billion";
                 char_interval := Some {| start_pos := 0; end_pos := 25 |};
                 attributes := [ ("metric_name", "revenue"); ("value", "60.9");
                                 ("unit", "USD_billions") ] |}
              eq_refl ltac:(compute_done))
    as (_ & _ & _ & Hstart0 & Hend0 & _).
  destruct (full_table_cells Scenario.annotated 1
              {| extraction_class := "risk_factor";
                 extraction_text := "Export controls may limit sales in China";
                 char_interval := None;
                 attributes := [ ("risk_category", "regulatory");
                                 ("geographic_exposure", "china") ] |}
              eq_refl ltac:(compute_done))
    as (_ & Hclass & _ & Hstart & _ & Hattr & Hnan).
  split; [reflexivity|]. split; [exact Hstart0|]. split; [exact Hend0|].
  split; [exact Hclass|]. split; [exact Hstart|].
  split; [exact (Hattr "risk_category" "regulatory" eq_refl)|].
  refine (Hnan "value"
            {| extraction_class := "financial_metric";
               extraction_text := "Revenue was $60.9 billion";
               char_interval := Some {| start_pos := 0; end_pos := 25 |};
               attributes := [ ("metric_name", "revenue"); ("value", "60.9");
                               ("unit", "USD_billions") ] |} _ _ eq_refl).
  - apply list_elem_of_In. simpl. left. reflexivity.
  - apply list_elem_of_In. simpl. right. left. reflexivity.
Defined.

Lemma segment_table_cells_witness :
  let df := pd.of_records (segment_data Scenario.segmented) in
  pd.columns df = [ "segment_name"; "segment_type"; "metric_name"; "value"; "unit" ]
  /\ pd.loc df 0 "segment_name" = Some (pd.Str "Data Center")
  /\ pd.loc df 0 "segment_type" = Some (pd.Str "product_line")
  /\ pd.loc df 0 "metric_name" = Some pd.NaN.
Proof.
  intros df.
  destruct (segment_table_cells Scenario.segmented 0
              {| extraction_class := "business_segment";
                 extraction_text := "Data Center";
                 char_interval := Some {| start_pos := 0; end_pos := 11 |};
                 attributes := [ ("segment_type", "product_line") ] |} eq_refl)
    as (Hname & Htype & Hnan).
  split; [reflexivity|]. split; [exact Hname|]. split; [exact Htype|].
  apply Forall_cons in Hnan as [Hnan _]. exact Hnan.
Defined.


Lemma extract_and_export_llm_failure_witness :
  let svc := Scenario.unavailable Scenario.index_href in
  let run := extract_and_export svc (Scenario.args true) "key" "annual report"
               Scenario.output_ready in
  run.2 = inl (Exception "503 Service Unavailable")
  /\ fs run.1 = fs Scenario.output_ready.
Proof.
  intros svc run. unfold run.
  rewrite (extract_and_export_llm_failure svc (Scenario.args true) "key" "annual report"
             "503 Service Unavailable" Scenario.output_ready eq_refl).
  split; reflexivity.
Defined.

Lemma main_skip_fetch_sends_no_filing_request_witness :
  skip_fetch (Scenario.args true) = true
  /\ emits (fun e => match e with HttpGet _ | Sleep => False | _ => True end)
       (main (Scenario.services Scenario.index_href) (Scenario.args true) (Some "key")).
Proof.
  split; [reflexivity|].
  exact (main_skip_fetch_sends_no_filing_request (Scenario.services Scenario.index_href)
           (Scenario.args true) (Some "key") eq_refl).
Defined.


(** An empty cache file is submitted like any other. *)
Example skip_fetch_submits_empty_text :
  let run := main (Scenario.services Scenario.index_href) (Scenario.args true) (Some "key")
               Scenario.cached_empty in
  LlmExtract "" "gemini-3-flash-preview" ∈ trace run.1 /\ run.2 = inr tt.
Proof. split; [apply list_elem_of_In; vm_compute; tauto|vm_compute; reflexivity]. Qed.

Lemma main_unknown_ticker_witness :
  let run := main (Scenario.services Scenario.index_href) (Scenario.args_for "IBM")
               (Some "key") Scenario.fresh in
  ticker_to_cik !! PyStr.upper (fun s => s) "IBM" = None
  /\ run.2 = inl (SystemExit 1)
  /\ exists evs : list event,
       trace run.1 = (trace Scenario.fresh ++ evs)%list
       /\ Forall (fun e => match e with Stdout _ | Mkdir _ => True | _ => False end) evs.
Proof.
  intros run. split; [reflexivity|]. split; [vm_compute; reflexivity|].
  exact (proj2 (main_unknown_ticker (Scenario.services Scenario.index_href)
                  (Scenario.args_for "IBM") (Some "key") Scenario.fresh eq_refl eq_refl)).
Defined.

Lemma extraction_main_without_api_key_witness :
  PyStr.truthy (Some "") = false
  /\ financial_extraction.main (Scenario.services Scenario.index_href) (Some "")
       Scenario.fresh
     = ({| fs := ∅;
           trace :=
             [ Stdout "⚠️  Warning: LANGEXTRACT_API_KEY not set in environment";
               Stdout "   Set it with: export LANGEXTRACT_API_KEY='your-key-here'";
               Stdout "   Or add to .env file" ] |},
        inr tt).
Proof.
  split; [reflexivity|].
  exact (extraction_main_without_api_key (Scenario.services Scenario.index_href) (Some "")
           Scenario.fresh eq_refl).
Defined.


(** ** The few-shot examples *)

(** X25. The two worked examples carry eight and six extractions, all of
    one of the six classes of the prompt. Every extraction text occurs
    in the text of its example once the line breaks of that text are
    read as spaces; one of them does not occur verbatim, because it
    runs across a line break. *)
Theorem examples_grounded :
  map (fun ex => List.length (example_extractions ex)) create_financial_examples = [8; 6]
  /\ Forall (fun ex =>
               Forall (fun e =>
                         extraction_class e
                           ∈ [ "company_info"; "financial_metric"; "risk_factor";
                               "business_segment"; "time_period"; "metric_change" ]
                         /\ grounded_modulo_line_breaks (example_text ex)
                              (extraction_text e) = true)
                 (example_extractions ex))
       create_financial_examples
  /\ concat (map (fun ex =>
                    map extraction_text
                      (List.filter
                         (fun e => negb (PyStr.contains (extraction_text e) (example_text ex)))
                         (example_extractions ex)))
               create_financial_examples)
     = [ "up 126% from $27.0 billion in fiscal 2023" ].
Proof.
  split; [reflexivity|]. split; [|vm_compute; reflexivity].
  unfold create_financial_examples.
  repeat lazymatch goal with
         | |- Forall _ (_ :: _) => apply Forall_cons_2
         | |- Forall _ [] => apply Forall_nil_2
         | |- Forall _ (example_extractions _) => cbn [example_extractions]
         | |- _ /\ _ => split
         | |- _ ∈ _ =>
             apply list_elem_of_In; cbn [extraction_class In];
             repeat first [left; reflexivity | right]
         | |- grounded_modulo_line_breaks _ _ = true => vm_compute; reflexivity
         end.
Qed.
